(** * mcp_run.client: the install cache, the plugin cache and [Client.plugin]

    A shallow embedding of the caching core of [src/mcp_run/client.py]:
    [Client.__init__], [Client.clear_cache], [Client.list_installs],
    [Client.installs] and [Client.plugin]; and of what is built on it:
    [Client.tools], [Client.tool], [Client.call_tool], [Client.install],
    [Client.uninstall], and the two properties of [User].

    Python objects that the code shares and mutates live in an explicit
    store: [Servlet] objects (their [content] attribute is assigned by
    [Client.plugin]) and the [settings["config"]] dictionaries (which
    [Client.plugin] hands to the manifest without copying).  The install
    cache, the one dict whose values the code iterates over, is kept
    together with the order of its keys.  The HTTP gateway, the clock and the Extism loader are an explicit [World] value
    consulted by each call; every request and every [ext.Plugin(...)]
    construction is appended to an event log, so that "which I/O did this
    call perform" is a statement about the final state. *)

From stdpp Require Import base gmap strings list fin_maps.
From Stdlib Require Import ZArith Lia.

Local Open Scope string_scope.
Local Open Scope list_scope.
Local Open Scope Z_scope.

Module McpRun.

(** ** Data model *)

(** Object identity (what Python's [is] compares). *)
Abbreviation ref := nat.

(** [bytes] values: WASM images and HTTP bodies. *)
Abbreviation bytes := string.

(** [settings["permissions"]["filesystem"]], a dict that may or may not
    carry ["volumes"]. *)
Record FilesystemPerm := { volumes : option (list (string * string)) }.

(** [settings["permissions"]["network"]], a dict that may or may not
    carry ["domains"]. *)
Record NetworkPerm := { domains : option (list string) }.

(** [settings["permissions"]]: each key may be missing. *)
Record Permissions := {
  filesystem : option FilesystemPerm;
  network : option NetworkPerm }.

(** [Servlet.settings]: ["permissions"] may be missing; ["config"], when
    present, is a reference to a dict object of the store. *)
Record Settings := {
  permissions : option Permissions;
  config : option ref }.

(** Modelled from the spec: the [Tool] class (types.py) is not among the
    sources; its fields are the ones [list_installs] passes to the
    constructor, [servlet] being the back-reference to the owning servlet
    object. *)
Record Tool := {
  tool_name : string;
  description : string;
  input_schema : string;
  servlet : ref }.

(** Modelled from the spec: the [Servlet] class (types.py) is not among
    the sources; its fields are the ones [list_installs] passes to the
    constructor, plus [content], "absent until first use", which
    [Client.plugin] reads before it ever assigns it and which is therefore
    [None] on a new object. *)
Record Servlet := {
  binding_id : string;
  content_addr : string;
  name : string;
  slug : string;
  settings : Settings;
  tools : gmap string Tool;
  has_oauth : bool;
  content : option bytes }.

(** One entry of the [wasm] list of a manifest: [{"data": ...}]. *)
Record WasmModule := { data : bytes }.

(** An [ext.Function] is opaque here; it is identified by a name. *)
Abbreviation ExtFunction := string.

(** The manifest dict built by [Client.plugin]; ["config"] is a reference
    to a dict object, not a copy. *)
Record Manifest := {
  wasm : list WasmModule;
  allowed_paths : list (string * string);
  allowed_hosts : list string;
  manifest_config : ref }.

(** An [ext.Plugin]: the arguments it was constructed with, and the
    contents of the config dict at that moment. *)
Record Runtime := {
  rt_manifest : Manifest;
  rt_config : gmap string string;
  rt_wasi : bool;
  rt_functions : list ExtFunction }.

(** Modelled from the spec: the [InstalledPlugin] class (plugin.py) is
    not among the sources; it "wraps one opaque Runtime handle, the
    ServletRecord it was built from, and a createdAt timestamp", the
    latter read by [Client.plugin] as [_timestamp].  [obj_id] is the
    identity of the Python object. *)
Record InstalledPlugin := {
  obj_id : ref;
  _install : ref;
  _plugin : Runtime;
  _timestamp : Z }.

(** ** The world outside the client *)

(** A [requests.Response], as far as the code looks at it. *)
Record Response (B : Type) := {
  status_code : Z;
  header_Date : option string;
  body : B }.
Arguments status_code {B} _.
Arguments header_Date {B} _.
Arguments body {B} _.

(** [requests.get] either raises before a response exists or returns one. *)
Inductive Reply (B : Type) :=
| NoResponse
| Got (res : Response B).
Arguments NoResponse {B}.
Arguments Got {B} res.

(** [res.json()["oauth_info"]], decoded. *)
Record OAuthInfo := {
  config_name : string;
  access_token : string }.

(** One tool entry of [servlet.meta.schema]. *)
Record ToolWire := {
  tw_name : string;
  tw_description : string;
  tw_inputSchema : string }.

(** [servlet.meta.schema]: [{"tools": [...]}] or one tool object. *)
Inductive SchemaWire :=
| SchemaTools (ts : list ToolWire)
| SchemaSingle (t : ToolWire).

(** One element of [data["installs"]]; [iw_config] holds the contents of
    [settings["config"]] when that key is present. *)
Record InstallWire := {
  iw_binding_id : string;
  iw_contentAddress : string;
  iw_name : option string;
  iw_slug : string;
  iw_has_client : bool;
  iw_schema : SchemaWire;
  iw_permissions : option Permissions;
  iw_config : option (gmap string string) }.

(** The decoded body [data] of the install list, as far as the loop of
    [list_installs] gets with it: [NoInstallsKey] when it has no
    ["installs"] key; [Installs items] when every install has the keys
    that the loop body reads; [InstallsUpTo items key] when the installs
    are so up to one that lacks [key], the first lookup to fail in it
    (what comes after that install is never looked at). *)
Inductive InstallsData :=
| NoInstallsKey
| Installs (items : list InstallWire)
| InstallsUpTo (items : list InstallWire) (key : string).

(** What one call of a client method finds outside: the clock (one
    reading of [datetime.now()] serves the whole call), the gateway's
    answers and whether Extism accepts a manifest.  A decoded body of
    [None] stands for a body that [res.json()] rejects. *)
Record World := {
  now : Z;
  oauth_reply : string -> string -> Reply (option OAuthInfo);
  content_reply : string -> Reply bytes;
  installations_reply :
    string -> option string -> Reply (option InstallsData);
  extism_loads : Manifest -> gmap string string -> bool }.

(** Everything observable that a call does outside the client's own
    fields. *)
Inductive Event :=
| GetInstallations (profile : string) (if_modified_since : option string)
| GetOAuth (profile servlet_name : string)
| GetContent (addr : string)
| ExtPlugin (m : Manifest) (wasi : bool) (functions : list ExtFunction).

Definition is_network (e : Event) : bool :=
  match e with
  | ExtPlugin _ _ _ => false
  | _ => true
  end.

Inductive Exn :=
| ConnectionError
| HTTPError (status : Z)
| JSONDecodeError
| KeyError (key : string)
| ExtismError
| NoSuchObject.

(** ** Client state and store *)

(** The dict [install_cache] is kept as a finite map together with
    [install_order], its keys in the order in which Python's dict holds
    them, the order of their first insertion.  The other dicts of the
    client are never iterated over, so they are finite maps only. *)
Record State := {
  config_profile : string;
  install_cache : gmap string ref;
  install_order : list string;
  plugin_cache : gmap string InstalledPlugin;
  last_installations_request : gmap string (option string);
  servlets : gmap ref Servlet;
  dicts : gmap ref (gmap string string);
  next_ref : ref;
  io_log : list Event }.

(** ** A state monad in which an exception keeps the state reached *)

Inductive Result (A : Type) :=
| Ok (a : A)
| Raise (e : Exn).
Arguments Ok {A} a.
Arguments Raise {A} e.

Definition M (A : Type) : Type := State -> Result A * State.

Definition ret {A} (a : A) : M A := fun s => (Ok a, s).

Definition raise {A} (e : Exn) : M A := fun s => (Raise e, s).

Definition bind {A B} (m : M A) (k : A -> M B) : M B :=
  fun s =>
    match m s with
    | (Ok a, s') => k a s'
    | (Raise e, s') => (Raise e, s')
    end.

Notation "x <- m ;; k" := (bind m (fun x => k))
  (at level 90, m at level 80, right associativity).
Notation "m ;;; k" := (bind m (fun _ => k))
  (at level 90, right associativity).

Definition gets {A} (f : State -> A) : M A := fun s => (Ok (f s), s).

Definition modify (f : State -> State) : M unit := fun s => (Ok tt, f s).

Fixpoint mapM {A B} (f : A -> M B) (l : list A) : M (list B) :=
  match l with
  | [] => ret []
  | x :: l' => y <- f x ;; ys <- mapM f l' ;; ret (y :: ys)
  end.

(** *** Field updates *)

Definition set_install_cache (f : gmap string ref -> gmap string ref)
    (s : State) : State :=
  {| config_profile := config_profile s;
     install_cache := f (install_cache s);
     install_order := install_order s;
     plugin_cache := plugin_cache s;
     last_installations_request := last_installations_request s;
     servlets := servlets s;
     dicts := dicts s;
     next_ref := next_ref s;
     io_log := io_log s |}.

Definition set_install_order (f : list string -> list string)
    (s : State) : State :=
  {| config_profile := config_profile s;
     install_cache := install_cache s;
     install_order := f (install_order s);
     plugin_cache := plugin_cache s;
     last_installations_request := last_installations_request s;
     servlets := servlets s;
     dicts := dicts s;
     next_ref := next_ref s;
     io_log := io_log s |}.

Definition set_plugin_cache
    (f : gmap string InstalledPlugin -> gmap string InstalledPlugin)
    (s : State) : State :=
  {| config_profile := config_profile s;
     install_cache := install_cache s;
     install_order := install_order s;
     plugin_cache := f (plugin_cache s);
     last_installations_request := last_installations_request s;
     servlets := servlets s;
     dicts := dicts s;
     next_ref := next_ref s;
     io_log := io_log s |}.

Definition set_last_installations_request
    (f : gmap string (option string) -> gmap string (option string))
    (s : State) : State :=
  {| config_profile := config_profile s;
     install_cache := install_cache s;
     install_order := install_order s;
     plugin_cache := plugin_cache s;
     last_installations_request := f (last_installations_request s);
     servlets := servlets s;
     dicts := dicts s;
     next_ref := next_ref s;
     io_log := io_log s |}.

Definition set_servlets (f : gmap ref Servlet -> gmap ref Servlet)
    (s : State) : State :=
  {| config_profile := config_profile s;
     install_cache := install_cache s;
     install_order := install_order s;
     plugin_cache := plugin_cache s;
     last_installations_request := last_installations_request s;
     servlets := f (servlets s);
     dicts := dicts s;
     next_ref := next_ref s;
     io_log := io_log s |}.

Definition set_dicts
    (f : gmap ref (gmap string string) -> gmap ref (gmap string string))
    (s : State) : State :=
  {| config_profile := config_profile s;
     install_cache := install_cache s;
     install_order := install_order s;
     plugin_cache := plugin_cache s;
     last_installations_request := last_installations_request s;
     servlets := servlets s;
     dicts := f (dicts s);
     next_ref := next_ref s;
     io_log := io_log s |}.

Definition bump_next_ref (s : State) : State :=
  {| config_profile := config_profile s;
     install_cache := install_cache s;
     install_order := install_order s;
     plugin_cache := plugin_cache s;
     last_installations_request := last_installations_request s;
     servlets := servlets s;
     dicts := dicts s;
     next_ref := S (next_ref s);
     io_log := io_log s |}.

Definition log (e : Event) : M unit :=
  modify (fun s =>
    {| config_profile := config_profile s;
       install_cache := install_cache s;
       install_order := install_order s;
       plugin_cache := plugin_cache s;
       last_installations_request := last_installations_request s;
       servlets := servlets s;
       dicts := dicts s;
       next_ref := next_ref s;
       io_log := io_log s ++ [e] |}).

(** A fresh object identity. *)
Definition fresh : M ref :=
  r <- gets next_ref ;; modify bump_next_ref ;;; ret r.

(** Reading a [Servlet] object through its reference. *)
Definition get_servlet (r : ref) : M Servlet :=
  fun s =>
    match servlets s !! r with
    | Some v => (Ok v, s)
    | None => (Raise NoSuchObject, s)
    end.

(** Reading a dict object through its reference. *)
Definition get_dict (l : ref) : M (gmap string string) :=
  fun s =>
    match dicts s !! l with
    | Some d => (Ok d, s)
    | None => (Raise NoSuchObject, s)
    end.

(** [self.install_cache = {}] *)
Definition empty_install_cache (s : State) : State :=
  set_install_order (fun _ => []) (set_install_cache (fun _ => ∅) s).

(** [self.install_cache[k] = r]: a key that is new goes to the end of the
    dict, a key that is there keeps its place. *)
Definition assign_install (k : string) (r : ref) (s : State) : State :=
  set_install_order (fun o => if bool_decide (k ∈ o) then o else o ++ [k])
    (set_install_cache <[k := r]> s).

(** [self.install_cache.values()]: the values, in the order of the
    keys. *)
Definition install_values (s : State) : list ref :=
  omap (fun k => install_cache s !! k) (install_order s).

(** [install.content = b] *)
Definition set_content (b : bytes) (v : Servlet) : Servlet :=
  {| binding_id := binding_id v;
     content_addr := content_addr v;
     name := name v;
     slug := slug v;
     settings := settings v;
     tools := tools v;
     has_oauth := has_oauth v;
     content := Some b |}.

(** ** requests *)

(** [res.raise_for_status()]: raises for 4xx and 5xx. *)
Definition is_error_status (c : Z) : bool :=
  bool_decide (400 <= c < 600).

Definition raise_for_status {B} (res : Response B) : M unit :=
  if is_error_status (status_code res)
  then raise (HTTPError (status_code res))
  else ret tt.

(** [requests.get(...)] with the answer the world gives. *)
Definition requests_get {B} (e : Event) (r : Reply B) : M (Response B) :=
  log e ;;;
  match r with
  | NoResponse => raise ConnectionError
  | Got res => ret res
  end.

(** ** datetime *)

(** Instants and durations in microseconds, the resolution of
    [datetime]. *)
Definition timedelta (minutes seconds : Z) : Z :=
  (minutes * 60 + seconds) * 1000000.

(** ** Client.__init__ and Client.clear_cache *)

Definition init (profile : string) : State :=
  {| config_profile := profile;
     install_cache := ∅;
     install_order := [];
     plugin_cache := ∅;
     last_installations_request := ∅;
     servlets := ∅;
     dicts := ∅;
     next_ref := 0%nat;
     io_log := [] |}.

Definition clear_cache : M unit :=
  modify (set_last_installations_request (fun _ => ∅)) ;;;
  modify empty_install_cache ;;;
  modify (set_plugin_cache (fun _ => ∅)).

(** ** Client.list_installs *)

(** [_fix_profile(profile)]: no argument means the configured profile.
    Profiles are identified by their slug string. *)
Definition fix_profile (profile : option string) : M string :=
  match profile with
  | Some p => ret p
  | None => gets config_profile
  end.

Definition schema_tools (sc : SchemaWire) : list ToolWire :=
  match sc with
  | SchemaTools ts => ts
  | SchemaSingle t => [t]
  end.

(** The loop [for tool in tools: install.tools[tool["name"]] = Tool(...)];
    [self] is the servlet object under construction. *)
Definition make_tools (self : ref) (ts : list ToolWire) : gmap string Tool :=
  foldl (fun m t =>
           <[tw_name t := {| tool_name := tw_name t;
                             description := tw_description t;
                             input_schema := tw_inputSchema t;
                             servlet := self |}]> m) ∅ ts.

(** The [settings] value of one decoded install: a ["config"] dict, when
    the key is there, is a new dict object. *)
Definition decode_settings (iw : InstallWire) : M Settings :=
  match iw_config iw with
  | Some d =>
      l <- fresh ;;
      modify (set_dicts <[l := d]>) ;;;
      ret {| permissions := iw_permissions iw; config := Some l |}
  | None => ret {| permissions := iw_permissions iw; config := None |}
  end.

(** One iteration of [for install in data["installs"]], up to its
    [yield]. *)
Definition list_installs_item (iw : InstallWire) : M ref :=
  st <- decode_settings iw ;;
  r <- fresh ;;
  let install :=
    {| binding_id := iw_binding_id iw;
       content_addr := iw_contentAddress iw;
       name := default "" (iw_name iw);
       slug := iw_slug iw;
       settings := st;
       tools := make_tools r (schema_tools (iw_schema iw));
       has_oauth := iw_has_client iw;
       content := None |} in
  modify (set_servlets <[r := install]>) ;;;
  modify (assign_install (name install) r) ;;;
  pc <- gets plugin_cache ;;
  (if bool_decide (is_Some (pc !! name install))
   then modify (set_plugin_cache (delete (name install)))
   else ret tt) ;;;
  ret r.

(** [self.last_installations_request.get(profile)]: [None] when the key
    is missing and when the stored [Date] header was [None]. *)
Definition last_for (s : State) (profile : string) : option string :=
  match last_installations_request s !! profile with
  | Some (Some d) => Some d
  | _ => None
  end.

Definition last_request (profile : string) : M (option string) :=
  gets (fun s => last_for s profile).

(** [Client.list_installs], the generator driven to exhaustion (as
    [Client.installs] drives it); the result is the sequence of yielded
    servlet objects. *)
Definition list_installs (w : World) (profile : option string)
    : M (list ref) :=
  profile <- fix_profile profile ;;
  last <- last_request profile ;;
  res <- requests_get (GetInstallations profile last)
           (installations_reply w profile last) ;;
  raise_for_status res ;;;
  if bool_decide (status_code res = 301)
  then gets install_values
  else
    match body res with
    | None => raise JSONDecodeError
    | Some data =>
        modify (set_last_installations_request
                  <[profile := header_Date res]>) ;;;
        match data with
        | NoInstallsKey => raise (KeyError "installs")
        | Installs items => mapM list_installs_item items
        | InstallsUpTo items key =>
            mapM list_installs_item items ;;; raise (KeyError key)
        end
    end.

(** [Client.installs] *)
Definition installs (w : World) : M (gmap string ref) :=
  list_installs w None ;;; gets install_cache.

(** ** Client.plugin *)

(** Python's [a or b] for an optional boolean [a]: [a] when it is truthy,
    otherwise [b]. *)
Definition py_or (a : option bool) (b : bool) : bool :=
  match a with
  | Some true => true
  | _ => b
  end.

(** [wasi = wasi or True] *)
Definition wasi_or_True (wasi : option bool) : bool := py_or wasi true.

(** The OAuth request at the top of [Client.plugin]. *)
Definition fetch_oauth (w : World) (v : Servlet) : M (option OAuthInfo) :=
  if has_oauth v then
    profile <- gets config_profile ;;
    res <- requests_get (GetOAuth profile (name v))
             (oauth_reply w profile (name v)) ;;
    raise_for_status res ;;;
    match body res with
    | None => raise JSONDecodeError
    | Some info => ret (Some info)
    end
  else ret None.

(** [install.content is None]: fetch by content address and assign the
    body to the servlet object. *)
Definition ensure_content (w : World) (install : ref) : M bytes :=
  v <- get_servlet install ;;
  match content v with
  | Some b => ret b
  | None =>
      res <- requests_get (GetContent (content_addr v))
               (content_reply w (content_addr v)) ;;
      modify (set_servlets (<[install := set_content (body res) v]>)) ;;;
      ret (body res)
  end.

(** [d[key]] on a dict whose key may be missing. *)
Definition subscript {A} (key : string) (o : option A) : M A :=
  match o with
  | Some a => ret a
  | None => raise (KeyError key)
  end.

(** [install.settings.get("config", {})]: the record's own dict object
    when there is one, otherwise a new empty dict. *)
Definition config_or_empty (st : Settings) : M ref :=
  match config st with
  | Some l => ret l
  | None => l <- fresh ;; modify (set_dicts <[l := ∅]>) ;;; ret l
  end.

(** [manifest["config"][oauth["config_name"]] = oauth["access_token"]] *)
Definition inject_oauth (l : ref) (oauth : option OAuthInfo) : M unit :=
  match oauth with
  | Some info =>
      d <- get_dict l ;;
      modify (set_dicts <[l := <[config_name info := access_token info]> d]>)
  | None => ret tt
  end.

(** [ext.Plugin(manifest, wasi=wasi, functions=functions)] *)
Definition ext_Plugin (w : World) (m : Manifest) (wasi : bool)
    (functions : list ExtFunction) : M Runtime :=
  log (ExtPlugin m wasi functions) ;;;
  d <- get_dict (manifest_config m) ;;
  if extism_loads w m d
  then ret {| rt_manifest := m; rt_config := d; rt_wasi := wasi;
              rt_functions := functions |}
  else raise ExtismError.

(** Modelled from the spec: [InstalledPlugin.__init__] (plugin.py) is not
    part of the sources at hand; following "wrap it as a PluginInstance
    with createdAt = now", the constructor stores the servlet, the runtime
    and the current time. *)
Definition new_InstalledPlugin (w : World) (install : ref) (rt : Runtime)
    : M InstalledPlugin :=
  i <- fresh ;;
  ret {| obj_id := i; _install := install; _plugin := rt;
         _timestamp := now w |}.

(** The cache test of [Client.plugin]. *)
Definition cache_ok (cache wasi : bool)
    (functions : option (list ExtFunction))
    (wasm : option (list WasmModule)) : bool :=
  cache && wasi && bool_decide (functions = None) && bool_decide (wasm = None).

(** The freshness test:
    [cached._timestamp + timedelta(minutes=4, seconds=30) > datetime.now()] *)
Definition is_fresh (w : World) (cached : InstalledPlugin) : bool :=
  bool_decide (_timestamp cached + timedelta 4 30 > now w).

(** The part of [Client.plugin] after the cache lookup (source lines
    680-712). *)
Definition build (w : World) (install : ref) (ok wasi : bool)
    (oauth : option OAuthInfo)
    (functions : option (list ExtFunction))
    (wasm : option (list WasmModule)) : M InstalledPlugin :=
  b <- ensure_content w install ;;
  v <- get_servlet install ;;
  perm <- subscript "permissions" (permissions (settings v)) ;;
  let wasm_modules := {| data := b |} :: default [] wasm in
  fs <- subscript "filesystem" (filesystem perm) ;;
  net <- subscript "network" (network perm) ;;
  cfg <- config_or_empty (settings v) ;;
  let manifest :=
    {| wasm := wasm_modules;
       allowed_paths := default [] (volumes fs);
       allowed_hosts := default [] (domains net);
       manifest_config := cfg |} in
  inject_oauth cfg oauth ;;;
  rt <- ext_Plugin w manifest wasi (default [] functions) ;;
  p <- new_InstalledPlugin w install rt ;;
  (if ok then modify (set_plugin_cache <[name v := p]>) else ret tt) ;;;
  ret p.

(** [Client.plugin(install, cache, wasi, functions, wasm)] *)
Definition plugin (w : World) (install : ref) (cache : bool)
    (wasi : option bool) (functions : option (list ExtFunction))
    (wasm : option (list WasmModule)) : M InstalledPlugin :=
  v <- get_servlet install ;;
  oauth <- fetch_oauth w v ;;
  let wasi := wasi_or_True wasi in
  let ok := cache_ok cache wasi functions wasm in
  if ok then
    cached <- gets (fun s => plugin_cache s !! name v) ;;
    match cached with
    | Some c =>
        if is_fresh w c then ret c
        else
          modify (set_plugin_cache (delete (name v))) ;;;
          build w install ok wasi oauth functions wasm
    | None => build w install ok wasi oauth functions wasm
    end
  else build w install ok wasi oauth functions wasm.

(** ** Well-formed states *)

(** [install_order] lists the keys of [install_cache], each once. *)
Definition order_ok (o : list string) (m : gmap string ref) : Prop :=
  NoDup o ∧ ∀ k, k ∈ o ↔ is_Some (m !! k).

(** Identities handed out so far lie below [next_ref]; every cached
    instance runs with WASI; every config reference of a servlet points to
    a dict of the store; the install cache and the order of its keys
    belong together. *)
Record wf (s : State) : Prop := {
  wf_plugin_ids : ∀ n p,
    plugin_cache s !! n = Some p → (obj_id p < next_ref s)%nat;
  wf_plugin_wasi : ∀ n p,
    plugin_cache s !! n = Some p → rt_wasi (_plugin p) = true;
  wf_servlet_ids : ∀ r v,
    servlets s !! r = Some v → (r < next_ref s)%nat;
  wf_config : ∀ r v l,
    servlets s !! r = Some v → config (settings v) = Some l →
    is_Some (dicts s !! l);
  wf_dict_ids : ∀ l, is_Some (dicts s !! l) → (l < next_ref s)%nat;
  wf_order : order_ok (install_order s) (install_cache s) }.

(** The events a call appended to the log of [s]. *)
Definition new_events (s s' : State) : list Event :=
  drop (length (io_log s)) (io_log s').

(** ** Symbolic execution *)

Ltac unfold_monad :=
  unfold requests_get, raise_for_status, get_servlet, get_dict, subscript,
    fresh, log, bind, ret, raise, gets, modify in *.

Ltac no_inner_match x :=
  lazymatch x with
  | context [match _ with _ => _ end] => fail
  | _ => idtac
  end.

Ltac step :=
  match goal with
  | H : context [match ?x with _ => _ end] |- _ =>
      no_inner_match x;
      first [ progress (rewrite lookup_insert_eq in H)
            | destruct x eqn:? ];
      simplify_eq/=
  | |- context [match ?x with _ => _ end] =>
      no_inner_match x;
      first [ progress (rewrite lookup_insert_eq)
            | destruct x eqn:? ];
      simplify_eq/=
  end.

(** Runs [build] (and its helpers) symbolically. *)
Ltac exec_build :=
  unfold build, ensure_content, config_or_empty, inject_oauth, ext_Plugin,
    new_InstalledPlugin in *;
  unfold_monad; simpl in *; repeat step.

(** Runs the part of [plugin] before [build] symbolically. *)
Ltac exec_plugin :=
  unfold plugin, fetch_oauth in *; unfold_monad; simpl in *; repeat step.

(** Runs one iteration of the loop of [list_installs] symbolically. *)
Ltac exec_item :=
  unfold list_installs_item, decode_settings in *;
  unfold_monad; simpl in *; repeat step.

(** Splits lookups in updated maps into their cases. *)
Ltac split_lookups :=
  repeat match goal with
  | H : <[_:=_]> _ !! _ = Some _ |- _ =>
      apply lookup_insert_Some in H as [[<- <-]|[? H]]
  | H : delete _ _ !! _ = Some _ |- _ =>
      apply lookup_delete_Some in H as [? H]
  | H : is_Some (<[_:=_]> _ !! _) |- _ =>
      apply lookup_insert_is_Some in H as [<-|[? H]]
  end.

Ltac solve_wf :=
  split; simpl; intros *; intros; split_lookups; simpl in *;
  repeat match goal with
  | H : Some _ = Some _ |- _ => injection H as <-
  | H : None = Some _ |- _ => discriminate H
  end;
  rewrite ?lookup_insert_is_Some';
  eauto 8 using Nat.lt_lt_succ_r, Nat.lt_succ_diag_r.

(** Settles a conjunction of closed equations by evaluation. *)
Ltac evaluate :=
  repeat match goal with |- _ ∧ _ => split end;
  [> vm_compute; reflexivity ..].

(** ** Vocabulary of the statements *)

(** The call tested the cache and found a fresh instance. *)
Definition fast_path (w : World) (cache : bool) (wasi : option bool)
    (fns : option (list ExtFunction)) (wasm : option (list WasmModule))
    (v : Servlet) (s : State) (p : InstalledPlugin) : Prop :=
  cache_ok cache (wasi_or_True wasi) fns wasm = true ∧
  plugin_cache s !! name v = Some p ∧
  is_fresh w p = true.

(** The call tested the cache and found an instance that is too old. *)
Definition found_expired (w : World) (cache : bool) (wasi : option bool)
    (fns : option (list ExtFunction)) (wasm : option (list WasmModule))
    (v : Servlet) (s : State) : Prop :=
  cache_ok cache (wasi_or_True wasi) fns wasm = true ∧
  ∃ c, plugin_cache s !! name v = Some c ∧ is_fresh w c = false.

(** The record carries the permission blocks that [plugin] subscripts. *)
Definition well_configured (v : Servlet) : Prop :=
  ∃ perm fs net,
    permissions (settings v) = Some perm ∧
    filesystem perm = Some fs ∧ network perm = Some net.

(** The gateway answers the OAuth request of [v] with a decodable,
    non-error response. *)
Definition oauth_available (w : World) (profile : string) (v : Servlet)
    : Prop :=
  has_oauth v = true →
  ∃ res info,
    oauth_reply w profile (name v) = Got res ∧
    is_error_status (status_code res) = false ∧
    body res = Some info.

(** The gateway answers the content request of [v], should it be made. *)
Definition content_available (w : World) (v : Servlet) : Prop :=
  content v = None → ∃ res, content_reply w (content_addr v) = Got res.

(** Extism loads whatever it is given. *)
Definition extism_accepts (w : World) : Prop :=
  ∀ m d, extism_loads w m d = true.

(** [servlets] after the content step: the body of whatever response
    came back is assigned to the record; nothing else is touched. *)
Definition servlets_after (w : World) (r : ref) (v : Servlet)
    (m : gmap ref Servlet) : gmap ref Servlet :=
  match content v with
  | Some _ => m
  | None =>
      match content_reply w (content_addr v) with
      | NoResponse => m
      | Got res => <[r := set_content (body res) v]> m
      end
  end.

(** The events [build] can append. *)
Definition build_event (v : Servlet) (wasi : bool) (e : Event) : Prop :=
  match e with
  | GetContent a => content v = None ∧ a = content_addr v
  | ExtPlugin _ wa _ => wa = wasi
  | _ => False
  end.

Ltac solve_log :=
  first
    [ by (exists []; rewrite app_nil_r; split; [reflexivity|constructor])
    | eexists; split;
      [ rewrite <- ?app_assoc; reflexivity
      | simpl; repeat constructor; done ] ].

(** The cache key of a decoded install: [install.get("name", "")]. *)
Definition wire_name (iw : InstallWire) : string := default "" (iw_name iw).

(** Every cached instance was built from the servlet object that the
    install cache holds under the same name. *)
Definition coherent (s : State) : Prop :=
  ∀ n p, plugin_cache s !! n = Some p →
         install_cache s !! n = Some (_install p).

(** The profile a call of [list_installs] is about. *)
Definition profile_of (s : State) (profile : option string) : string :=
  default (config_profile s) profile.

(** The state after the request of [list_installs] has gone out. *)
Definition requested (s : State) (profile : string) : State :=
  (log (GetInstallations profile (last_for s profile)) s).2.

(** An [ext.Plugin(...)] construction in the log ran with WASI. *)
Definition with_wasi (e : Event) : Prop :=
  match e with
  | ExtPlugin _ wa _ => wa = true
  | _ => True
  end.

(** Later activity of the client: any sequence of calls. *)
Inductive Call :=
| CallPlugin (w : World) (install : ref) (cache : bool) (wasi : option bool)
    (functions : option (list ExtFunction)) (wasm : option (list WasmModule))
| CallListInstalls (w : World) (profile : option string)
| CallClearCache.

Definition run_call (c : Call) (s : State) : State :=
  match c with
  | CallPlugin w install cache wasi functions wasm =>
      (plugin w install cache wasi functions wasm s).2
  | CallListInstalls w profile => (list_installs w profile s).2
  | CallClearCache => (clear_cache s).2
  end.

Definition run_calls (cs : list Call) (s : State) : State :=
  foldl (λ s c, run_call c s) s cs.

(** The config dict after the injection step. *)
Definition injected (oauth : option OAuthInfo) (d : gmap string string)
    : gmap string string :=
  match oauth with
  | Some info => <[config_name info := access_token info]> d
  | None => d
  end.

(** The bytes that a call on the record [v] uses as its content: what
    the record holds, or, when it holds nothing, the body of the answer
    to the content request. *)
Definition content_used (w : World) (v : Servlet) (b : bytes) : Prop :=
  match content v with
  | Some b' => b' = b
  | None => ∃ cres, content_reply w (content_addr v) = Got cres ∧ body cres = b
  end.

(** The dict [l] of the store has an entry under [k]. *)
Definition has_key (l : ref) (k : string) (s : State) : Prop :=
  ∃ d, dicts s !! l = Some d ∧ is_Some (d !! k).

(** *** A concrete installation *)

Definition seconds (n : Z) : Z := n * 1000000.

Definition img_permissions : Permissions :=
  {| filesystem := Some {| volumes := Some [] |};
     network := Some {| domains := Some ["cdn.example.com"] |} |}.

Definition compress_tool : ToolWire :=
  {| tw_name := "compress"; tw_description := "compress an image";
     tw_inputSchema := "{}" |}.

(** A servlet with an OAuth client and a (still empty) config dict. *)
Definition img_wire : InstallWire :=
  {| iw_binding_id := "b-img";
     iw_contentAddress := "sha-img";
     iw_name := Some "img";
     iw_slug := "acme/img";
     iw_has_client := true;
     iw_schema := SchemaTools [compress_tool];
     iw_permissions := Some img_permissions;
     iw_config := Some ∅ |}.

(** A servlet without OAuth, without config, and without a permissions
    block. *)
Definition pdf_wire : InstallWire :=
  {| iw_binding_id := "b-pdf";
     iw_contentAddress := "sha-pdf";
     iw_name := Some "pdf";
     iw_slug := "acme/pdf";
     iw_has_client := false;
     iw_schema := SchemaSingle compress_tool;
     iw_permissions := None;
     iw_config := None |}.

Definition oauth_img : OAuthInfo :=
  {| config_name := "IMG_TOKEN"; access_token := "secret-1" |}.

(** A gateway that answers the install list with [status] and
    [installs], the OAuth request with [oauth_status], and serves
    content with status 200; the clock shows [t]. *)
Definition gateway (t status : Z) (installs : list InstallWire)
    (oauth_status : Z) : World :=
  {| now := t;
     oauth_reply := fun _ _ =>
       Got {| status_code := oauth_status; header_Date := None;
              body := Some oauth_img |};
     content_reply := fun _ =>
       Got {| status_code := 200; header_Date := None; body := "\0asm" |};
     installations_reply := fun _ _ =>
       Got {| status_code := status; header_Date := Some "Tue, 03 Nov";
              body := Some (Installs installs) |};
     extism_loads := fun _ _ => true |}.

(** A gateway whose content endpoint answers 404 with an error page. *)
Definition gateway_404 (t : Z) : World :=
  {| now := t;
     oauth_reply := fun _ _ =>
       Got {| status_code := 200; header_Date := None;
              body := Some oauth_img |};
     content_reply := fun _ =>
       Got {| status_code := 404; header_Date := None;
              body := "Not Found" |};
     installations_reply := fun _ _ => NoResponse;
     extism_loads := fun _ _ => false |}.

(** A gateway whose install list is well formed up to its second
    install, which has no ["binding"] key. *)
Definition gateway_malformed (t : Z) : World :=
  {| now := t;
     oauth_reply := fun _ _ => NoResponse;
     content_reply := fun _ => NoResponse;
     installations_reply := fun _ _ =>
       Got {| status_code := 200; header_Date := Some "Wed, 04 Nov";
              body := Some (InstallsUpTo [img_wire] "binding") |};
     extism_loads := fun _ _ => true |}.

Definition st0 : State := init "~/default".

(** After the first listing: ["img"] is installed, as object 1 (its
    config dict is object 0). *)
Definition st1 : State :=
  (list_installs (gateway 0 200 [img_wire] 200) None st0).2.

(** After ["img"] was instantiated, ten seconds later. *)
Definition st2 : State :=
  (plugin (gateway (seconds 10) 200 [img_wire] 200) 1%nat true None None None
     st1).2.

(** The token is stored but the install cache is empty: the first
    listing returned no installs. *)
Definition st_empty : State :=
  (list_installs (gateway 0 200 [] 200) None st0).2.

(** The servlet object made for ["img"] by the first listing. *)
Definition img_servlet : Servlet :=
  {| binding_id := "b-img";
     content_addr := "sha-img";
     name := "img";
     slug := "acme/img";
     settings := {| permissions := Some img_permissions;
                    config := Some 0%nat |};
     tools := make_tools 1 [compress_tool];
     has_oauth := true;
     content := None |}.

(** The instance of ["img"] built at second 10. *)
Definition img_plugin : InstalledPlugin :=
  {| obj_id := 2;
     _install := 1;
     _plugin :=
       {| rt_manifest :=
            {| wasm := [{| data := "\0asm" |}];
               allowed_paths := [];
               allowed_hosts := ["cdn.example.com"];
               manifest_config := 0 |};
          rt_config := <["IMG_TOKEN" := "secret-1"]> ∅;
          rt_wasi := true;
          rt_functions := [] |};
     _timestamp := seconds 10 |}.

(** A gateway that hands out a second token, under another name. *)
Definition gateway_rotated (t : Z) : World :=
  {| now := t;
     oauth_reply := fun _ _ =>
       Got {| status_code := 200; header_Date := None;
              body := Some {| config_name := "IMG_TOKEN_2";
                              access_token := "secret-2" |} |};
     content_reply := fun _ => NoResponse;
     installations_reply := fun _ _ => NoResponse;
     extism_loads := fun _ _ => true |}.

(** ** User *)

Record UserEmail := {
  email : string;
  primary : bool;
  verified : bool }.

Record User := {
  username : string;
  emails : list UserEmail }.

(** [User.primary_email]:
    [next((e for e in self.emails if e.primary), None)] *)
Definition primary_email (u : User) : option UserEmail :=
  List.find primary (emails u).

(** [User.verified_emails]: [[e for e in self.emails if e.verified]] *)
Definition verified_emails (u : User) : list UserEmail :=
  List.filter verified (emails u).

(** ** Client.tools, Client.tool and Client.call_tool *)

(** [install.tools.values()] of one servlet object.  The keys of this
    dict are the names of its tools, so the order in which they are
    visited shows neither in [Client.tool] nor in [Client.tools]. *)
Definition servlet_tools (s : State) (r : ref) : list Tool :=
  match servlets s !! r with
  | Some v => (map_to_list (tools v)).*2
  | None => []
  end.

(** The tools visited by
    [for install in installs.values(): for tool in install.tools.values()],
    where [installs] is the dict [self.install_cache] that
    [Client.installs] returned: its values come in the order of its
    keys. *)
Definition installed_tools (s : State) (m : gmap string ref) : list Tool :=
  flat_map (servlet_tools s) (omap (fun k => m !! k) (install_order s)).

(** [Client.tools]: [tools[tool.name] = tool] for every visited tool. *)
Definition client_tools (w : World) : M (gmap string Tool) :=
  m <- installs w ;;
  gets (fun s =>
          foldl (fun acc t => <[tool_name t := t]> acc) ∅
            (installed_tools s m)).

(** [Client.tool]: the first visited tool with [tool.name == name]. *)
Definition tool (w : World) (name : string) : M (option Tool) :=
  m <- installs w ;;
  gets (fun s =>
          List.find (fun t => bool_decide (tool_name t = name))
            (installed_tools s m)).

(** Modelled from the spec: the [CallResult] class (types.py) is not
    among the sources; it "carries an ordered sequence of content blocks
    (text or structured) and an overall status". *)
Inductive ContentBlock :=
| TextBlock (text : string)
| DataBlock (json : string).

Record CallResult := {
  cr_content : list ContentBlock;
  cr_is_error : bool }.

(** The [params] dict of a tool call. *)
Abbreviation Params := (gmap string string).

(** Modelled from the spec: [InstalledPlugin.call] (plugin.py) is not
    among the sources; it is to "invoke the Runtime's call operation with
    the tool name and params" and to surface the result, or the failure,
    unchanged.  What the runtime answers is a parameter. *)
Definition RuntimeCall : Type :=
  InstalledPlugin -> string -> Params -> Result CallResult.

(** The [tool] argument of [call_tool]: a name or a [Tool] object. *)
Inductive ToolArg :=
| ToolName (n : string)
| ToolObject (t : Tool).

(** What [call_tool] raises: its own [ValueError], or whatever the calls
    it makes raise. *)
Inductive CallError :=
| ValueError (msg : string)
| Propagated (e : Exn).

(** The first part of [call_tool]:
    [if isinstance(tool, str): found_tool = self.tool(tool) ...] *)
Definition resolve_tool (w : World) (arg : ToolArg) (s : State)
    : (CallError + Tool) * State :=
  match arg with
  | ToolName n =>
      match tool w n s with
      | (Ok (Some t), s1) => (inr t, s1)
      | (Ok None, s1) =>
          (inl (ValueError ("Tool '" +:+ n +:+ "' not found")), s1)
      | (Raise e, s1) => (inl (Propagated e), s1)
      end
  | ToolObject t => (inr t, s)
  end.

(** [Client.call_tool(tool, params, wasi=, functions=, wasm=)]; the
    [cache] argument of [plugin] is left at its default, [True]. *)
Definition call_tool (w : World) (run : RuntimeCall) (arg : ToolArg)
    (params : option Params) (wasi : bool)
    (functions : option (list ExtFunction))
    (wasm : option (list WasmModule)) (s : State)
    : (CallError + CallResult) * State :=
  match resolve_tool w arg s with
  | (inl err, s1) => (inl err, s1)
  | (inr t, s1) =>
      match plugin w (servlet t) true (Some wasi) functions wasm s1 with
      | (Ok p, s2) =>
          match run p (tool_name t) (default ∅ params) with
          | Ok res => (inr res, s2)
          | Raise e => (inl (Propagated e), s2)
          end
      | (Raise e, s2) => (inl (Propagated e), s2)
      end
  end.

(** ** Client.install and Client.uninstall *)

(** [requests.delete(...)] and [requests.post(...)] with the answer the
    world gives.  The event log keeps the requests of the caching core
    only; these two are not entered in it. *)
Definition requests_send {B} (r : Reply B) : M (Response B) :=
  match r with
  | NoResponse => raise ConnectionError
  | Got res => ret res
  end.

(** The [servlet] argument of [uninstall]: a [Servlet] object or a
    name. *)
Inductive ServletArg :=
| ServletObject (r : ref)
| ServletName (n : string).

(** [Client.uninstall(servlet, profile)]; [reply] is what the gateway
    answers to the DELETE for a profile name and a servlet name. *)
Definition uninstall (reply : string -> string -> Reply unit)
    (arg : ServletArg) (profile : option string) : M unit :=
  configured <- gets config_profile ;;
  let profile_name := default configured profile in
  n <- match arg with
       | ServletObject r => v <- get_servlet r ;; ret (name v)
       | ServletName n => ret n
       end ;;
  res <- requests_send (reply profile_name n) ;;
  raise_for_status res ;;;
  if bool_decide (profile = None) then clear_cache else ret tt.

(** The JSON body of the POST of [install]. *)
Record InstallParams := {
  ip_servlet_slug : string;
  ip_config : option (gmap string string);
  ip_network : option (list string);
  ip_filesystem : option (list (string * string));
  ip_allow_update : bool;
  ip_name : option string }.

(** [Client.install(servlet, name, allow_update, config, network,
    filesystem, profile)]; [slug] is [servlet.slug]. *)
Definition install (reply : string -> InstallParams -> Reply unit)
    (slug : string) (name : option string) (allow_update : bool)
    (config : option (gmap string string)) (network : option (list string))
    (filesystem : option (list (string * string)))
    (profile : option string) : M unit :=
  configured <- gets config_profile ;;
  let profile_name := default configured profile in
  let params :=
    {| ip_servlet_slug := slug;
       ip_config := config;
       ip_network := network;
       ip_filesystem := filesystem;
       ip_allow_update := allow_update;
       ip_name := name |} in
  res <- requests_send (reply profile_name params) ;;
  raise_for_status res ;;;
  if bool_decide (profile = None) then clear_cache else ret tt.

(** ** Vocabulary of the further statements *)

(** The tools of a servlet object are keyed by their own name and point
    back to that object. *)
Definition tools_ok (r : ref) (v : Servlet) : Prop :=
  ∀ k t, tools v !! k = Some t → tool_name t = k ∧ servlet t = r.

(** Every entry of the install cache holds a servlet object of that
    name, with well-formed tools. *)
Definition installs_ok (s : State) : Prop :=
  ∀ n r, install_cache s !! n = Some r →
         ∃ v, servlets s !! r = Some v ∧ name v = n ∧ tools_ok r v.

(** What a client does between its creation and now, when it is used
    through its public entry points by name. *)
Inductive Use :=
| UseListInstalls (w : World) (profile : option string)
| UseCallTool (w : World) (run : RuntimeCall) (n : string)
    (params : option Params) (wasi : bool)
    (functions : option (list ExtFunction)) (wasm : option (list WasmModule))
| UseInstall (reply : string -> InstallParams -> Reply unit)
    (slug : string) (name : option string) (allow_update : bool)
    (config : option (gmap string string)) (network : option (list string))
    (filesystem : option (list (string * string))) (profile : option string)
| UseUninstall (reply : string -> string -> Reply unit) (n : string)
    (profile : option string)
| UseClearCache.

Definition use (u : Use) (s : State) : State :=
  match u with
  | UseListInstalls w profile => (list_installs w profile s).2
  | UseCallTool w run n params wasi functions wasm =>
      (call_tool w run (ToolName n) params wasi functions wasm s).2
  | UseInstall reply slug name allow_update config network filesystem
      profile =>
      (install reply slug name allow_update config network filesystem
         profile s).2
  | UseUninstall reply n profile =>
      (uninstall reply (ServletName n) profile s).2
  | UseClearCache => (clear_cache s).2
  end.

Definition uses (us : list Use) (s : State) : State :=
  foldl (λ s u, use u s) s us.

(** An [ext.Plugin(...)] construction. *)
Definition is_ExtPlugin (e : Event) : bool :=
  match e with
  | ExtPlugin _ _ _ => true
  | _ => false
  end.

(** *** Further concrete installations *)

(** A runtime that answers every call with the name of the tool. *)
Definition echo : RuntimeCall :=
  λ _ tool_name _,
    Ok {| cr_content := [TextBlock tool_name]; cr_is_error := false |}.

(** ["pdf"] (no OAuth), with a permissions block. *)
Definition pdf_wire_ok : InstallWire :=
  {| iw_binding_id := "b-pdf";
     iw_contentAddress := "sha-pdf";
     iw_name := Some "pdf";
     iw_slug := "acme/pdf";
     iw_has_client := false;
     iw_schema := SchemaSingle compress_tool;
     iw_permissions := Some img_permissions;
     iw_config := None |}.

(** After ["pdf"] was listed, as object 0, and instantiated at second
    10. *)
Definition st_pdf : State :=
  (plugin (gateway (seconds 10) 200 [] 200) 0%nat true None None None
     (list_installs (gateway 0 200 [pdf_wire_ok] 200) None st0).2).2.

(** ["img"] listed a second time: the servlet object of the first
    listing (1) is still in the store, the install cache holds the new
    one (3, with config dict 2). *)
Definition st_twice : State :=
  (list_installs (gateway (seconds 5) 200 [img_wire] 200) None st1).2.

Definition img_servlet_again : Servlet :=
  {| binding_id := "b-img";
     content_addr := "sha-img";
     name := "img";
     slug := "acme/img";
     settings := {| permissions := Some img_permissions;
                    config := Some 2%nat |};
     tools := make_tools 3 [compress_tool];
     has_oauth := true;
     content := None |}.

Definition img_plugin_again : InstalledPlugin :=
  {| obj_id := 4;
     _install := 3;
     _plugin :=
       {| rt_manifest :=
            {| wasm := [{| data := "\0asm" |}];
               allowed_paths := [];
               allowed_hosts := ["cdn.example.com"];
               manifest_config := 2 |};
          rt_config := <["IMG_TOKEN" := "secret-1"]> ∅;
          rt_wasi := true;
          rt_functions := [] |};
     _timestamp := seconds 10 |}.

(** Two servlets that each offer a tool ["compress"]: ["pdf"] listed
    first (object 0), ["img"] second (object 2, with config dict 1). *)
Definition st_two : State :=
  (list_installs (gateway 0 200 [pdf_wire_ok; img_wire] 200) None st0).2.

(** Two installs that come without a name. *)
Definition anonymous_wire (addr : string) : InstallWire :=
  {| iw_binding_id := "b";
     iw_contentAddress := addr;
     iw_name := None;
     iw_slug := "acme/anonymous";
     iw_has_client := false;
     iw_schema := SchemaTools [];
     iw_permissions := None;
     iw_config := None |}.

(** ** Well-formedness is an invariant *)

Lemma order_ok_empty : order_ok [] ∅.
Proof.
  split; [constructor|]. intros k. rewrite lookup_empty. split.
  - intros H. by apply elem_of_nil in H.
  - by intros [? ?].
Qed.

(** [d[k] = r] keeps the keys and their order together. *)
Lemma order_ok_assign o m k r :
  order_ok o m →
  order_ok (if bool_decide (k ∈ o) then o else o ++ [k]) (<[k := r]> m).
Proof.
  intros [Hnd Hdom]. case_bool_decide as Hk.
  - split; [done|]. intros k'. rewrite lookup_insert_is_Some, Hdom.
    destruct (decide (k = k')) as [->|Hne]; [|tauto].
    apply Hdom in Hk. tauto.
  - split.
    + apply NoDup_app. split_and!; [done| |apply NoDup_singleton].
      intros x Hx Hx'. apply list_elem_of_singleton in Hx'. by subst.
    + intros k'. rewrite elem_of_app, list_elem_of_singleton.
      rewrite lookup_insert_is_Some, Hdom.
      destruct (decide (k = k')) as [->|Hne]; [tauto|].
      split; [intros [?|?]; [tauto|congruence]|tauto].
Qed.

Lemma init_wf profile : wf (init profile).
Proof.
  split; simpl; intros *; rewrite ?lookup_empty; try done.
  apply order_ok_empty.
Qed.

Lemma build_wf w r ok wasi oauth fns wasm s :
  wasi = true → wf s → wf (build w r ok wasi oauth fns wasm s).2.
Proof.
  intros -> [H1 H2 H3 H4 H5 H6].
  destruct (build w r ok true oauth fns wasm s) as [res s'] eqn:E.
  exec_build.
  all: try (split; simpl; assumption).
  all: solve_wf.
Qed.

Lemma wasi_or_True_true wasi : wasi_or_True wasi = true.
Proof. by destruct wasi as [[]|]. Qed.

Lemma plugin_wf w r cache wasi fns wasm s :
  wf s → wf (plugin w r cache wasi fns wasm s).2.
Proof.
  intros [H1 H2 H3 H4 H5 H6].
  destruct (plugin w r cache wasi fns wasm s) as [res s'] eqn:E.
  exec_plugin.
  all: try (split; simpl; assumption).
  all: try match goal with
       | H : build ?w ?r ?ok ?wa ?oa ?f ?m ?s = (_, ?s') |- wf ?s' =>
           change s' with (build w r ok wa oa f m s).2 ||
           replace s' with (build w r ok wa oa f m s).2 by (by rewrite H);
           apply build_wf; [apply wasi_or_True_true|]
       end.
  all: solve_wf.
Qed.

Lemma list_installs_item_wf iw s :
  wf s → wf (list_installs_item iw s).2.
Proof.
  intros [H1 H2 H3 H4 H5 H6].
  destruct (list_installs_item iw s) as [res s'] eqn:E.
  exec_item.
  all: solve_wf.
  all: by apply order_ok_assign.
Qed.

Lemma mapM_preserves {A B} (I : State → Prop) (f : A → M B) l s :
  (∀ a s, I s → I (f a s).2) → I s → I (mapM f l s).2.
Proof.
  intros Hf. revert s.
  induction l as [|a l IH]; intros s Hs; simpl; [done|].
  unfold bind at 1.
  specialize (Hf a s Hs).
  destruct (f a s) as [[b|e] s1]; simpl in *; [|done].
  specialize (IH s1 Hf).
  unfold bind. destruct (mapM f l s1) as [[bs|e] s2]; simpl in *; done.
Qed.

Lemma list_installs_wf w profile s :
  wf s → wf (list_installs w profile s).2.
Proof.
  intros Hwf.
  destruct (list_installs w profile s) as [res s'] eqn:E.
  unfold list_installs, last_request, fix_profile in E.
  unfold_monad; simpl in *.
  destruct Hwf as [H1 H2 H3 H4 H5 H6].
  repeat step.
  all: try match goal with
       | H : mapM ?f ?l ?s = (_, ?s') |- wf ?s' =>
           replace s' with (mapM f l s).2 by (by rewrite H);
           apply mapM_preserves; [intros; by apply list_installs_item_wf|]
       end.
  all: solve_wf.
Qed.

(** ** What [build] does to the state *)

(** The client's own fields: only the plugin cache can change, and only
    by storing the instance that is returned. *)
Lemma build_effect w r ok wasi oauth fns wasm s v res s' :
  servlets s !! r = Some v →
  build w r ok wasi oauth fns wasm s = (res, s') →
  config_profile s' = config_profile s ∧
  install_cache s' = install_cache s ∧
  last_installations_request s' = last_installations_request s ∧
  (next_ref s ≤ next_ref s')%nat ∧
  match res with
  | Ok p =>
      plugin_cache s' =
        (if ok then <[name v := p]> (plugin_cache s) else plugin_cache s) ∧
      (next_ref s ≤ obj_id p < next_ref s')%nat ∧
      _install p = r ∧ _timestamp p = now w ∧
      rt_wasi (_plugin p) = wasi
  | Raise _ => plugin_cache s' = plugin_cache s
  end.
Proof.
  intros Hv E. exec_build.
  all: simpl; repeat split; try done; lia.
Qed.

(** ** What [plugin] does to the client's fields *)

Lemma plugin_effect w r cache wasi fns wasm s v res s' :
  servlets s !! r = Some v →
  plugin w r cache wasi fns wasm s = (res, s') →
  config_profile s' = config_profile s ∧
  install_cache s' = install_cache s ∧
  last_installations_request s' = last_installations_request s ∧
  (next_ref s ≤ next_ref s')%nat ∧
  match res with
  | Ok p =>
      (fast_path w cache wasi fns wasm v s p ∧
       plugin_cache s' = plugin_cache s)
      ∨
      ((∀ c, plugin_cache s !! name v = Some c →
             cache_ok cache (wasi_or_True wasi) fns wasm = true →
             is_fresh w c = false) ∧
       (next_ref s ≤ obj_id p < next_ref s')%nat ∧
       _install p = r ∧ _timestamp p = now w ∧
       rt_wasi (_plugin p) = true ∧
       plugin_cache s' =
         (if cache_ok cache (wasi_or_True wasi) fns wasm
          then <[name v := p]> (plugin_cache s) else plugin_cache s))
  | Raise _ =>
      plugin_cache s' = plugin_cache s
      ∨
      (found_expired w cache wasi fns wasm v s ∧
       plugin_cache s' = delete (name v) (plugin_cache s))
  end.
Proof.
  intros Hv E. unfold fast_path, found_expired.
  exec_plugin.
  all: try match goal with
       | H : build _ _ _ _ _ _ _ _ = _ |- _ =>
           eapply build_effect in H as (-> & -> & -> & ? & ?);
           [|simpl; eassumption]
       end.
  all: simpl in *.
  all: repeat match goal with
       | H : context [wasi_or_True] |- _ =>
           rewrite wasi_or_True_true in H
       | |- context [wasi_or_True] => rewrite wasi_or_True_true
       end.
  all: try case_match; try (destruct_and?; subst).
  all: repeat split; try done.
  all: try (left; done).
  all: try (right; repeat split; try done).
  all: try (intros ? [= <-] ?; done).
  all: try (by eexists).
  all: match goal with
       | H : plugin_cache _ = _ |- _ =>
           by rewrite insert_delete_eq in H
       end.
Qed.

(** ** When [plugin] is bound to succeed *)

Lemma build_ok w r ok wasi oauth fns wasm s v :
  servlets s !! r = Some v →
  (∀ l, config (settings v) = Some l → is_Some (dicts s !! l)) →
  well_configured v → content_available w v → extism_accepts w →
  ∃ p s', build w r ok wasi oauth fns wasm s = (Ok p, s').
Proof.
  intros Hv Hd (perm & fs & net & Hp & Hfs & Hnet) Hc Hx.
  destruct (build w r ok wasi oauth fns wasm s) as [[p|e] s'] eqn:E;
    [by eauto|exfalso].
  unfold content_available in Hc. unfold extism_accepts in Hx.
  exec_build.
  all: try (destruct Hc as [? ?]; [done|congruence]).
  all: try match goal with
       | H : extism_loads _ _ _ = false |- _ => by rewrite Hx in H
       end.
  all: try match goal with
       | H : dicts _ !! ?l = None |- _ =>
           destruct (Hd l) as [? ?]; [done|congruence]
       end.
Qed.

Lemma plugin_ok w r cache wasi fns wasm s v :
  wf s → servlets s !! r = Some v →
  well_configured v →
  oauth_available w (config_profile s) v →
  content_available w v → extism_accepts w →
  ∃ p s', plugin w r cache wasi fns wasm s = (Ok p, s').
Proof.
  intros Hwf Hv Hwc Ho Hc Hx.
  destruct (plugin w r cache wasi fns wasm s) as [[p|e] s'] eqn:E;
    [by eauto|exfalso].
  unfold oauth_available in Ho.
  exec_plugin.
  all: try (destruct Ho as (? & ? & ? & ? & ?); [done|congruence]).
  all: match goal with
       | H : build ?w ?r ?ok ?wa ?oa ?f ?m ?s = (Raise _, _) |- _ =>
           assert (∃ p s', build w r ok wa oa f m s = (Ok p, s'))
             as (? & ? & ?)
             by (eapply build_ok;
                 [done|intros ? ?; by eapply (wf_config _ Hwf)|done..]);
           congruence
       end.
Qed.

(** ** What [build] and [plugin] do outside the client's fields *)

Lemma build_store w r ok wasi oauth fns wasm s v res s' :
  servlets s !! r = Some v →
  build w r ok wasi oauth fns wasm s = (res, s') →
  servlets s' = servlets_after w r v (servlets s) ∧
  ∃ evs, io_log s' = io_log s ++ evs ∧ Forall (build_event v wasi) evs.
Proof.
  intros Hv E. unfold servlets_after, build_event.
  exec_build.
  all: split; [done|solve_log].
Qed.

(** The events [plugin] can append: at most one OAuth request, first,
    then those of [build]. *)
Lemma plugin_store w r cache wasi fns wasm s v res s' :
  servlets s !! r = Some v →
  plugin w r cache wasi fns wasm s = (res, s') →
  (servlets s' = servlets s ∨ servlets s' = servlets_after w r v (servlets s))
  ∧
  ∃ evs,
    io_log s' =
      io_log s ++
      (if has_oauth v then [GetOAuth (config_profile s) (name v)] else []) ++
      evs ∧
    Forall (build_event v true) evs.
Proof.
  intros Hv E.
  exec_plugin.
  all: try match goal with
       | H : build _ _ _ _ _ _ _ _ = _ |- _ =>
           eapply build_store in H as (-> & evs & -> & ?);
           [|simpl; eassumption];
           rewrite wasi_or_True_true in *; simpl;
           split; [by right|];
           exists evs; by rewrite <- ?app_assoc
       end.
  all: split; [by left|]; simpl.
  all: exists []; split; [by rewrite ?app_nil_r|constructor].
Qed.

(** ** What [list_installs] does *)

Lemma list_installs_item_effect iw s :
  ∃ r s',
    list_installs_item iw s = (Ok r, s') ∧
    (next_ref s ≤ r < next_ref s')%nat ∧
    install_cache s' = <[wire_name iw := r]> (install_cache s) ∧
    plugin_cache s' = delete (wire_name iw) (plugin_cache s) ∧
    config_profile s' = config_profile s ∧
    last_installations_request s' = last_installations_request s ∧
    io_log s' = io_log s.
Proof.
  unfold wire_name.
  destruct (list_installs_item iw s) as [res s'] eqn:E.
  exec_item.
  all: eexists _, _; split; [reflexivity|simpl].
  all: repeat split; try done; try lia.
  all: symmetry; apply delete_id.
  all: match goal with
       | H : bool_decide _ = false |- _ =>
           apply bool_decide_eq_false in H;
           by apply eq_None_not_Some
       end.
Qed.

(** The loop of [list_installs] over the decoded installs. *)
Lemma list_installs_loop data : ∀ s,
  ∃ refs s',
    mapM list_installs_item data s = (Ok refs, s') ∧
    length refs = length data ∧
    (next_ref s ≤ next_ref s')%nat ∧
    (∀ n, n ∈ wire_name <$> data →
          plugin_cache s' !! n = None ∧
          ∃ r, install_cache s' !! n = Some r ∧ (next_ref s ≤ r)%nat) ∧
    (∀ n, n ∉ wire_name <$> data →
          plugin_cache s' !! n = plugin_cache s !! n ∧
          install_cache s' !! n = install_cache s !! n) ∧
    config_profile s' = config_profile s ∧
    last_installations_request s' = last_installations_request s ∧
    io_log s' = io_log s.
Proof.
  induction data as [|iw data IH]; intros s; simpl.
  { exists [], s. unfold ret. split_and!; try done.
    intros n Hn. by apply elem_of_nil in Hn. }
  destruct (list_installs_item_effect iw s)
    as (r & s1 & E1 & Hr & Hi & Hp & Hc & Hl & Hio).
  destruct (IH s1) as (refs & s' & E & Hlen & Hnext & Hin & Hout & Hc' & Hl' & Hio').
  exists (r :: refs), s'.
  unfold bind at 1. rewrite E1. unfold bind at 1. rewrite E. unfold ret.
  split_and!; try done; try congruence; try lia.
  - simpl; by rewrite Hlen.
  - intros n Hn.
    destruct (decide (n ∈ wire_name <$> data)) as [Hd|Hd].
    + destruct (Hin n Hd) as (? & r' & ? & ?).
      split; [done|]. exists r'. split; [done|lia].
    + apply elem_of_cons in Hn as [->|?]; [|done].
      destruct (Hout _ Hd) as [-> ->].
      rewrite Hp, Hi, lookup_delete_eq, lookup_insert_eq.
      split; [done|]. exists r. split; [done|lia].
  - intros n Hn.
    apply not_elem_of_cons in Hn as [Hne Hd].
    destruct (Hout _ Hd) as [-> ->].
    rewrite Hp, Hi.
    by rewrite lookup_delete_ne, lookup_insert_ne.
Qed.

(** The loop over well-formed installs raises nothing. *)
Lemma list_installs_loop_total data s e s' :
  mapM list_installs_item data s = (Raise e, s') → False.
Proof.
  intros E.
  destruct (list_installs_loop data s) as (? & ? & E' & _).
  congruence.
Qed.

Lemma list_installs_refresh w profile s res data :
  installations_reply w (profile_of s profile)
    (last_for s (profile_of s profile)) = Got res →
  is_error_status (status_code res) = false →
  status_code res ≠ 301 →
  body res = Some (Installs data) →
  ∃ refs s',
    list_installs w profile s = (Ok refs, s') ∧
    length refs = length data ∧
    (∀ n, n ∈ wire_name <$> data →
          plugin_cache s' !! n = None ∧
          ∃ r, install_cache s' !! n = Some r ∧ (next_ref s ≤ r)%nat) ∧
    (∀ n, n ∉ wire_name <$> data →
          plugin_cache s' !! n = plugin_cache s !! n ∧
          install_cache s' !! n = install_cache s !! n) ∧
    last_installations_request s' =
      <[profile_of s profile := header_Date res]>
        (last_installations_request s) ∧
    io_log s' = io_log (requested s (profile_of s profile)).
Proof.
  intros Hrep Herr H301 Hbody.
  unfold list_installs, last_request, fix_profile, profile_of in *.
  destruct (list_installs_loop data
              (set_last_installations_request
                 <[default (config_profile s) profile := header_Date res]>
                 (requested s (default (config_profile s) profile))))
    as (refs & s' & E & Hlen & _ & Hin & Hout & _ & Hl & Hio).
  exists refs, s'.
  destruct profile as [p|]; unfold_monad; simpl in *.
  all: rewrite Hrep, Herr; simpl.
  all: rewrite bool_decide_eq_false_2 by done.
  all: rewrite Hbody; simpl.
  all: unfold requested, log, modify in E; simpl in E; rewrite E.
  all: split_and!; done.
Qed.

Lemma list_installs_unchanged w profile s res :
  installations_reply w (profile_of s profile)
    (last_for s (profile_of s profile)) = Got res →
  status_code res = 301 →
  list_installs w profile s =
    (Ok (install_values s), requested s (profile_of s profile)).
Proof.
  intros Hrep H301.
  unfold list_installs, last_request, fix_profile, profile_of, requested in *.
  destruct profile as [p|]; unfold_monad; simpl in *.
  all: rewrite Hrep; simpl.
  all: unfold is_error_status; rewrite H301; simpl.
  all: done.
Qed.

(** A refresh never removes a key of the install cache. *)
Lemma list_installs_keeps_keys w profile s n :
  is_Some (install_cache s !! n) →
  is_Some (install_cache (list_installs w profile s).2 !! n).
Proof.
  intros Hn.
  destruct (list_installs w profile s) as [res s'] eqn:E.
  unfold list_installs, last_request, fix_profile in E.
  unfold_monad; simpl in *.
  repeat step; try done.
  all: try by (exfalso; eapply list_installs_loop_total).
  all: match goal with
       | H : mapM _ ?data ?s0 = _ |- _ =>
           destruct (list_installs_loop data s0)
             as (? & ? & E' & _ & _ & Hin & Hout & _);
           rewrite E' in H; simplify_eq;
           destruct (decide (n ∈ wire_name <$> data)) as [Hd|Hd];
           [ destruct (Hin n Hd) as (_ & ? & -> & _); by eexists
           | destruct (Hout n Hd) as [_ ->]; done ]
       end.
Qed.

(** ** C1 *)

(** A record with [has_oauth] costs one OAuth request on every call,
    whatever the cache holds: the request comes before the cache test. *)
Lemma plugin_oauth_first w r cache wasi fns wasm s v :
  servlets s !! r = Some v → has_oauth v = true →
  ∃ evs,
    io_log (plugin w r cache wasi fns wasm s).2 =
      io_log s ++ GetOAuth (config_profile s) (name v) :: evs.
Proof.
  intros Hv Ho.
  destruct (plugin w r cache wasi fns wasm s) as [res s'] eqn:E.
  destruct (plugin_store _ _ _ _ _ _ _ _ _ _ Hv E) as (_ & evs & Hlog & _).
  simpl. rewrite Hlog, Ho. by exists evs.
Qed.

(** C1 (evaluation of the code): the record ["img"] has [has_oauth], the
    plugin cache holds a fresh instance of it (ten seconds old), and the
    request is cacheable; the call returns that instance, but only after
    one OAuth request to the gateway.  When the gateway answers that
    request with an error, the same call raises instead of returning the
    fresh instance. *)
Example C1_fast_path_fetches_oauth :
  ∃ v p,
    servlets st2 !! 1%nat = Some v ∧ has_oauth v = true ∧
    plugin_cache st2 !! name v = Some p ∧
    is_fresh (gateway (seconds 20) 200 [img_wire] 200) p = true ∧
    (plugin (gateway (seconds 20) 200 [img_wire] 200) 1%nat true None None
       None st2).1 = Ok p ∧
    new_events st2
      (plugin (gateway (seconds 20) 200 [img_wire] 200) 1%nat true None None
         None st2).2 = [GetOAuth "~/default" "img"] ∧
    (plugin (gateway (seconds 20) 200 [img_wire] 503) 1%nat true None None
       None st2).1 = Raise (HTTPError 503).
Proof.
  eexists _, _. evaluate.
Qed.

(** ** C2 *)

(** C2 (evaluation of the code): the install cache holds ["img"]; the
    gateway then answers 200 with an install list that contains only
    ["pdf"].  After the refresh has run to completion ["img"], absent from
    the new list, is still a key of the install cache, next to ["pdf"]:
    the loop assigns keys and never removes one.  [Client.installs]
    therefore reports the uninstalled servlet as installed. *)
Example C2_refresh_keeps_stale_key :
  install_cache st1 !! "img" = Some 1%nat ∧
  wire_name <$> [pdf_wire] = ["pdf"] ∧
  (list_installs (gateway (seconds 60) 200 [pdf_wire] 200) None st1).1
    = Ok [2%nat] ∧
  install_cache
    (list_installs (gateway (seconds 60) 200 [pdf_wire] 200) None st1).2
    !! "img" = Some 1%nat ∧
  install_cache
    (list_installs (gateway (seconds 60) 200 [pdf_wire] 200) None st1).2
    !! "pdf" = Some 2%nat ∧
  match (installs (gateway (seconds 60) 200 [pdf_wire] 200) st1).1 with
  | Ok m => m !! "img"
  | Raise _ => None
  end = Some 1%nat.
Proof. evaluate. Qed.

(** ** C3 *)

(** C3 (counterexample): with an empty install cache, a 301 answer makes
    [list_installs] yield nothing after a single request, the conditional
    one; no unconditional request follows, although the gateway would
    have had an install to report.  The same happens when no token was
    ever stored. *)
Example C3_not_modified_on_empty_cache :
  install_cache st_empty = ∅ ∧
  (list_installs (gateway (seconds 60) 301 [img_wire] 200) None st_empty).1
    = Ok [] ∧
  new_events st_empty
    (list_installs (gateway (seconds 60) 301 [img_wire] 200) None st_empty).2
    = [GetInstallations "~/default" (Some "Tue, 03 Nov")] ∧
  install_cache
    (list_installs (gateway (seconds 60) 301 [img_wire] 200) None st_empty).2
    = ∅ ∧
  (list_installs (gateway (seconds 60) 301 [img_wire] 200) None st0).1
    = Ok [] ∧
  new_events st0
    (list_installs (gateway (seconds 60) 301 [img_wire] 200) None st0).2
    = [GetInstallations "~/default" None].
Proof. evaluate. Qed.

Lemma new_events_requested s p :
  new_events s (requested s p) = [GetInstallations p (last_for s p)].
Proof.
  unfold new_events, requested, log, modify; simpl.
  by rewrite drop_app_length.
Qed.

(** The values of a dict whose keys and order belong together are the
    values of the map, each entry once. *)
Lemma install_values_perm s :
  order_ok (install_order s) (install_cache s) →
  install_values s ≡ₚ (map_to_list (install_cache s)).*2.
Proof.
  intros [Hnd Hdom]. unfold install_values.
  assert (Hkeys : install_order s ≡ₚ (map_to_list (install_cache s)).*1).
  { apply NoDup_Permutation; [done|apply NoDup_fst_map_to_list|].
    intros k. rewrite Hdom, list_elem_of_fmap. split.
    - intros [r Hr]. exists (k, r). split; [done|].
      by apply elem_of_map_to_list.
    - intros ([k' r] & -> & Hr). apply elem_of_map_to_list in Hr.
      by eexists. }
  rewrite Hkeys.
  assert (H : ∀ l : list (string * ref),
             (∀ k r, (k, r) ∈ l → install_cache s !! k = Some r) →
             omap (λ k, install_cache s !! k) l.*1 = l.*2).
  { induction l as [|[k r] l IH]; intros Hl; simpl; [done|].
    rewrite (Hl k r) by (apply elem_of_cons; by left). simpl.
    f_equal. apply IH. intros k' r' Hin. apply Hl.
    apply elem_of_cons. by right. }
  rewrite H; [done|]. intros k r. apply elem_of_map_to_list.
Qed.

Lemma install_values_empty s :
  install_cache s = ∅ → install_values s = [].
Proof.
  intros Hm. unfold install_values. rewrite Hm.
  induction (install_order s) as [|k o IH]; simpl; [done|].
  by rewrite lookup_empty.
Qed.

(** C3 (amended): on a 301 answer [list_installs] yields the servlets of
    the install cache as they are, in the order of the dict, each entry
    once, and nothing when the cache is empty; it has sent exactly one
    request, changes no field of the client, and raises nothing. *)
Theorem C3_not_modified_yields_cache w profile s res :
  installations_reply w (profile_of s profile)
    (last_for s (profile_of s profile)) = Got res →
  status_code res = 301 →
  ∃ s',
    list_installs w profile s = (Ok (install_values s), s') ∧
    (wf s → install_values s ≡ₚ (map_to_list (install_cache s)).*2) ∧
    (install_cache s = ∅ → (list_installs w profile s).1 = Ok []) ∧
    new_events s s' =
      [GetInstallations (profile_of s profile)
         (last_for s (profile_of s profile))] ∧
    install_cache s' = install_cache s ∧
    install_order s' = install_order s ∧
    plugin_cache s' = plugin_cache s ∧
    last_installations_request s' = last_installations_request s.
Proof.
  intros Hrep H301.
  exists (requested s (profile_of s profile)).
  rewrite (list_installs_unchanged _ _ _ _ Hrep H301).
  split_and!; try done.
  - intros Hwf. apply install_values_perm, Hwf.
  - intros Hm. simpl. by rewrite install_values_empty.
  - apply new_events_requested.
Qed.

Lemma C3_not_modified_yields_cache_witness :
  install_values st1 = [1%nat] ∧
  ∃ s',
    list_installs (gateway (seconds 60) 301 [img_wire] 200) None st1
      = (Ok (install_values st1), s') ∧
    (wf st1 → install_values st1 ≡ₚ (map_to_list (install_cache st1)).*2) ∧
    (install_cache st1 = ∅ →
     (list_installs (gateway (seconds 60) 301 [img_wire] 200) None st1).1
       = Ok []) ∧
    new_events st1 s' =
      [GetInstallations (profile_of st1 None)
         (last_for st1 (profile_of st1 None))] ∧
    install_cache s' = install_cache st1 ∧
    install_order s' = install_order st1 ∧
    plugin_cache s' = plugin_cache st1 ∧
    last_installations_request s' = last_installations_request st1.
Proof.
  split; [vm_compute; reflexivity|].
  apply (C3_not_modified_yields_cache
           (gateway (seconds 60) 301 [img_wire] 200) None st1
           {| status_code := 301; header_Date := Some "Tue, 03 Nov";
              body := Some (Installs [img_wire]) |});
    reflexivity.
Defined.

(** ** C5 *)

(** C5: a refresh that is answered with an install list leaves no plugin
    cache entry under any name of that list, whatever the age of the
    entry, and holds a servlet object made by this refresh under each
    such name; entries under other names are untouched.  Hence, if every
    cached instance was built from the servlet object held under its
    name before the refresh, this is so after it. *)
Theorem C5_refresh_evicts w profile s res data :
  installations_reply w (profile_of s profile)
    (last_for s (profile_of s profile)) = Got res →
  is_error_status (status_code res) = false →
  status_code res ≠ 301 →
  body res = Some (Installs data) →
  ∃ refs s',
    list_installs w profile s = (Ok refs, s') ∧
    (∀ n, n ∈ wire_name <$> data →
          plugin_cache s' !! n = None ∧
          ∃ r, install_cache s' !! n = Some r ∧ (next_ref s ≤ r)%nat) ∧
    (∀ n, n ∉ wire_name <$> data →
          plugin_cache s' !! n = plugin_cache s !! n) ∧
    (coherent s → coherent s').
Proof.
  intros Hrep Herr H301 Hbody.
  destruct (list_installs_refresh _ _ _ _ _ Hrep Herr H301 Hbody)
    as (refs & s' & E & _ & Hin & Hout & _).
  exists refs, s'. split_and!; try done.
  - intros n Hn. by destruct (Hout n Hn).
  - intros Hco n p Hp.
    destruct (decide (n ∈ wire_name <$> data)) as [Hd|Hd].
    + destruct (Hin n Hd) as [Hnone _]. congruence.
    + destruct (Hout n Hd) as [Hpc Hic].
      rewrite Hic. apply Hco. by rewrite <- Hpc.
Qed.

Lemma C5_refresh_evicts_witness :
  plugin_cache st2 !! "img" ≠ None ∧
  ∃ refs s',
    list_installs (gateway (seconds 20) 200 [img_wire] 200) None st2
      = (Ok refs, s') ∧
    (∀ n, n ∈ wire_name <$> [img_wire] →
          plugin_cache s' !! n = None ∧
          ∃ r, install_cache s' !! n = Some r ∧ (next_ref st2 ≤ r)%nat) ∧
    (∀ n, n ∉ wire_name <$> [img_wire] →
          plugin_cache s' !! n = plugin_cache st2 !! n) ∧
    (coherent st2 → coherent s').
Proof.
  split; [vm_compute; discriminate|].
  apply (C5_refresh_evicts
           (gateway (seconds 20) 200 [img_wire] 200) None st2
           {| status_code := 200; header_Date := Some "Tue, 03 Nov";
              body := Some (Installs [img_wire]) |} [img_wire]);
    [reflexivity|reflexivity|vm_compute; discriminate|reflexivity].
Defined.

(** [plugin], called on the servlet object that the install cache holds
    under its name, keeps the caches coherent as well. *)
Lemma plugin_coherent w r cache wasi fns wasm s v :
  servlets s !! r = Some v →
  install_cache s !! name v = Some r →
  coherent s → coherent (plugin w r cache wasi fns wasm s).2.
Proof.
  intros Hv Hi Hco.
  destruct (plugin w r cache wasi fns wasm s) as [res s'] eqn:E.
  destruct (plugin_effect _ _ _ _ _ _ _ _ _ _ Hv E)
    as (_ & Hic & _ & _ & Hcase).
  intros n p Hp. simpl in *. rewrite Hic.
  destruct res as [q|e].
  - destruct Hcase as [[_ Hpc]|(_ & _ & Hq & _ & _ & Hpc)];
      rewrite Hpc in Hp; [by apply Hco|].
    destruct (cache_ok _ _ _ _); [|by apply Hco].
    apply lookup_insert_Some in Hp as [[<- <-]|[_ ?]]; [|by apply Hco].
    by rewrite Hq.
  - destruct Hcase as [Hpc|[_ Hpc]]; rewrite Hpc in Hp; [by apply Hco|].
    apply lookup_delete_Some in Hp as [_ ?]. by apply Hco.
Qed.

(** ** Where a failing call of [plugin] stopped *)

(** The OAuth step of [plugin] goes through exactly when the gateway
    answers it (or the record has no OAuth). *)
Lemma fetch_oauth_raises w v s e s' :
  fetch_oauth w v s = (Raise e, s') → ¬ oauth_available w (config_profile s) v.
Proof.
  intros E Ho. unfold fetch_oauth, oauth_available in *.
  unfold_monad; simpl in *.
  destruct (has_oauth v); [|done].
  destruct Ho as (res & info & Hrep & Herr & Hbody); [done|].
  rewrite Hrep in E. simpl in E. rewrite Herr in E. simpl in E.
  by rewrite Hbody in E.
Qed.

(** A call of [plugin] that raises: where it stopped decides what
    happened to the cache. *)
Lemma plugin_failure w r cache wasi fns wasm s v e s' :
  servlets s !! r = Some v →
  plugin w r cache wasi fns wasm s = (Raise e, s') →
  (¬ oauth_available w (config_profile s) v ∧
   plugin_cache s' = plugin_cache s)
  ∨
  (oauth_available w (config_profile s) v ∧
   ¬ found_expired w cache wasi fns wasm v s ∧
   plugin_cache s' = plugin_cache s)
  ∨
  (oauth_available w (config_profile s) v ∧
   found_expired w cache wasi fns wasm v s ∧
   plugin_cache s' = delete (name v) (plugin_cache s)).
Proof.
  intros Hv E. unfold found_expired.
  unfold plugin in E. unfold bind at 1 in E. unfold get_servlet in E.
  rewrite Hv in E.
  unfold bind at 1 in E.
  destruct (fetch_oauth w v s) as [[oauth|e0] s0] eqn:Eo.
  2:{ injection E as <- <-. left. split.
      - by eapply fetch_oauth_raises.
      - unfold fetch_oauth in Eo. unfold_monad; simpl in *.
        repeat step; done. }
  right.
  assert (Ho : oauth_available w (config_profile s) v).
  { unfold fetch_oauth, oauth_available in *. unfold_monad; simpl in *.
    intros Hyes. rewrite Hyes in Eo. repeat step; by eexists _, _. }
  assert (Hs0 : plugin_cache s0 = plugin_cache s ∧
                servlets s0 = servlets s).
  { unfold fetch_oauth in Eo. unfold_monad; simpl in *.
    repeat step; done. }
  destruct Hs0 as [Hpc Hsv].
  destruct (cache_ok cache (wasi_or_True wasi) fns wasm) eqn:Hok.
  2:{ left. split; [done|]. split; [by intros [? _]|].
      eapply build_effect in E as (_ & _ & _ & _ & ->); [done|].
      by rewrite Hsv. }
  unfold_monad; simpl in E. rewrite Hpc in E.
  destruct (plugin_cache s !! name v) as [c|] eqn:Hc.
  2:{ left. split; [done|]. split; [by intros (_ & ? & ? & _)|].
      eapply build_effect in E as (_ & _ & _ & _ & ->); [done|].
      by rewrite Hsv. }
  destruct (is_fresh w c) eqn:Hf; [done|].
  right. split; [done|]. split; [by eauto|].
  eapply build_effect in E as (_ & _ & _ & _ & ->); [|simpl; by rewrite Hsv].
  simpl. by rewrite Hpc.
Qed.

(** ** C4 *)

(** The servlet object after a call of [plugin]: the same record, with
    its content possibly assigned. *)
Lemma plugin_record w r cache wasi fns wasm s v res s' :
  servlets s !! r = Some v →
  plugin w r cache wasi fns wasm s = (res, s') →
  ∃ v',
    servlets s' !! r = Some v' ∧
    name v' = name v ∧ has_oauth v' = has_oauth v ∧
    settings v' = settings v ∧ content_addr v' = content_addr v ∧
    (content v' = None → content v = None) ∧
    (∀ b, content v = Some b → content v' = Some b).
Proof.
  intros Hv E.
  destruct (plugin_store _ _ _ _ _ _ _ _ _ _ Hv E) as ([->| ->] & _).
  { exists v. repeat split; try done; congruence. }
  unfold servlets_after.
  destruct (content v) as [b|] eqn:Hc.
  { exists v. repeat split; try done; congruence. }
  destruct (content_reply w (content_addr v)) as [|cres].
  { exists v. repeat split; try done; congruence. }
  exists (set_content (body cres) v).
  rewrite lookup_insert_eq. repeat split; try done; simpl; congruence.
Qed.

(** The fast path, run forward. *)
Lemma plugin_fast w r cache wasi fns wasm s v c :
  servlets s !! r = Some v →
  oauth_available w (config_profile s) v →
  cache_ok cache (wasi_or_True wasi) fns wasm = true →
  plugin_cache s !! name v = Some c →
  is_fresh w c = true →
  ∃ s',
    plugin w r cache wasi fns wasm s = (Ok c, s') ∧
    plugin_cache s' = plugin_cache s ∧
    servlets s' = servlets s ∧
    dicts s' = dicts s ∧
    new_events s s' =
      if has_oauth v then [GetOAuth (config_profile s) (name v)] else [].
Proof.
  intros Hv Ho Hok Hc Hf.
  destruct (plugin w r cache wasi fns wasm s) as [res s'] eqn:E.
  unfold oauth_available in Ho. unfold new_events.
  exec_plugin.
  all: try (destruct Ho as (? & ? & ? & ? & ?); [done|congruence]).
  all: eexists; split; [reflexivity|]; simpl.
  all: rewrite ?drop_app_length, ?drop_all; done.
Qed.

Lemma is_fresh_true w c :
  now w < _timestamp c + timedelta 4 30 → is_fresh w c = true.
Proof. intros. unfold is_fresh. apply bool_decide_eq_true_2. lia. Qed.

Lemma is_fresh_false w c :
  _timestamp c + timedelta 4 30 ≤ now w → is_fresh w c = false.
Proof. intros. unfold is_fresh. apply bool_decide_eq_false_2. lia. Qed.

(** C4 (counterexample): the plugin cache holds the instance of ["img"]
    that was created at second 10.  Two cacheable calls follow each other
    within 15 seconds, at seconds 270 and 285, both with their OAuth
    request answered: the first returns the cached instance, the second
    a different one, because the 4 minutes 30 seconds are counted from
    the creation of the instance and ran out in between.  Within the
    lifetime (second 100), a call whose OAuth request is answered 500
    returns no instance at all; and past the lifetime (second 300), with
    an Extism that rejects the manifest, the call raises as well: the
    expired entry is gone, and no new instance is returned. *)
Example C4_two_calls_within_ttl_differ :
  plugin_cache st2 !! "img" = Some img_plugin ∧
  _timestamp img_plugin = seconds 10 ∧
  obj_id img_plugin = 2%nat ∧
  (plugin (gateway (seconds 270) 200 [img_wire] 200) 1%nat true None None
     None st2).1 = Ok img_plugin ∧
  seconds 285 - seconds 270 < timedelta 4 30 ∧
  match (plugin (gateway (seconds 285) 200 [img_wire] 200) 1%nat true None
           None None
           (plugin (gateway (seconds 270) 200 [img_wire] 200) 1%nat true
              None None None st2).2).1 with
  | Ok p => Some (obj_id p)
  | Raise _ => None
  end = Some 3%nat ∧
  (plugin (gateway (seconds 100) 200 [img_wire] 500) 1%nat true None None
     None st2).1 = Raise (HTTPError 500) ∧
  (plugin (gateway_404 (seconds 300)) 1%nat true None None None st2).1
    = Raise ExtismError ∧
  plugin_cache
    (plugin (gateway_404 (seconds 300)) 1%nat true None None None st2).2
    !! "img" = None.
Proof. evaluate. Qed.

(** C4 (amended): let a cacheable call of [plugin] on a record return the
    instance [p1] (created by that very call when the cache had no entry
    for the record); [p1] is then the entry of the record's name.  Its
    lifetime is 270 seconds, counted from its creation.  A cacheable call
    made before the lifetime is over leaves the plugin cache as it is and
    can return no instance but [p1]; it does return [p1] once its OAuth
    request (if the record has OAuth) is answered.  A cacheable call made
    when the lifetime is over, once past its OAuth request, has deleted
    the entry whatever happens next: when the rebuild raises, the cache
    is the cache without the entry; when it succeeds, the call returns a
    newly built instance, a different object created now, which takes the
    entry's place; and with a cooperative gateway it does succeed. *)
Theorem C4_ttl_reuse w1 w2 r wasi1 wasi2 s v p1 s1 :
  wf s →
  servlets s !! r = Some v →
  plugin w1 r true wasi1 None None s = (Ok p1, s1) →
  timedelta 4 30 = seconds 270 ∧
  (plugin_cache s !! name v = None → _timestamp p1 = now w1) ∧
  plugin_cache s1 !! name v = Some p1 ∧
  (now w2 < _timestamp p1 + seconds 270 →
   plugin_cache (plugin w2 r true wasi2 None None s1).2 = plugin_cache s1 ∧
   (∀ p, (plugin w2 r true wasi2 None None s1).1 = Ok p → p = p1) ∧
   (oauth_available w2 (config_profile s) v →
    (plugin w2 r true wasi2 None None s1).1 = Ok p1)) ∧
  (_timestamp p1 + seconds 270 ≤ now w2 →
   oauth_available w2 (config_profile s) v →
   plugin_cache (plugin w2 r true wasi2 None None s1).2 !! name v
     ≠ Some p1 ∧
   match (plugin w2 r true wasi2 None None s1).1 with
   | Ok p2 =>
       obj_id p2 ≠ obj_id p1 ∧
       _timestamp p2 = now w2 ∧
       plugin_cache (plugin w2 r true wasi2 None None s1).2 =
         <[name v := p2]> (delete (name v) (plugin_cache s1))
   | Raise _ =>
       plugin_cache (plugin w2 r true wasi2 None None s1).2 =
         delete (name v) (plugin_cache s1)
   end ∧
   (well_configured v → content_available w2 v → extism_accepts w2 →
    ∃ p2, (plugin w2 r true wasi2 None None s1).1 = Ok p2)).
Proof.
  intros Hwf Hv E1.
  pose proof (plugin_wf w1 r true wasi1 None None s Hwf) as Hwf1.
  rewrite E1 in Hwf1; simpl in Hwf1.
  destruct (plugin_effect _ _ _ _ _ _ _ _ _ _ Hv E1)
    as (Hprof & _ & _ & _ & Hcase).
  destruct (plugin_record _ _ _ _ _ _ _ _ _ _ Hv E1)
    as (v1 & Hv1 & Hname & Hoa & Hset & Haddr & Hcnone & _).
  assert (Hok : ∀ wasi, cache_ok true (wasi_or_True wasi) None None = true).
  { intros wasi. by rewrite wasi_or_True_true. }
  assert (Hp1 : plugin_cache s1 !! name v = Some p1).
  { destruct Hcase as [[(_ & ? & _) ->]|(_ & _ & _ & _ & _ & ->)]; [done|].
    rewrite Hok. apply lookup_insert_eq. }
  assert (Ho1 : oauth_available w2 (config_profile s) v →
                oauth_available w2 (config_profile s1) v1).
  { unfold oauth_available in *. by rewrite Hprof, Hname, Hoa. }
  assert (Httl : timedelta 4 30 = seconds 270) by reflexivity.
  split_and!; [done| |done| |].
  - intros Hnone.
    destruct Hcase as [[(_ & ? & _) _]|(_ & _ & _ & ? & _)]; [congruence|done].
  - intros Hlt.
    assert (Hfresh : is_fresh w2 p1 = true).
    { apply is_fresh_true. by rewrite Httl. }
    destruct (plugin w2 r true wasi2 None None s1) as [res s2] eqn:E2.
    simpl.
    destruct (plugin_effect _ _ _ _ _ _ _ _ _ _ Hv1 E2)
      as (_ & _ & _ & _ & Hcase2).
    unfold fast_path, found_expired in Hcase2. rewrite Hname in Hcase2.
    split_and!.
    + destruct res as [p|e].
      * destruct Hcase2 as [[_ ?]|(Hexp & _)]; [done|].
        rewrite (Hexp p1) in Hfresh by done. discriminate.
      * destruct Hcase2 as [?|[(_ & c & Hc & Hf) _]]; [done|].
        rewrite Hp1 in Hc. injection Hc as <-. congruence.
    + intros p ->.
      destruct Hcase2 as [[(_ & Hc & _) _]|(Hexp & _)]; [congruence|].
      rewrite (Hexp p1) in Hfresh by done. discriminate.
    + intros Ho.
      destruct (plugin_fast w2 r true wasi2 None None s1 v1 p1)
        as (s2' & E2' & _); try done.
      * by apply Ho1.
      * by rewrite Hname.
      * congruence.
  - intros Hge Ho.
    assert (Hstale : is_fresh w2 p1 = false).
    { apply is_fresh_false. by rewrite Httl. }
    assert (Hfound : found_expired w2 true wasi2 None None v1 s1).
    { split; [done|]. exists p1. by rewrite Hname. }
    destruct (plugin w2 r true wasi2 None None s1) as [res s2] eqn:E2.
    simpl.
    assert (Hres :
      match res with
      | Ok p2 =>
          obj_id p2 ≠ obj_id p1 ∧ _timestamp p2 = now w2 ∧
          plugin_cache s2 =
            <[name v := p2]> (delete (name v) (plugin_cache s1))
      | Raise _ => plugin_cache s2 = delete (name v) (plugin_cache s1)
      end).
    { destruct res as [p2|e].
      - destruct (plugin_effect _ _ _ _ _ _ _ _ _ _ Hv1 E2)
          as (_ & _ & _ & _ & Hcase2).
        unfold fast_path in Hcase2. rewrite Hname in Hcase2.
        destruct Hcase2
          as [[(_ & Hc & Hf) _]|(_ & Hid & _ & Hts & _ & Hpc)].
        { rewrite Hp1 in Hc. injection Hc as <-. congruence. }
        pose proof (wf_plugin_ids _ Hwf1 _ _ Hp1).
        split_and!; [lia|done|].
        by rewrite Hpc, Hok, insert_delete_eq.
      - destruct (plugin_failure _ _ _ _ _ _ _ _ _ _ Hv1 E2)
          as [[Hno _]|[(_ & Hne & _)|(_ & _ & Hpc)]].
        + destruct Hno. by apply Ho1.
        + done.
        + by rewrite Hpc, Hname. }
    split_and!; [|done|].
    + destruct res as [p2|e].
      * destruct Hres as (Hid & _ & ->). rewrite lookup_insert_eq.
        intros [= ->]. done.
      * rewrite Hres, lookup_delete_eq. done.
    + intros Hwc Hca Hx.
      destruct (plugin_ok w2 r true wasi2 None None s1 v1)
        as (p2 & s2' & E2'); try done.
      { unfold well_configured in *. by rewrite Hset. }
      { by apply Ho1. }
      { unfold content_available in *. rewrite Haddr. auto. }
      exists p2. congruence.
Qed.

Lemma st1_wf : wf st1.
Proof. apply list_installs_wf, init_wf. Qed.

Lemma st2_wf : wf st2.
Proof. apply plugin_wf, st1_wf. Qed.

Lemma img_well_configured : well_configured img_servlet.
Proof. by eexists _, _, _. Qed.

Lemma gateway_oauth_available t st l p v :
  oauth_available (gateway t st l 200) p v.
Proof. intros _. by eexists _, _. Qed.

Lemma gateway_content_available t st l o v :
  content_available (gateway t st l o) v.
Proof. intros _. by eexists. Qed.

Lemma gateway_extism_accepts t st l o : extism_accepts (gateway t st l o).
Proof. by intros ? ?. Qed.

Lemma C4_ttl_reuse_witness :
  timedelta 4 30 = seconds 270 ∧
  (plugin (gateway (seconds 280 - 1) 200 [img_wire] 200) 1%nat true None
     None None st2).1 = Ok img_plugin ∧
  plugin_cache
    (plugin (gateway (seconds 280 - 1) 200 [img_wire] 200) 1%nat true None
       None None st2).2 = plugin_cache st2 ∧
  (∃ p2,
     (plugin (gateway (seconds 280) 200 [img_wire] 200) 1%nat true None None
        None st2).1 = Ok p2) ∧
  plugin_cache
    (plugin (gateway (seconds 280) 200 [img_wire] 200) 1%nat true None None
       None st2).2 !! name img_servlet ≠ Some img_plugin ∧
  plugin_cache
    (plugin (gateway_404 (seconds 280)) 1%nat true None None None st2).2
    !! name img_servlet ≠ Some img_plugin ∧
  plugin_cache
    (plugin (gateway_404 (seconds 280)) 1%nat true None None None st2).2
    = delete (name img_servlet) (plugin_cache st2).
Proof.
  assert (Hv : servlets st1 !! 1%nat = Some img_servlet)
    by (vm_compute; reflexivity).
  assert (E : plugin (gateway (seconds 10) 200 [img_wire] 200) 1%nat true
                None None None st1 = (Ok img_plugin, st2))
    by (vm_compute; reflexivity).
  split_and!.
  - exact (proj1 (C4_ttl_reuse (gateway (seconds 10) 200 [img_wire] 200)
                    (gateway (seconds 280) 200 [img_wire] 200) 1%nat None
                    None st1 img_servlet img_plugin st2 st1_wf Hv E)).
  - refine (proj2 (proj2 (proj1 (proj2 (proj2 (proj2
      (C4_ttl_reuse (gateway (seconds 10) 200 [img_wire] 200)
         (gateway (seconds 280 - 1) 200 [img_wire] 200) 1%nat None None
         st1 img_servlet img_plugin st2 st1_wf Hv E)))) _)) _).
    + vm_compute; reflexivity.
    + apply gateway_oauth_available.
  - refine (proj1 (proj1 (proj2 (proj2 (proj2
      (C4_ttl_reuse (gateway (seconds 10) 200 [img_wire] 200)
         (gateway (seconds 280 - 1) 200 [img_wire] 200) 1%nat None None
         st1 img_servlet img_plugin st2 st1_wf Hv E)))) _)).
    vm_compute; reflexivity.
  - refine (proj2 (proj2 (proj2 (proj2 (proj2 (proj2
      (C4_ttl_reuse (gateway (seconds 10) 200 [img_wire] 200)
         (gateway (seconds 280) 200 [img_wire] 200) 1%nat None None
         st1 img_servlet img_plugin st2 st1_wf Hv E)))) _ _)) _ _ _).
    + vm_compute; discriminate.
    + apply gateway_oauth_available.
    + apply img_well_configured.
    + apply gateway_content_available.
    + apply gateway_extism_accepts.
  - refine (proj1 (proj2 (proj2 (proj2 (proj2
      (C4_ttl_reuse (gateway (seconds 10) 200 [img_wire] 200)
         (gateway (seconds 280) 200 [img_wire] 200) 1%nat None None
         st1 img_servlet img_plugin st2 st1_wf Hv E)))) _ _)).
    + vm_compute; discriminate.
    + apply gateway_oauth_available.
  - refine (proj1 (proj2 (proj2 (proj2 (proj2
      (C4_ttl_reuse (gateway (seconds 10) 200 [img_wire] 200)
         (gateway_404 (seconds 280)) 1%nat None None
         st1 img_servlet img_plugin st2 st1_wf Hv E)))) _ _)).
    + vm_compute; discriminate.
    + intros _. by eexists _, _.
  - pose proof (proj1 (proj2 (proj2 (proj2 (proj2 (proj2
      (C4_ttl_reuse (gateway (seconds 10) 200 [img_wire] 200)
         (gateway_404 (seconds 280)) 1%nat None None
         st1 img_servlet img_plugin st2 st1_wf Hv E))))
      ltac:(vm_compute; discriminate)
      ltac:(intros _; by eexists _, _)))) as H.
    exact H.
Defined.

(** ** C6 *)






(** ** C7 *)

(** C7 (counterexample): the cache holds an instance of ["img"] that is
    past its lifetime; the call deletes it, then fails in [ext.Plugin].
    The plugin cache after the failed call is not the cache before it. *)
Example C7_failed_call_has_evicted :
  plugin_cache st2 !! "img" = Some img_plugin ∧
  is_fresh (gateway_404 (seconds 300)) img_plugin = false ∧
  (plugin (gateway_404 (seconds 300)) 1%nat true None None None st2).1
    = Raise ExtismError ∧
  plugin_cache
    (plugin (gateway_404 (seconds 300)) 1%nat true None None None st2).2
    !! "img" = None.
Proof. evaluate. Qed.

(** C7 (amended): whatever a call of [plugin] does, an entry of the
    plugin cache afterwards is an entry that was there before or is the
    instance that the call returned, stored under the record's name; so
    a call that raises stores nothing.  After a call that raises, the
    cache is exactly the cache before the call, with one exception: when
    the call got its OAuth answer, was cacheable and found an instance
    past its lifetime, it has deleted that entry before the step that
    failed, and the cache is the cache before the call without it. *)
Theorem C7_failed_call_stores_nothing w r cache wasi fns wasm s v res s' :
  servlets s !! r = Some v →
  plugin w r cache wasi fns wasm s = (res, s') →
  (∀ n c, plugin_cache s' !! n = Some c →
          plugin_cache s !! n = Some c ∨ (n = name v ∧ res = Ok c)) ∧
  (∀ e, res = Raise e →
        (oauth_available w (config_profile s) v →
         found_expired w cache wasi fns wasm v s →
         plugin_cache s' = delete (name v) (plugin_cache s) ∧
         plugin_cache s' !! name v = None ∧
         plugin_cache s' ≠ plugin_cache s) ∧
        (¬ found_expired w cache wasi fns wasm v s →
         plugin_cache s' = plugin_cache s) ∧
        (¬ oauth_available w (config_profile s) v →
         plugin_cache s' = plugin_cache s)).
Proof.
  intros Hv E.
  destruct (plugin_effect _ _ _ _ _ _ _ _ _ _ Hv E) as (_ & _ & _ & _ & Hcase).
  split.
  - intros n c Hc. destruct res as [p|e].
    + destruct Hcase as [[_ Hpc]|(_ & _ & _ & _ & _ & Hpc)];
        rewrite Hpc in Hc; [by left|].
      destruct (cache_ok _ _ _ _); [|by left].
      apply lookup_insert_Some in Hc as [[<- <-]|[_ ?]]; [by right|by left].
    + destruct Hcase as [Hpc|[_ Hpc]]; rewrite Hpc in Hc; [by left|].
      apply lookup_delete_Some in Hc as [_ ?]. by left.
  - intros e ->.
    destruct (plugin_failure _ _ _ _ _ _ _ _ _ _ Hv E)
      as [[Hno Hpc]|[(Ho & Hne & Hpc)|(Ho & Hexp & Hpc)]].
    + split_and!; [done|done|done].
    + split_and!; [done|done|done].
    + split_and!; [|done|done].
      intros _ _. rewrite Hpc. split_and!; [done|apply lookup_delete_eq|].
      destruct Hexp as (_ & c & Hc & _).
      intros Heq. rewrite <- Heq, lookup_delete_eq in Hc. discriminate.
Qed.

Lemma img_expired_at_300 :
  found_expired (gateway_404 (seconds 300)) true None None None
    (set_content "\0asm" img_servlet) st2.
Proof. split; [reflexivity|]. exists img_plugin. by vm_compute. Qed.

Lemma C7_failed_call_stores_nothing_witness :
  (plugin (gateway_404 (seconds 300)) 1%nat true None None None st2).1
    = Raise ExtismError ∧
  plugin_cache
    (plugin (gateway_404 (seconds 300)) 1%nat true None None None st2).2
    = delete (name (set_content "\0asm" img_servlet)) (plugin_cache st2) ∧
  plugin_cache
    (plugin (gateway_404 (seconds 300)) 1%nat true None None None st2).2
    !! name (set_content "\0asm" img_servlet) = None ∧
  plugin_cache
    (plugin (gateway_404 (seconds 300)) 1%nat true None None None st2).2
    ≠ plugin_cache st2.
Proof.
  split; [vm_compute; reflexivity|].
  refine (proj1 (proj2 (C7_failed_call_stores_nothing
            (gateway_404 (seconds 300)) 1%nat true None None None st2
            (set_content "\0asm" img_servlet) (Raise ExtismError) _ _ _)
            ExtismError eq_refl) _ _).
  - vm_compute; reflexivity.
  - vm_compute; reflexivity.
  - intros _. by eexists _, _.
  - apply img_expired_at_300.
Defined.

(** ** C8 *)

Lemma build_event_with_wasi v e : build_event v true e → with_wasi e.
Proof. by destruct e. Qed.

(** C8: [wasi or True] is [True] for every argument; every
    [ext.Plugin(...)] construction that a call of [plugin] performs gets
    [wasi=True]; and, the cache holding only instances with WASI, every
    instance that a call returns runs with WASI. *)
Theorem C8_wasi_always_on w r cache wasi fns wasm s :
  wasi_or_True wasi = true ∧
  Forall with_wasi (new_events s (plugin w r cache wasi fns wasm s).2) ∧
  (wf s → ∀ p, (plugin w r cache wasi fns wasm s).1 = Ok p →
               rt_wasi (_plugin p) = true).
Proof.
  split; [apply wasi_or_True_true|].
  destruct (plugin w r cache wasi fns wasm s) as [res s'] eqn:E.
  destruct (servlets s !! r) as [v|] eqn:Hv.
  - split.
    + destruct (plugin_store _ _ _ _ _ _ _ _ _ _ Hv E) as (_ & evs & Hlog & Hevs).
      unfold new_events. simpl. rewrite Hlog, drop_app_length.
      apply Forall_app. split.
      * destruct (has_oauth v); by repeat constructor.
      * eapply Forall_impl; [exact Hevs|]. apply build_event_with_wasi.
    + intros Hwf p Hp. simpl in Hp. subst res.
      destruct (plugin_effect _ _ _ _ _ _ _ _ _ _ Hv E)
        as (_ & _ & _ & _ & [[(_ & Hc & _) _]|(_ & _ & _ & _ & Hw & _)]).
      * by eapply wf_plugin_wasi.
      * done.
  - unfold plugin, get_servlet, bind in E. rewrite Hv in E.
    injection E as <- <-. split.
    + unfold new_events. rewrite drop_all. constructor.
    + by intros.
Qed.

Lemma C8_wasi_always_on_witness :
  (plugin (gateway (seconds 10) 200 [img_wire] 200) 1%nat true (Some false)
     None None st1).1 = Ok img_plugin ∧
  rt_wasi (_plugin img_plugin) = true.
Proof.
  split; [vm_compute; reflexivity|].
  apply (proj2 (proj2
           (C8_wasi_always_on (gateway (seconds 10) 200 [img_wire] 200) 1%nat
              true (Some false) None None st1))).
  - apply list_installs_wf, init_wf.
  - vm_compute; reflexivity.
Defined.

(** ** C9 *)

(** [build] with the content missing: the request goes out and the body
    of the response, whatever its status, becomes the content. *)
Lemma build_fetches w r ok wasi oauth fns wasm s v cres res s' :
  servlets s !! r = Some v → content v = None →
  content_reply w (content_addr v) = Got cres →
  build w r ok wasi oauth fns wasm s = (res, s') →
  servlets s' = <[r := set_content (body cres) v]> (servlets s) ∧
  ∃ evs, io_log s' = io_log s ++ GetContent (content_addr v) :: evs.
Proof.
  intros Hv Hc Hrep E.
  exec_build.
  all: split; [done|].
  all: rewrite <- ?app_assoc; simpl; by eexists.
Qed.

Lemma plugin_fetches w r cache wasi fns wasm s v cres res s' :
  servlets s !! r = Some v → content v = None →
  oauth_available w (config_profile s) v →
  (∀ c, plugin_cache s !! name v = Some c → is_fresh w c = false) →
  content_reply w (content_addr v) = Got cres →
  plugin w r cache wasi fns wasm s = (res, s') →
  servlets s' = <[r := set_content (body cres) v]> (servlets s) ∧
  In (GetContent (content_addr v)) (new_events s s').
Proof.
  intros Hv Hc Ho Hexp Hrep E.
  unfold oauth_available in Ho. unfold new_events.
  exec_plugin.
  all: try (destruct Ho as (? & ? & ? & ? & ?); [done|congruence]).
  all: try match goal with
       | F : is_fresh _ _ = true |- _ =>
           rewrite Hexp in F by done; discriminate
       end.
  all: match goal with
       | H : build _ _ _ _ _ _ _ _ = _ |- _ =>
           eapply build_fetches in H as (-> & evs & ->); [|simpl; eauto..]
       end.
  all: split; [done|]; simpl.
  all: rewrite <- ?app_assoc, drop_app_length; simpl; auto.
Qed.

(** A call of [plugin], on any record, leaves a record with content as
    it is. *)
Lemma plugin_content_kept w r' cache wasi fns wasm s r v b :
  servlets s !! r = Some v → content v = Some b →
  servlets (plugin w r' cache wasi fns wasm s).2 !! r = Some v.
Proof.
  intros Hv Hc.
  destruct (plugin w r' cache wasi fns wasm s) as [res s'] eqn:E.
  destruct (servlets s !! r') as [v'|] eqn:Hv'.
  - simpl.
    destruct (plugin_store _ _ _ _ _ _ _ _ _ _ Hv' E) as ([->| ->] & _);
      [done|].
    unfold servlets_after.
    destruct (decide (r' = r)) as [->|Hne].
    + rewrite Hv in Hv'. injection Hv' as <-. by rewrite Hc.
    + destruct (content v'); [done|].
      destruct (content_reply _ _); [done|].
      by rewrite lookup_insert_ne.
  - unfold plugin, get_servlet, bind in E. rewrite Hv' in E.
    by injection E as <- <-.
Qed.

(** A call of [plugin] on a record with content sends no content
    request. *)
Lemma plugin_no_refetch w r cache wasi fns wasm s v b a :
  servlets s !! r = Some v → content v = Some b →
  ¬ In (GetContent a) (new_events s (plugin w r cache wasi fns wasm s).2).
Proof.
  intros Hv Hc Hin.
  destruct (plugin w r cache wasi fns wasm s) as [res s'] eqn:E.
  destruct (plugin_store _ _ _ _ _ _ _ _ _ _ Hv E) as (_ & evs & Hlog & Hevs).
  unfold new_events in Hin. simpl in Hin.
  rewrite Hlog, drop_app_length in Hin.
  apply in_app_or in Hin as [Hin|Hin].
  - destruct (has_oauth v); simpl in Hin; [|done].
    by destruct Hin.
  - rewrite Forall_forall in Hevs.
    apply list_elem_of_In, Hevs in Hin. simpl in Hin.
    destruct Hin as [? _]. congruence.
Qed.

(** The loop of [list_installs] leaves the objects that exist alone. *)
Lemma list_installs_item_store iw s r :
  (r < next_ref s)%nat →
  servlets (list_installs_item iw s).2 !! r = servlets s !! r ∧
  dicts (list_installs_item iw s).2 !! r = dicts s !! r ∧
  (next_ref s ≤ next_ref (list_installs_item iw s).2)%nat.
Proof.
  intros Hr.
  destruct (list_installs_item iw s) as [res s'] eqn:E.
  exec_item.
  all: rewrite ?lookup_insert_ne by lia; repeat split; try done; lia.
Qed.

Lemma list_installs_loop_store data : ∀ s r,
  (r < next_ref s)%nat →
  servlets (mapM list_installs_item data s).2 !! r = servlets s !! r ∧
  dicts (mapM list_installs_item data s).2 !! r = dicts s !! r.
Proof.
  induction data as [|iw data IH]; intros s r Hr; simpl; [done|].
  destruct (list_installs_item_store iw s r Hr) as (Hs & Hd & Hn).
  destruct (list_installs_item_effect iw s) as (r1 & s1 & E1 & _).
  rewrite E1 in Hs, Hd, Hn. simpl in *.
  destruct (IH s1 r) as [Hs' Hd']; [lia|].
  unfold bind at 1 3. rewrite E1.
  unfold bind at 1 2.
  destruct (mapM list_installs_item data s1) as [[refs|e] s2]; simpl in *.
  all: by rewrite Hs', Hd'.
Qed.

Lemma list_installs_store w profile s r :
  (r < next_ref s)%nat →
  servlets (list_installs w profile s).2 !! r = servlets s !! r ∧
  dicts (list_installs w profile s).2 !! r = dicts s !! r.
Proof.
  intros Hr.
  destruct (list_installs w profile s) as [res s'] eqn:E.
  unfold list_installs, last_request, fix_profile in E.
  unfold_monad; simpl in *.
  repeat step; try done.
  all: match goal with
       | H : mapM _ ?data ?s0 = _ |- _ =>
           destruct (list_installs_loop_store data s0 r) as [Hs Hd];
           [done|]; rewrite H in Hs, Hd; done
       end.
Qed.

Lemma run_call_wf c s : wf s → wf (run_call c s).
Proof.
  intros Hwf. destruct c; simpl.
  - by apply plugin_wf.
  - by apply list_installs_wf.
  - destruct Hwf as [H1 H2 H3 H4 H5 H6]. split; simpl; try done.
    all: try apply order_ok_empty.
    all: intros *; by rewrite lookup_empty.
Qed.

Lemma run_calls_content_kept cs : ∀ s r v b,
  wf s → servlets s !! r = Some v → content v = Some b →
  wf (run_calls cs s) ∧ servlets (run_calls cs s) !! r = Some v.
Proof.
  induction cs as [|c cs IH]; intros s r v b Hwf Hv Hc; simpl; [done|].
  apply (IH _ r v b); [by apply run_call_wf| |done].
  destruct c; simpl.
  - by eapply plugin_content_kept.
  - destruct (list_installs_store w profile s r) as [-> _]; [|done].
    by eapply wf_servlet_ids.
  - done.
Qed.

(** The manifest of every runtime that [build] constructs starts with
    the record's content. *)
Lemma build_wasm w r ok wasi oauth fns extra s v b res s' :
  servlets s !! r = Some v → content_used w v b →
  build w r ok wasi oauth fns extra s = (res, s') →
  ∃ evs,
    io_log s' = io_log s ++ evs ∧
    ∀ m wa fs, In (ExtPlugin m wa fs) evs →
               wasm m = {| data := b |} :: default [] extra.
Proof.
  intros Hv Hb E. unfold content_used in Hb.
  exec_build.
  all: try (destruct Hb as (? & ? & ?); simplify_eq).
  all: try by (exists []; split; [by rewrite app_nil_r|intros ? ? ? []]).
  all: eexists; split; [rewrite <- ?app_assoc; reflexivity|].
  all: simpl; intros m wa fs Hin.
  all: repeat (destruct Hin as [Hin|Hin]; [by simplify_eq|]); done.
Qed.

Lemma plugin_wasm w r cache wasi fns extra s v b res s' :
  servlets s !! r = Some v → content_used w v b →
  plugin w r cache wasi fns extra s = (res, s') →
  ∀ m wa fs, In (ExtPlugin m wa fs) (new_events s s') →
             wasm m = {| data := b |} :: default [] extra.
Proof.
  intros Hv Hb E m wa fs. unfold new_events.
  exec_plugin.
  all: try match goal with
       | H : build _ _ _ _ _ _ _ _ = _ |- _ =>
           eapply build_wasm in H as (evs & -> & Hevs);
           [|simpl; eassumption|eassumption]
       end.
  all: simpl; rewrite <- ?app_assoc, ?drop_app_length, ?drop_all; simpl.
  all: intros Hin.
  all: repeat (destruct Hin as [Hin|Hin]; [by simplify_eq|]); try done.
  all: eauto.
Qed.

(** C9: a call of [plugin] that gets as far as the content step on a
    record without content sends the content request and assigns the
    body of the response to the record, whatever the status of that
    response (no hypothesis is made on it): the record's content is that
    body, and every runtime the call constructs gets it as its first
    WASM module.  Through any later calls the record keeps that body as
    its content; no later call of [plugin] on the record sends a content
    request again, and every runtime such a call constructs is again
    given that body. *)
Theorem C9_content_assigned_unchecked w r cache wasi fns extra s v cres :
  wf s →
  servlets s !! r = Some v → content v = None →
  oauth_available w (config_profile s) v →
  (∀ c, plugin_cache s !! name v = Some c → is_fresh w c = false) →
  content_reply w (content_addr v) = Got cres →
  In (GetContent (content_addr v))
     (new_events s (plugin w r cache wasi fns extra s).2) ∧
  content <$> servlets (plugin w r cache wasi fns extra s).2 !! r
    = Some (Some (body cres)) ∧
  (∀ m wa fs,
     In (ExtPlugin m wa fs)
        (new_events s (plugin w r cache wasi fns extra s).2) →
     wasm m = {| data := body cres |} :: default [] extra) ∧
  ∀ calls,
    servlets (run_calls calls (plugin w r cache wasi fns extra s).2) !! r
      = Some (set_content (body cres) v) ∧
    content <$>
      servlets (run_calls calls (plugin w r cache wasi fns extra s).2) !! r
      = Some (Some (body cres)) ∧
    ∀ w' cache' wasi' fns' extra',
      (∀ a,
         ¬ In (GetContent a)
             (new_events
                (run_calls calls (plugin w r cache wasi fns extra s).2)
                (plugin w' r cache' wasi' fns' extra'
                   (run_calls calls (plugin w r cache wasi fns extra s).2)).2))
      ∧
      (∀ m wa fs,
         In (ExtPlugin m wa fs)
            (new_events
               (run_calls calls (plugin w r cache wasi fns extra s).2)
               (plugin w' r cache' wasi' fns' extra'
                  (run_calls calls (plugin w r cache wasi fns extra s).2)).2) →
         wasm m = {| data := body cres |} :: default [] extra').
Proof.
  intros Hwf Hv Hc Ho Hexp Hrep.
  pose proof (plugin_wf w r cache wasi fns extra s Hwf) as Hwf1.
  pose proof (plugin_wasm w r cache wasi fns extra s v (body cres)) as Hw.
  destruct (plugin w r cache wasi fns extra s) as [res s1] eqn:E.
  simpl in *.
  destruct (plugin_fetches _ _ _ _ _ _ _ _ _ _ _ Hv Hc Ho Hexp Hrep E)
    as [Hs1 Hin].
  assert (Hv1 : servlets s1 !! r = Some (set_content (body cres) v)).
  { rewrite Hs1. apply lookup_insert_eq. }
  split_and!; [done|by rewrite Hv1| |].
  { eapply Hw; [done| |done]. unfold content_used. rewrite Hc. by exists cres. }
  intros calls.
  destruct (run_calls_content_kept calls s1 r _ (body cres) Hwf1 Hv1 eq_refl)
    as [_ Hv2].
  split_and!; [done|by rewrite Hv2|].
  intros w' cache' wasi' fns' extra'. split.
  - intros a. by eapply plugin_no_refetch.
  - destruct (plugin w' r cache' wasi' fns' extra' (run_calls calls s1))
      as [res' s'] eqn:E'.
    simpl. eapply plugin_wasm; [exact Hv2|done|exact E'].
Qed.

Lemma C9_content_assigned_unchecked_witness :
  status_code
    {| status_code := 404; header_Date := None; body := "Not Found" |} = 404 ∧
  In (GetContent (content_addr img_servlet))
     (new_events st1
        (plugin (gateway_404 (seconds 10)) 1%nat true None None None st1).2) ∧
  content <$>
    servlets
      (plugin (gateway_404 (seconds 10)) 1%nat true None None None st1).2
      !! 1%nat = Some (Some "Not Found") ∧
  (∀ m wa fs,
     In (ExtPlugin m wa fs)
        (new_events st1
           (plugin (gateway_404 (seconds 10)) 1%nat true None None None
              st1).2) →
     wasm m = {| data := "Not Found" |} :: default [] None) ∧
  ∀ calls,
    servlets
      (run_calls calls
         (plugin (gateway_404 (seconds 10)) 1%nat true None None None st1).2)
      !! 1%nat = Some (set_content "Not Found" img_servlet) ∧
    content <$>
      servlets
        (run_calls calls
           (plugin (gateway_404 (seconds 10)) 1%nat true None None None
              st1).2) !! 1%nat = Some (Some "Not Found") ∧
    ∀ w' cache' wasi' fns' extra',
      (∀ a,
         ¬ In (GetContent a)
             (new_events
                (run_calls calls
                   (plugin (gateway_404 (seconds 10)) 1%nat true None None
                      None st1).2)
                (plugin w' 1%nat cache' wasi' fns' extra'
                   (run_calls calls
                      (plugin (gateway_404 (seconds 10)) 1%nat true None None
                         None st1).2)).2))
      ∧
      (∀ m wa fs,
         In (ExtPlugin m wa fs)
            (new_events
               (run_calls calls
                  (plugin (gateway_404 (seconds 10)) 1%nat true None None
                     None st1).2)
               (plugin w' 1%nat cache' wasi' fns' extra'
                  (run_calls calls
                     (plugin (gateway_404 (seconds 10)) 1%nat true None None
                        None st1).2)).2) →
         wasm m = {| data := "Not Found" |} :: default [] extra').
Proof.
  split; [reflexivity|].
  apply (C9_content_assigned_unchecked (gateway_404 (seconds 10)) 1%nat true
           None None None st1 img_servlet
           {| status_code := 404; header_Date := None; body := "Not Found" |}).
  - apply list_installs_wf, init_wf.
  - vm_compute; reflexivity.
  - reflexivity.
  - intros _. eexists _, _. repeat split; reflexivity.
  - intros c Hc. vm_compute in Hc. discriminate Hc.
  - reflexivity.
Defined.

(** ** C10 *)

(** A successful [build] on a record whose settings carry a config dict:
    the manifest's config is that very dict object, and the injection
    has been written into it. *)
Lemma build_config w r ok wasi oauth fns wasm s v l d p s' :
  servlets s !! r = Some v →
  config (settings v) = Some l →
  dicts s !! l = Some d →
  build w r ok wasi oauth fns wasm s = (Ok p, s') →
  manifest_config (rt_manifest (_plugin p)) = l ∧
  rt_config (_plugin p) = injected oauth d ∧
  dicts s' !! l = Some (injected oauth d).
Proof.
  intros Hv Hl Hd E. unfold injected.
  exec_build.
  all: rewrite ?lookup_insert_eq in *; simplify_eq; done.
Qed.

Lemma plugin_config w r cache wasi fns wasm s v l d p s' :
  servlets s !! r = Some v →
  has_oauth v = true →
  config (settings v) = Some l →
  dicts s !! l = Some d →
  plugin w r cache wasi fns wasm s = (Ok p, s') →
  fast_path w cache wasi fns wasm v s p ∨
  ∃ res info,
    oauth_reply w (config_profile s) (name v) = Got res ∧
    body res = Some info ∧
    manifest_config (rt_manifest (_plugin p)) = l ∧
    rt_config (_plugin p) =
      <[config_name info := access_token info]> d ∧
    dicts s' !! l = Some (<[config_name info := access_token info]> d).
Proof.
  intros Hv Ho Hl Hd E. unfold fast_path.
  exec_plugin.
  all: try (by left).
  all: right.
  all: match goal with
       | H : build _ _ _ _ _ _ _ _ = _ |- _ =>
           eapply build_config in H as (? & ? & ?); [|simpl; eauto..]
       end.
  all: eexists _, _; split_and!; done.
Qed.

Lemma build_keeps_key w r ok wasi oauth fns wasm s l k :
  wf s → has_key l k s → has_key l k (build w r ok wasi oauth fns wasm s).2.
Proof.
  intros Hwf (d & Hd & Hk). unfold has_key.
  pose proof (wf_dict_ids _ Hwf l (mk_is_Some _ _ Hd)) as Hlt.
  destruct (build w r ok wasi oauth fns wasm s) as [res s'] eqn:E.
  exec_build.
  all: try (by exists d).
  all: repeat match goal with
       | |- context [<[?i:=_]> _ !! ?j] =>
           destruct (decide (i = j)) as [Heq|?];
           [subst; rewrite lookup_insert_eq|rewrite lookup_insert_ne by done]
       end.
  all: try (exfalso; lia).
  all: try (by exists d).
  all: eexists; split; [reflexivity|].
  all: simplify_eq.
  all: rewrite lookup_insert_is_Some'; by right.
Qed.

Lemma plugin_keeps_key w r cache wasi fns wasm s l k :
  wf s → has_key l k s → has_key l k (plugin w r cache wasi fns wasm s).2.
Proof.
  intros Hwf Hk.
  destruct (plugin w r cache wasi fns wasm s) as [res s'] eqn:E.
  destruct Hwf as [H1 H2 H3 H4 H5 H6].
  exec_plugin.
  all: try done.
  all: match goal with
       | H : build ?w ?r ?ok ?wa ?oa ?f ?m ?s0 = (_, ?s') |- _ =>
           replace s' with (build w r ok wa oa f m s0).2 by (by rewrite H);
           apply build_keeps_key; [solve_wf|done]
       end.
Qed.

Lemma run_calls_keeps_key cs : ∀ s l k,
  wf s → has_key l k s → has_key l k (run_calls cs s).
Proof.
  induction cs as [|c cs IH]; intros s l k Hwf Hk; simpl; [done|].
  apply IH; [by apply run_call_wf|].
  destruct c; simpl.
  - by apply plugin_keeps_key.
  - destruct Hk as (d & Hd & Hk). exists d. split; [|done].
    destruct (list_installs_store w profile s l) as [_ ->]; [|done].
    apply (wf_dict_ids _ Hwf). by rewrite Hd.
  - done.
Qed.

(** C10: for a record with [has_oauth] whose settings carry a config
    dict, a call that builds an instance hands that very dict object to
    the manifest and writes the access token into it under
    [config_name]: the record's own settings now hold the token, and
    through any later calls they keep an entry under that name.  The
    next instance built from the record gets the same dict object, so
    the config it is constructed with still has the earlier token under
    the earlier name, unless the new token was injected under that same
    name. *)
Theorem C10_token_written_to_settings
    w1 cache1 wasi1 fns1 wasm1 w2 cache2 wasi2 fns2 wasm2
    r s v l d p1 s1 :
  wf s →
  servlets s !! r = Some v →
  has_oauth v = true →
  config (settings v) = Some l →
  dicts s !! l = Some d →
  plugin w1 r cache1 wasi1 fns1 wasm1 s = (Ok p1, s1) →
  ¬ fast_path w1 cache1 wasi1 fns1 wasm1 v s p1 →
  ∃ res1 info1 v1,
    oauth_reply w1 (config_profile s) (name v) = Got res1 ∧
    body res1 = Some info1 ∧
    manifest_config (rt_manifest (_plugin p1)) = l ∧
    servlets s1 !! r = Some v1 ∧
    config (settings v1) = Some l ∧
    dicts s1 !! l =
      Some (<[config_name info1 := access_token info1]> d) ∧
    (∀ calls, has_key l (config_name info1) (run_calls calls s1)) ∧
    ∀ p2 s2,
      plugin w2 r cache2 wasi2 fns2 wasm2 s1 = (Ok p2, s2) →
      ¬ fast_path w2 cache2 wasi2 fns2 wasm2 v1 s1 p2 →
      manifest_config (rt_manifest (_plugin p2)) = l ∧
      ∃ info2,
        rt_config (_plugin p2) =
          <[config_name info2 := access_token info2]>
            (<[config_name info1 := access_token info1]> d) ∧
        (config_name info2 ≠ config_name info1 →
         rt_config (_plugin p2) !! config_name info1 =
           Some (access_token info1)).
Proof.
  intros Hwf Hv Ho Hl Hd E1 Hslow1.
  pose proof (plugin_wf w1 r cache1 wasi1 fns1 wasm1 s Hwf) as Hwf1.
  rewrite E1 in Hwf1; simpl in Hwf1.
  destruct (plugin_config _ _ _ _ _ _ _ _ _ _ _ _ Hv Ho Hl Hd E1)
    as [?|(res1 & info1 & Hrep1 & Hb1 & Hm1 & _ & Hd1)]; [done|].
  destruct (plugin_record _ _ _ _ _ _ _ _ _ _ Hv E1)
    as (v1 & Hv1 & _ & Ho1 & Hset1 & _).
  exists res1, info1, v1. split_and!; try done.
  { by rewrite Hset1. }
  { intros calls. apply run_calls_keeps_key; [done|].
    eexists. split; [exact Hd1|]. rewrite lookup_insert_eq. by eexists. }
  intros p2 s2 E2 Hslow2.
  assert (Hl1 : config (settings v1) = Some l) by by rewrite Hset1.
  rewrite <- Ho1 in Ho.
  destruct (plugin_config _ _ _ _ _ _ _ _ _ _ _ _ Hv1 Ho Hl1 Hd1 E2)
    as [?|(res2 & info2 & _ & _ & Hm2 & Hc2 & _)]; [done|].
  split; [done|]. exists info2. split; [done|].
  intros Hne. rewrite Hc2.
  by rewrite lookup_insert_ne, lookup_insert_eq.
Qed.

Lemma C10_token_written_to_settings_witness :
  ∃ res1 info1 v1,
    oauth_reply (gateway (seconds 10) 200 [img_wire] 200)
      (config_profile st1) (name img_servlet) = Got res1 ∧
    body res1 = Some info1 ∧
    manifest_config (rt_manifest (_plugin img_plugin)) = 0%nat ∧
    servlets st2 !! 1%nat = Some v1 ∧
    config (settings v1) = Some 0%nat ∧
    dicts st2 !! 0%nat =
      Some (<[config_name info1 := access_token info1]> ∅) ∧
    (∀ calls, has_key 0%nat (config_name info1) (run_calls calls st2)) ∧
    ∀ p2 s2,
      plugin (gateway_rotated (seconds 400)) 1%nat true None None None st2
        = (Ok p2, s2) →
      ¬ fast_path (gateway_rotated (seconds 400)) true None None None v1 st2
          p2 →
      manifest_config (rt_manifest (_plugin p2)) = 0%nat ∧
      ∃ info2,
        rt_config (_plugin p2) =
          <[config_name info2 := access_token info2]>
            (<[config_name info1 := access_token info1]> ∅) ∧
        (config_name info2 ≠ config_name info1 →
         rt_config (_plugin p2) !! config_name info1 =
           Some (access_token info1)).
Proof.
  apply (C10_token_written_to_settings
           (gateway (seconds 10) 200 [img_wire] 200) true None None None
           (gateway_rotated (seconds 400)) true None None None
           1%nat st1 img_servlet 0%nat ∅ img_plugin st2).
  - apply list_installs_wf, init_wf.
  - vm_compute; reflexivity.
  - reflexivity.
  - reflexivity.
  - vm_compute; reflexivity.
  - vm_compute; reflexivity.
  - intros (_ & Hc & _). vm_compute in Hc. discriminate Hc.
Defined.

(** The second instance of ["img"], built after the first one expired
    with a token under another name, is constructed with both tokens. *)
Example rotated_token_config :
  match (plugin (gateway_rotated (seconds 400)) 1%nat true None None None
           st2).1 with
  | Ok p => Some (rt_config (_plugin p))
  | Raise _ => None
  end = Some (<["IMG_TOKEN_2" := "secret-2"]>
                (<["IMG_TOKEN" := "secret-1"]> ∅)).
Proof. evaluate. Qed.

(** * Further properties of the client *)

(** ** list_installs: one request per call, failures, tokens *)

(** The log after [list_installs], whatever its outcome. *)
Lemma list_installs_log w profile s :
  io_log (list_installs w profile s).2 =
    io_log (requested s (profile_of s profile)).
Proof.
  destruct (list_installs w profile s) as [res s'] eqn:E.
  unfold list_installs, last_request, fix_profile, profile_of, requested in *.
  unfold_monad; simpl in *.
  repeat step; try done.
  all: match goal with
       | H : mapM _ ?data ?s0 = _ |- _ =>
           destruct (list_installs_loop data s0)
             as (? & ? & E' & _ & _ & _ & _ & _ & _ & Hio);
           rewrite E' in H; simplify_eq; by rewrite Hio
       end.
Qed.

Lemma list_installs_events w profile s :
  new_events s (list_installs w profile s).2 =
    [GetInstallations (profile_of s profile)
       (last_for s (profile_of s profile))].
Proof.
  unfold new_events. rewrite list_installs_log.
  apply new_events_requested.
Qed.

(** X1: [list_installs]'s docstring, "this will make an HTTP request each
    time": a call sends exactly one request, the list request of its
    profile carrying the stored token if there is one, whatever the answer
    and however many installs it decodes. *)
Theorem list_installs_one_request w profile s :
  new_events s (list_installs w profile s).2 =
    [GetInstallations (profile_of s profile)
       (last_for s (profile_of s profile))].
Proof. apply list_installs_events. Qed.

(** [list_installs], spelled out over the answer of the gateway. *)
Lemma list_installs_outcome w profile s :
  list_installs w profile s =
    match installations_reply w (profile_of s profile)
            (last_for s (profile_of s profile)) with
    | NoResponse =>
        (Raise ConnectionError, requested s (profile_of s profile))
    | Got res =>
        if is_error_status (status_code res)
        then (Raise (HTTPError (status_code res)),
              requested s (profile_of s profile))
        else if bool_decide (status_code res = 301)
        then (Ok (install_values s), requested s (profile_of s profile))
        else
          match body res with
          | None => (Raise JSONDecodeError, requested s (profile_of s profile))
          | Some data =>
              let s1 :=
                set_last_installations_request
                  <[profile_of s profile := header_Date res]>
                  (requested s (profile_of s profile)) in
              match data with
              | NoInstallsKey => (Raise (KeyError "installs"), s1)
              | Installs items => mapM list_installs_item items s1
              | InstallsUpTo items key =>
                  (Raise (KeyError key), (mapM list_installs_item items s1).2)
              end
          end
    end.
Proof.
  unfold list_installs, last_request, fix_profile, profile_of, requested.
  destruct profile as [p|]; unfold_monad; simpl.
  all: destruct (installations_reply w _ _) as [|res]; simpl; [done|].
  all: destruct (is_error_status (status_code res)); simpl; [done|].
  all: destruct (bool_decide (status_code res = 301)); simpl; [done|].
  all: destruct (body res) as [[|items|items key]|]; simpl; try done.
  all: match goal with
       | |- context [mapM list_installs_item ?l ?s0] =>
           destruct (list_installs_loop l s0) as (? & ? & E & _);
           by rewrite E
       end.
Qed.

Lemma last_for_insert s p d f :
  last_installations_request s = <[p := d]> f →
  last_for s p = d ∧
  ∀ p', p' ≠ p →
        last_for s p' = match f !! p' with Some (Some x) => Some x
                                         | _ => None end.
Proof.
  intros H. unfold last_for. rewrite H. split.
  - rewrite lookup_insert_eq. by destruct d.
  - intros p' Hne. by rewrite lookup_insert_ne.
Qed.

(** X2: What a listing that raises leaves behind depends on how far it
    got.  Without a response, with an error status, or with a body that
    is not JSON, it raises before anything is written: both caches, the
    tokens and the store are as they were.  A [KeyError] comes later: the
    [Date] token of the answer is already stored by then (so the next
    listing of the profile is conditional on it), and the installs that
    precede the one lacking a key are already cached, their plugin cache
    entries evicted; all other entries are as they were. *)
Theorem list_installs_failure_state w profile s e s' :
  list_installs w profile s = (Raise e, s') →
  match e with
  | KeyError key =>
      ∃ res items,
        installations_reply w (profile_of s profile)
          (last_for s (profile_of s profile)) = Got res ∧
        (body res = Some (InstallsUpTo items key) ∨
         body res = Some NoInstallsKey ∧ key = "installs" ∧ items = []) ∧
        last_installations_request s' =
          <[profile_of s profile := header_Date res]>
            (last_installations_request s) ∧
        last_for s' (profile_of s profile) = header_Date res ∧
        (∀ n, n ∈ wire_name <$> items →
              plugin_cache s' !! n = None ∧
              ∃ r, install_cache s' !! n = Some r ∧ (next_ref s ≤ r)%nat) ∧
        (∀ n, n ∉ wire_name <$> items →
              plugin_cache s' !! n = plugin_cache s !! n ∧
              install_cache s' !! n = install_cache s !! n)
  | _ =>
      install_cache s' = install_cache s ∧
      plugin_cache s' = plugin_cache s ∧
      last_installations_request s' = last_installations_request s ∧
      servlets s' = servlets s ∧
      dicts s' = dicts s ∧
      (e = ConnectionError ∨ e = JSONDecodeError ∨
       ∃ c, e = HTTPError c ∧ is_error_status c = true)
  end.
Proof.
  intros E. rewrite list_installs_outcome in E.
  destruct (installations_reply w _ _) as [|res] eqn:Hrep.
  { injection E as <- <-. split_and!; auto. }
  destruct (is_error_status (status_code res)) eqn:Herr.
  { injection E as <- <-. split_and!; eauto. }
  destruct (bool_decide (status_code res = 301)); [done|].
  destruct (body res) as [[|items|items key]|] eqn:Hbody; simpl in E.
  - injection E as <- <-. exists res, []. simpl.
    split_and!; auto.
    + unfold last_for. simpl. rewrite lookup_insert_eq.
      by destruct (header_Date res).
    + intros n Hn. by apply elem_of_nil in Hn.
  - by apply list_installs_loop_total in E.
  - injection E as <- <-. exists res, items.
    match goal with
    | |- context [mapM list_installs_item ?l ?s0] =>
        destruct (list_installs_loop l s0)
          as (refs & s1 & E & _ & _ & Hin & Hout & _ & Hl & _)
    end.
    rewrite E. simpl.
    split_and!; auto.
    unfold last_for. rewrite Hl. simpl. rewrite lookup_insert_eq.
    by destruct (header_Date res).
  - injection E as <- <-. split_and!; auto.
Qed.

Lemma list_installs_failure_state_witness :
  ∃ res items,
    installations_reply (gateway_malformed (seconds 30)) (profile_of st2 None)
      (last_for st2 (profile_of st2 None)) = Got res ∧
    (body res = Some (InstallsUpTo items "binding") ∨
     body res = Some NoInstallsKey ∧ "binding" = "installs" ∧ items = []) ∧
    last_installations_request
      (list_installs (gateway_malformed (seconds 30)) None st2).2 =
      <[profile_of st2 None := header_Date res]>
        (last_installations_request st2) ∧
    last_for (list_installs (gateway_malformed (seconds 30)) None st2).2
      (profile_of st2 None) = header_Date res ∧
    (∀ n, n ∈ wire_name <$> items →
          plugin_cache
            (list_installs (gateway_malformed (seconds 30)) None st2).2 !! n
            = None ∧
          ∃ r, install_cache
                 (list_installs (gateway_malformed (seconds 30)) None st2).2
                 !! n = Some r ∧ (next_ref st2 ≤ r)%nat) ∧
    (∀ n, n ∉ wire_name <$> items →
          plugin_cache
            (list_installs (gateway_malformed (seconds 30)) None st2).2 !! n
            = plugin_cache st2 !! n ∧
          install_cache
            (list_installs (gateway_malformed (seconds 30)) None st2).2 !! n
            = install_cache st2 !! n).
Proof.
  apply (list_installs_failure_state (gateway_malformed (seconds 30)) None
           st2 (KeyError "binding")).
  vm_compute; reflexivity.
Defined.

(** X3: The token round trip: after a listing that was answered with an
    install list, the token stored for its profile is the [Date] header
    of that answer (none, if the header was missing), the tokens of the
    other profiles are as before, and the next listing of the profile
    sends exactly that token. *)
Theorem list_installs_token_round_trip w profile s res data w2 :
  installations_reply w (profile_of s profile)
    (last_for s (profile_of s profile)) = Got res →
  is_error_status (status_code res) = false →
  status_code res ≠ 301 →
  body res = Some (Installs data) →
  last_for (list_installs w profile s).2 (profile_of s profile)
    = header_Date res ∧
  (∀ p', p' ≠ profile_of s profile →
         last_for (list_installs w profile s).2 p' = last_for s p') ∧
  new_events (list_installs w profile s).2
    (list_installs w2 (Some (profile_of s profile))
       (list_installs w profile s).2).2
    = [GetInstallations (profile_of s profile) (header_Date res)].
Proof.
  intros Hrep Herr H301 Hbody.
  destruct (list_installs_refresh _ _ _ _ _ Hrep Herr H301 Hbody)
    as (refs & s' & E & _ & _ & _ & Hl & _).
  rewrite E. simpl.
  destruct (last_for_insert _ _ _ _ Hl) as [Hp Hother].
  split_and!; [done|by intros; rewrite Hother| ].
  rewrite list_installs_events. simpl. by rewrite Hp.
Qed.

Lemma list_installs_token_round_trip_witness :
  last_for (list_installs (gateway 0 200 [img_wire] 200) None st0).2
    (profile_of st0 None) = Some "Tue, 03 Nov" ∧
  (∀ p', p' ≠ profile_of st0 None →
         last_for (list_installs (gateway 0 200 [img_wire] 200) None st0).2 p'
           = last_for st0 p') ∧
  new_events (list_installs (gateway 0 200 [img_wire] 200) None st0).2
    (list_installs (gateway_404 (seconds 5)) (Some (profile_of st0 None))
       (list_installs (gateway 0 200 [img_wire] 200) None st0).2).2
    = [GetInstallations (profile_of st0 None) (Some "Tue, 03 Nov")].
Proof.
  apply (list_installs_token_round_trip (gateway 0 200 [img_wire] 200) None
           st0 {| status_code := 200; header_Date := Some "Tue, 03 Nov";
                  body := Some (Installs [img_wire]) |} [img_wire]
           (gateway_404 (seconds 5)));
    [reflexivity|reflexivity|vm_compute; discriminate|reflexivity].
Defined.

(** ** clear_cache, install and uninstall *)

Lemma clear_cache_state s :
  clear_cache s =
    (Ok tt,
     set_plugin_cache (λ _, ∅)
       (empty_install_cache
          (set_last_installations_request (λ _, ∅) s))).
Proof. reflexivity. Qed.

(** A listing that starts from empty caches and is answered with an
    install list. *)
Lemma list_installs_from_empty w profile s res data :
  install_cache s = ∅ → plugin_cache s = ∅ →
  installations_reply w (profile_of s profile)
    (last_for s (profile_of s profile)) = Got res →
  is_error_status (status_code res) = false →
  status_code res ≠ 301 →
  body res = Some (Installs data) →
  ∃ refs s',
    list_installs w profile s = (Ok refs, s') ∧
    (∀ n, is_Some (install_cache s' !! n) ↔ n ∈ wire_name <$> data) ∧
    plugin_cache s' = ∅.
Proof.
  intros Hi Hp Hrep Herr H301 Hbody.
  destruct (list_installs_refresh _ _ _ _ _ Hrep Herr H301 Hbody)
    as (refs & s' & E & _ & Hin & Hout & _).
  exists refs, s'. split; [done|]. split.
  - intros n. destruct (decide (n ∈ wire_name <$> data)) as [Hd|Hd].
    + destruct (Hin n Hd) as (_ & r & -> & _). by split; [|eexists].
    + destruct (Hout n Hd) as [_ ->]. rewrite Hi, lookup_empty.
      split; [by intros [? ?]|done].
  - apply map_eq. intros n. rewrite lookup_empty.
    destruct (decide (n ∈ wire_name <$> data)) as [Hd|Hd].
    + by destruct (Hin n Hd).
    + destruct (Hout n Hd) as [-> _]. by rewrite Hp.
Qed.

(** X4: The listing that follows [clear_cache] presents no token, whatever
    was stored before; when it is answered with an install list, the
    install cache holds exactly the names of that list afterwards, and the
    plugin cache is empty. *)
Theorem refresh_after_clear_is_snapshot w profile s res data :
  installations_reply w (profile_of s profile) None = Got res →
  is_error_status (status_code res) = false →
  status_code res ≠ 301 →
  body res = Some (Installs data) →
  new_events (clear_cache s).2 (list_installs w profile (clear_cache s).2).2
    = [GetInstallations (profile_of s profile) None] ∧
  (∀ n, is_Some
          (install_cache (list_installs w profile (clear_cache s).2).2 !! n)
        ↔ n ∈ wire_name <$> data) ∧
  plugin_cache (list_installs w profile (clear_cache s).2).2 = ∅.
Proof.
  intros Hrep Herr H301 Hbody.
  rewrite clear_cache_state. simpl.
  set (s0 := set_plugin_cache _ _).
  assert (Hl : ∀ p, last_for s0 p = None).
  { intros p. unfold last_for, s0. simpl. by rewrite lookup_empty. }
  split.
  - rewrite list_installs_events. by rewrite Hl.
  - destruct (list_installs_from_empty w profile s0 res data)
      as (refs & s' & E & Hdom & Hpc); try done.
    by rewrite E.
Qed.

Lemma refresh_after_clear_is_snapshot_witness :
  new_events (clear_cache st2).2
    (list_installs (gateway (seconds 60) 200 [pdf_wire] 200) None
       (clear_cache st2).2).2
    = [GetInstallations (profile_of st2 None) None] ∧
  (∀ n, is_Some
          (install_cache
             (list_installs (gateway (seconds 60) 200 [pdf_wire] 200) None
                (clear_cache st2).2).2 !! n)
        ↔ n ∈ wire_name <$> [pdf_wire]) ∧
  plugin_cache
    (list_installs (gateway (seconds 60) 200 [pdf_wire] 200) None
       (clear_cache st2).2).2 = ∅.
Proof.
  apply (refresh_after_clear_is_snapshot
           (gateway (seconds 60) 200 [pdf_wire] 200) None st2
           {| status_code := 200; header_Date := Some "Tue, 03 Nov";
              body := Some (Installs [pdf_wire]) |} [pdf_wire]);
    [reflexivity|reflexivity|vm_compute; discriminate|reflexivity].
Defined.

(** The three outcomes of [uninstall] on a servlet name. *)
Lemma uninstall_outcome reply n profile s :
  uninstall reply (ServletName n) profile s =
    match reply (default (config_profile s) profile) n with
    | NoResponse => (Raise ConnectionError, s)
    | Got res =>
        if is_error_status (status_code res)
        then (Raise (HTTPError (status_code res)), s)
        else if bool_decide (profile = None) then clear_cache s
        else (Ok tt, s)
    end.
Proof.
  unfold uninstall, requests_send. unfold_monad. simpl.
  destruct (reply _ n) as [|res]; [done|].
  destruct (is_error_status (status_code res)); [done|].
  by destruct (bool_decide (profile = None)).
Qed.

Lemma install_outcome reply slug nm upd cfg net fs profile s :
  ∃ params,
    install reply slug nm upd cfg net fs profile s =
      match reply (default (config_profile s) profile) params with
      | NoResponse => (Raise ConnectionError, s)
      | Got res =>
          if is_error_status (status_code res)
          then (Raise (HTTPError (status_code res)), s)
          else if bool_decide (profile = None) then clear_cache s
          else (Ok tt, s)
      end.
Proof.
  exists {| ip_servlet_slug := slug; ip_config := cfg; ip_network := net;
            ip_filesystem := fs; ip_allow_update := upd; ip_name := nm |}.
  unfold install, requests_send. unfold_monad. simpl.
  destruct (reply _ _) as [|res]; [done|].
  destruct (is_error_status (status_code res)); [done|].
  by destruct (bool_decide (profile = None)).
Qed.

(** X5: [uninstall] clears the caches only when it is called without a
    profile.  Called with one, even the configured one, a successful
    uninstall leaves the client as it was: the servlet stays in the
    install cache, and it is still there after the next listing, whatever
    that listing is answered.  A failed uninstall changes nothing
    either. *)
Theorem uninstall_with_profile_keeps_caches reply n p s w profile' :
  (uninstall reply (ServletName n) (Some p) s).2 = s ∧
  (∀ e, (uninstall reply (ServletName n) None s).1 = Raise e →
        (uninstall reply (ServletName n) None s).2 = s) ∧
  ∀ k, is_Some (install_cache s !! k) →
       is_Some
         (install_cache
            (list_installs w profile'
               (uninstall reply (ServletName n) (Some p) s).2).2 !! k).
Proof.
  assert (H : (uninstall reply (ServletName n) (Some p) s).2 = s).
  { rewrite uninstall_outcome. simpl.
    destruct (reply p n) as [|res]; [done|].
    by destruct (is_error_status (status_code res)). }
  split_and!; [done| |].
  - intros e. rewrite uninstall_outcome. simpl.
    destruct (reply (config_profile s) n) as [|res]; [done|].
    destruct (is_error_status (status_code res)); [done|].
    rewrite clear_cache_state. discriminate.
  - intros k Hk. rewrite H. by apply list_installs_keeps_keys.
Qed.

Lemma uninstall_with_profile_keeps_caches_witness :
  is_Some
    (install_cache
       (list_installs (gateway (seconds 60) 200 [pdf_wire] 200) None
          (uninstall (λ _ _, Got {| status_code := 200; header_Date := None;
                                    body := tt |})
             (ServletName "img") (Some "~/default") st1).2).2 !! "img").
Proof.
  apply (proj2 (proj2
    (uninstall_with_profile_keeps_caches
       (λ _ _, Got {| status_code := 200; header_Date := None; body := tt |})
       "img" "~/default" st1
       (gateway (seconds 60) 200 [pdf_wire] 200) None))).
  vm_compute. by eexists.
Defined.

Lemma mutation_without_profile_resets reply_u n reply_i slug nm upd cfg
    net fs s :
  (∀ u, (uninstall reply_u (ServletName n) None s).1 = Ok u →
        (uninstall reply_u (ServletName n) None s).2 = (clear_cache s).2) ∧
  (∀ u, (install reply_i slug nm upd cfg net fs None s).1 = Ok u →
        (install reply_i slug nm upd cfg net fs None s).2
          = (clear_cache s).2).
Proof.
  split.
  - intros u. rewrite uninstall_outcome. simpl.
    destruct (reply_u (config_profile s) n) as [|res]; [done|].
    by destruct (is_error_status (status_code res)).
  - intros u.
    destruct (install_outcome reply_i slug nm upd cfg net fs None s)
      as [params ->]. simpl.
    destruct (reply_i (config_profile s) params) as [|res]; [done|].
    by destruct (is_error_status (status_code res)).
Qed.

Lemma snapshot_after_clear w profile s res data :
  installations_reply w (profile_of s profile) None = Got res →
  is_error_status (status_code res) = false →
  status_code res ≠ 301 →
  body res = Some (Installs data) →
  ∀ n, is_Some
         (install_cache (list_installs w profile (clear_cache s).2).2 !! n)
       ↔ n ∈ wire_name <$> data.
Proof.
  intros Hrep Herr H301 Hbody.
  rewrite clear_cache_state. simpl.
  set (s0 := set_plugin_cache _ _).
  destruct (list_installs_from_empty w profile s0 res data)
    as (refs & s' & E & Hdom & Hpc); try done.
  by rewrite E.
Qed.

(** X6: A successful [uninstall] or [install] without a profile resets the
    client: the listing that follows, answered with an install list to
    its unconditional request, leaves exactly the listed names in the
    install cache, so a servlet uninstalled this way is gone from it. *)
Theorem mutation_then_refresh_is_snapshot reply_u n reply_i slug nm upd cfg
    net fs s w profile res data :
  installations_reply w (profile_of s profile) None = Got res →
  is_error_status (status_code res) = false →
  status_code res ≠ 301 →
  body res = Some (Installs data) →
  (∀ u, (uninstall reply_u (ServletName n) None s).1 = Ok u →
        ∀ k, is_Some
               (install_cache
                  (list_installs w profile
                     (uninstall reply_u (ServletName n) None s).2).2 !! k)
             ↔ k ∈ wire_name <$> data) ∧
  (∀ u, (install reply_i slug nm upd cfg net fs None s).1 = Ok u →
        ∀ k, is_Some
               (install_cache
                  (list_installs w profile
                     (install reply_i slug nm upd cfg net fs None s).2).2
                  !! k)
             ↔ k ∈ wire_name <$> data).
Proof.
  intros Hrep Herr H301 Hbody.
  destruct (mutation_without_profile_resets reply_u n reply_i slug nm upd
              cfg net fs s) as [Hu Hi].
  split; intros u Hok; [rewrite (Hu u Hok)|rewrite (Hi u Hok)].
  all: by eapply snapshot_after_clear.
Qed.

Lemma mutation_then_refresh_is_snapshot_witness :
  (is_Some
     (install_cache
        (list_installs (gateway (seconds 60) 200 [pdf_wire] 200) None
           (uninstall (λ _ _, Got {| status_code := 204;
                                     header_Date := None; body := tt |})
              (ServletName "img") None st2).2).2 !! "img")
   ↔ "img" ∈ wire_name <$> [pdf_wire]) ∧
  (is_Some
     (install_cache
        (list_installs (gateway (seconds 60) 200 [pdf_wire] 200) None
           (uninstall (λ _ _, Got {| status_code := 204;
                                     header_Date := None; body := tt |})
              (ServletName "img") None st2).2).2 !! "pdf")
   ↔ "pdf" ∈ wire_name <$> [pdf_wire]).
Proof.
  pose proof (proj1
    (mutation_then_refresh_is_snapshot
       (λ _ _, Got {| status_code := 204; header_Date := None; body := tt |})
       "img"
       (λ _ _, NoResponse) "acme/img" None true None None None
       st2 (gateway (seconds 60) 200 [pdf_wire] 200) None
       {| status_code := 200; header_Date := Some "Tue, 03 Nov";
          body := Some (Installs [pdf_wire]) |} [pdf_wire]
       eq_refl eq_refl ltac:(vm_compute; discriminate) eq_refl)
    tt eq_refl) as H.
  split; apply H.
Defined.

(** ** The install cache and its servlet objects *)

Lemma make_tools_ok r ts k t :
  make_tools r ts !! k = Some t → tool_name t = k ∧ servlet t = r.
Proof.
  unfold make_tools.
  assert (H : ∀ acc : gmap string Tool,
             (∀ k t, acc !! k = Some t → tool_name t = k ∧ servlet t = r) →
             ∀ k t,
               foldl (λ m t,
                        <[tw_name t := {| tool_name := tw_name t;
                                          description := tw_description t;
                                          input_schema := tw_inputSchema t;
                                          servlet := r |}]> m) acc ts !! k
                 = Some t →
               tool_name t = k ∧ servlet t = r).
  { induction ts as [|tw ts IH]; intros acc Hacc; simpl; [done|].
    apply IH. intros k' t' Hk'.
    apply lookup_insert_Some in Hk' as [[<- <-]|[_ ?]]; [done|by apply Hacc]. }
  apply H. intros ? ?. by rewrite lookup_empty.
Qed.

(** The servlet object that one iteration of the loop makes. *)
Lemma list_installs_item_record iw s :
  ∃ r v,
    (list_installs_item iw s).1 = Ok r ∧
    servlets (list_installs_item iw s).2 !! r = Some v ∧
    name v = wire_name iw ∧
    content v = None ∧
    content_addr v = iw_contentAddress iw ∧
    has_oauth v = iw_has_client iw ∧
    permissions (settings v) = iw_permissions iw ∧
    tools_ok r v.
Proof.
  unfold wire_name.
  destruct (list_installs_item iw s) as [res s'] eqn:E.
  exec_item.
  all: eexists _, _; split; [reflexivity|]; simpl.
  all: rewrite lookup_insert_eq.
  all: split_and!; try done.
  all: intros k t; apply make_tools_ok.
Qed.

(** After the loop, every listed name holds a servlet object made from
    an install of that name, without content. *)
Lemma list_installs_loop_records data : ∀ s n,
  n ∈ wire_name <$> data →
  ∃ r v iw,
    install_cache (mapM list_installs_item data s).2 !! n = Some r ∧
    servlets (mapM list_installs_item data s).2 !! r = Some v ∧
    (next_ref s ≤ r)%nat ∧
    iw ∈ data ∧ wire_name iw = n ∧
    name v = n ∧ content v = None ∧
    content_addr v = iw_contentAddress iw ∧
    has_oauth v = iw_has_client iw ∧
    permissions (settings v) = iw_permissions iw ∧
    tools_ok r v.
Proof.
  induction data as [|iw data IH]; intros s n Hn; simpl in *.
  { by apply elem_of_nil in Hn. }
  destruct (list_installs_item_effect iw s)
    as (r & s1 & E1 & Hr & Hi & _).
  destruct (list_installs_item_record iw s)
    as (r' & v & Hres & Hv & Hname & Hc & Haddr & Ho & Hperm & Htools).
  rewrite E1 in Hres, Hv. simpl in *. injection Hres as <-.
  destruct (list_installs_loop data s1)
    as (refs & s' & E & _ & Hnext & Hin & Hout & _).
  unfold bind at 1 3. rewrite E1.
  unfold bind at 1 2. rewrite E. simpl.
  destruct (decide (n ∈ wire_name <$> data)) as [Hd|Hd].
  - destruct (IH s1 n Hd)
      as (r2 & v2 & iw2 & ? & ? & ? & ? & ? & ? & ? & ? & ? & ? & ?).
    rewrite E in *. simpl in *.
    exists r2, v2, iw2. split_and!; try done; [lia|].
    by apply elem_of_cons; right.
  - apply elem_of_cons in Hn as [->|?]; [|done].
    destruct (Hout _ Hd) as [_ Hic].
    destruct (list_installs_loop_store data s1 r) as [Hs _]; [lia|].
    rewrite E in Hs. simpl in Hs.
    exists r, v, iw. rewrite Hic, Hi, lookup_insert_eq, Hs.
    split_and!; try done; [lia|].
    by apply elem_of_cons; left.
Qed.

(** [plugin] changes no attribute of a servlet object but [content]. *)
Lemma plugin_keeps_records w r cache wasi fns wasm s r0 v0 :
  servlets s !! r0 = Some v0 →
  ∃ v0',
    servlets (plugin w r cache wasi fns wasm s).2 !! r0 = Some v0' ∧
    name v0' = name v0 ∧ tools v0' = tools v0 ∧
    settings v0' = settings v0 ∧ has_oauth v0' = has_oauth v0.
Proof.
  intros Hv0.
  destruct (plugin w r cache wasi fns wasm s) as [res s'] eqn:E.
  destruct (servlets s !! r) as [v|] eqn:Hv.
  - simpl.
    destruct (plugin_store _ _ _ _ _ _ _ _ _ _ Hv E) as ([->| ->] & _);
      [by exists v0|].
    unfold servlets_after.
    destruct (content v); [by exists v0|].
    destruct (content_reply w (content_addr v)) as [|cres]; [by exists v0|].
    destruct (decide (r = r0)) as [->|Hne].
    + rewrite lookup_insert_eq. rewrite Hv in Hv0. injection Hv0 as ->.
      by eexists.
    + rewrite lookup_insert_ne by done. by exists v0.
  - unfold plugin, get_servlet, bind in E. rewrite Hv in E.
    injection E as <- <-. by exists v0.
Qed.

Lemma plugin_installs_ok w r cache wasi fns wasm s :
  installs_ok s → installs_ok (plugin w r cache wasi fns wasm s).2.
Proof.
  intros Hok n r0 Hn.
  assert (Hic : install_cache (plugin w r cache wasi fns wasm s).2
                = install_cache s).
  { destruct (plugin w r cache wasi fns wasm s) as [res s'] eqn:E.
    destruct (servlets s !! r) as [v|] eqn:Hv.
    - by destruct (plugin_effect _ _ _ _ _ _ _ _ _ _ Hv E) as (_ & ? & _).
    - unfold plugin, get_servlet, bind in E. rewrite Hv in E.
      by injection E as <- <-. }
  rewrite Hic in Hn.
  destruct (Hok n r0 Hn) as (v0 & Hv0 & Hname & Htools).
  destruct (plugin_keeps_records w r cache wasi fns wasm s r0 v0 Hv0)
    as (v0' & Hv0' & Hn' & Ht' & _).
  exists v0'. split_and!; [done|congruence|].
  unfold tools_ok. by rewrite Ht'.
Qed.

Lemma list_installs_installs_ok w profile s :
  wf s → installs_ok s → installs_ok (list_installs w profile s).2.
Proof.
  intros Hwf Hok.
  destruct (list_installs w profile s) as [res s'] eqn:E.
  unfold list_installs, last_request, fix_profile in E.
  unfold_monad; simpl in *.
  repeat step; try done.
  all: try by (exfalso; eapply list_installs_loop_total).
  all: match goal with
       | H : mapM _ ?data ?s0 = _ |- _ =>
           intros n r Hn;
           destruct (list_installs_loop data s0)
             as (? & ? & E' & _ & _ & _ & Hout & _);
           rewrite E' in H; simplify_eq;
           destruct (decide (n ∈ wire_name <$> data)) as [Hd|Hd];
           [ destruct (list_installs_loop_records data s0 n Hd)
               as (r' & v & _ & Hr' & Hv & _ & _ & _ & ? & _ & _ & _ & _ & ?);
             rewrite E' in Hr', Hv; simpl in *;
             rewrite Hr' in Hn; injection Hn as <-; by exists v
           | destruct (Hout n Hd) as [_ Hic]; simpl in Hic;
             rewrite Hic in Hn;
             destruct (Hok n r Hn) as (v & Hv & ? & ?);
             destruct (list_installs_loop_store data s0 r) as [Hs _];
             [ simpl; by eapply wf_servlet_ids | ];
             rewrite E' in Hs; simpl in Hs;
             exists v; by rewrite Hs ]
       end.
Qed.

Lemma list_installs_coherent w profile s :
  coherent s → coherent (list_installs w profile s).2.
Proof.
  intros Hco.
  destruct (list_installs w profile s) as [res s'] eqn:E.
  unfold list_installs, last_request, fix_profile in E.
  unfold_monad; simpl in *.
  repeat step; try done.
  all: try by (exfalso; eapply list_installs_loop_total).
  all: match goal with
       | H : mapM _ ?data ?s0 = _ |- _ =>
           intros n p Hp;
           destruct (list_installs_loop data s0)
             as (? & ? & E' & _ & _ & Hin & Hout & _);
           rewrite E' in H; simplify_eq;
           destruct (decide (n ∈ wire_name <$> data)) as [Hd|Hd];
           [ destruct (Hin n Hd) as [Hnone _]; congruence
           | destruct (Hout n Hd) as [Hpc Hic]; simpl in Hpc, Hic;
             rewrite Hic; apply Hco; by rewrite <- Hpc ]
       end.
Qed.

(** ** Tool resolution *)

Lemma elem_of_installed_tools s m t :
  t ∈ installed_tools s m ↔
  ∃ n r v k,
    n ∈ install_order s ∧ m !! n = Some r ∧
    servlets s !! r = Some v ∧ tools v !! k = Some t.
Proof.
  unfold installed_tools, servlet_tools.
  rewrite list_elem_of_In, in_flat_map. split.
  - intros (r & Hr & Ht).
    apply list_elem_of_In, list_elem_of_omap in Hr as (n & Hn & Hnr).
    destruct (servlets s !! r) as [v|] eqn:Hv; [|done].
    apply list_elem_of_In, list_elem_of_fmap in Ht as ([k t'] & -> & Hkt).
    apply elem_of_map_to_list in Hkt.
    by exists n, r, v, k.
  - intros (n & r & v & k & Hn & Hnr & Hv & Hk).
    exists r. split.
    + apply list_elem_of_In, list_elem_of_omap. by exists n.
    + rewrite Hv. apply list_elem_of_In, list_elem_of_fmap. exists (k, t).
      split; [done|]. by apply elem_of_map_to_list.
Qed.

Lemma find_by_name_Some l n t :
  List.find (λ t, bool_decide (tool_name t = n)) l = Some t →
  t ∈ l ∧ tool_name t = n.
Proof.
  intros H. apply find_some in H as [Hin Hb].
  split; [by apply list_elem_of_In|].
  by apply bool_decide_eq_true in Hb.
Qed.

Lemma find_by_name_None l n :
  List.find (λ t, bool_decide (tool_name t = n)) l = None ↔
  ∀ t, t ∈ l → tool_name t ≠ n.
Proof.
  split.
  - intros H t Ht. apply list_elem_of_In in Ht.
    pose proof (find_none _ _ H t Ht) as Hb.
    by apply bool_decide_eq_false in Hb.
  - intros H. induction l as [|t l IH]; simpl; [done|].
    rewrite bool_decide_eq_false_2.
    + apply IH. intros t' Ht'. apply H. by apply elem_of_cons; right.
    + apply H. by apply elem_of_cons; left.
Qed.

Lemma collect_by_name l n : ∀ acc : gmap string Tool,
  is_Some (foldl (λ acc t, <[tool_name t := t]> acc) acc l !! n) ↔
  is_Some (acc !! n) ∨ ∃ t, t ∈ l ∧ tool_name t = n.
Proof.
  induction l as [|t l IH]; intros acc; simpl.
  { split; [by left|]. intros [?|(t & Ht & _)]; [done|].
    by apply elem_of_nil in Ht. }
  rewrite IH, lookup_insert_is_Some'. split.
  - intros [[Heq|H]|(t' & Ht' & Hn)].
    + right. exists t. split; [by apply elem_of_cons; left|done].
    + by left.
    + right. exists t'. split; [by apply elem_of_cons; right|done].
  - intros [H|(t' & Ht' & Hn)]; [by left; right|].
    apply elem_of_cons in Ht' as [->|Ht']; [by left; left|].
    right. by exists t'.
Qed.

(** [tool] and [client_tools], spelled out over the listing they start
    with. *)
Lemma tool_unfold w n s :
  tool w n s =
    match list_installs w None s with
    | (Ok _, s1) =>
        (Ok (List.find (λ t, bool_decide (tool_name t = n))
               (installed_tools s1 (install_cache s1))), s1)
    | (Raise e, s1) => (Raise e, s1)
    end.
Proof.
  unfold tool, installs. unfold_monad.
  by destruct (list_installs w None s) as [[refs|e] s1].
Qed.

Lemma client_tools_unfold w s :
  client_tools w s =
    match list_installs w None s with
    | (Ok _, s1) =>
        (Ok (foldl (λ acc t, <[tool_name t := t]> acc) ∅
               (installed_tools s1 (install_cache s1))), s1)
    | (Raise e, s1) => (Raise e, s1)
    end.
Proof.
  unfold client_tools, installs. unfold_monad.
  by destruct (list_installs w None s) as [[refs|e] s1].
Qed.

(** X7: [Client.tool] and [Client.tools] agree on which names there are:
    after the same listing, [tool(name)] finds a tool exactly when
    [tools] has the key [name]; and both raise what the listing
    raises. *)
Theorem tool_agrees_with_tools w n s :
  match (tool w n s).1, (client_tools w s).1 with
  | Ok found, Ok all => is_Some found ↔ is_Some (all !! n)
  | Raise e, Raise e' => e = e'
  | _, _ => False
  end ∧
  (tool w n s).2 = (client_tools w s).2.
Proof.
  rewrite tool_unfold, client_tools_unfold.
  destruct (list_installs w None s) as [[refs|e] s1]; simpl; [|done].
  split; [|done].
  rewrite collect_by_name, lookup_empty.
  destruct (List.find _ _) as [t|] eqn:Hf.
  - apply find_by_name_Some in Hf as [Hin Hn].
    split; [|by eexists]. intros _. right. by exists t.
  - rewrite find_by_name_None in Hf. split; [by intros [? ?]|].
    intros [[? ?]|(t & Ht & Hn)]; [done|]. by destruct (Hf t Ht).
Qed.




(** ["pdf"] was listed before ["img"], and both offer ["compress"]: a
    301 listing yields them in that order, [tool] finds the tool of
    ["pdf"], [tools] holds the tool of ["img"]; listing ["pdf"] again
    leaves it in the first place, as a new object. *)
Example tool_and_tools_disagree :
  (list_installs (gateway (seconds 5) 301 [] 200) None st_two).1
    = Ok [0%nat; 2%nat] ∧
  match (tool (gateway (seconds 5) 301 [] 200) "compress" st_two).1 with
  | Ok (Some t) => Some (servlet t)
  | _ => None
  end = Some 0%nat ∧
  match (client_tools (gateway (seconds 5) 301 [] 200) st_two).1 with
  | Ok all => servlet <$> all !! "compress"
  | Raise _ => None
  end = Some 2%nat ∧
  install_values
    (list_installs (gateway (seconds 5) 200 [pdf_wire_ok] 200) None st_two).2
    = [3%nat; 2%nat].
Proof. evaluate. Qed.

(** A tool found in a well-formed install cache. *)
Lemma found_tool_owner s n t :
  installs_ok s →
  List.find (λ t, bool_decide (tool_name t = n))
    (installed_tools s (install_cache s)) = Some t →
  tool_name t = n ∧
  ∃ v, servlets s !! servlet t = Some v ∧
       install_cache s !! name v = Some (servlet t) ∧
       tools v !! n = Some t.
Proof.
  intros Hok Hf.
  apply find_by_name_Some in Hf as [Hin Hn]. split; [done|].
  apply elem_of_installed_tools in Hin
    as (k & r & v & k' & _ & Hk & Hv & Ht).
  destruct (Hok k r Hk) as (v' & Hv' & Hname & Htools).
  rewrite Hv in Hv'. injection Hv' as <-.
  destruct (Htools k' t Ht) as [Hk' Hr].
  exists v. rewrite Hr, Hname. split_and!; [done|done|congruence].
Qed.

(** X8: [Client.tool] by name: a tool that is found carries the name asked
    for and is a tool of the servlet object it points back to, which the
    install cache holds under the servlet's name; and when none is found,
    no servlet of the install cache has a tool under that name. *)
Theorem tool_found_is_installed w n s :
  wf s → installs_ok s →
  (∀ t, (tool w n s).1 = Ok (Some t) →
        tool_name t = n ∧
        ∃ v, servlets (tool w n s).2 !! servlet t = Some v ∧
             install_cache (tool w n s).2 !! name v = Some (servlet t) ∧
             tools v !! n = Some t) ∧
  ((tool w n s).1 = Ok None →
   ∀ k r v, install_cache (tool w n s).2 !! k = Some r →
            servlets (tool w n s).2 !! r = Some v →
            tools v !! n = None).
Proof.
  intros Hwf Hok.
  pose proof (list_installs_installs_ok w None s Hwf Hok) as Hok1.
  pose proof (list_installs_wf w None s Hwf) as Hwf1.
  rewrite tool_unfold.
  destruct (list_installs w None s) as [[refs|e] s1]; simpl in *; [|done].
  split.
  - intros t [= Hf]. by apply found_tool_owner.
  - intros [= Hf] k r v Hk Hv.
    rewrite find_by_name_None in Hf.
    destruct (tools v !! n) as [t|] eqn:Ht; [|done].
    destruct (Hok1 k r Hk) as (v' & Hv' & _ & Htools).
    rewrite Hv in Hv'. injection Hv' as <-.
    destruct (Htools n t Ht) as [Hn _].
    destruct (Hf t); [|done].
    apply elem_of_installed_tools. exists k, r, v, n.
    split_and!; try done.
    apply (wf_order _ Hwf1). by eexists.
Qed.

Lemma init_installs_ok profile : installs_ok (init profile).
Proof. intros n r. simpl. by rewrite lookup_empty. Qed.

Lemma st1_installs_ok : installs_ok st1.
Proof. apply list_installs_installs_ok; [apply init_wf|apply init_installs_ok]. Qed.

Lemma tool_found_is_installed_witness :
  (∃ t, (tool (gateway (seconds 5) 301 [] 200) "compress" st1).1
          = Ok (Some t) ∧
        tool_name t = "compress" ∧
        ∃ v, servlets (tool (gateway (seconds 5) 301 [] 200) "compress" st1).2
               !! servlet t = Some v ∧
             install_cache
               (tool (gateway (seconds 5) 301 [] 200) "compress" st1).2
               !! name v = Some (servlet t) ∧
             tools v !! "compress" = Some t) ∧
  ((tool (gateway (seconds 5) 301 [] 200) "resize" st1).1 = Ok None →
   ∀ k r v,
     install_cache (tool (gateway (seconds 5) 301 [] 200) "resize" st1).2
       !! k = Some r →
     servlets (tool (gateway (seconds 5) 301 [] 200) "resize" st1).2 !! r
       = Some v →
     tools v !! "resize" = None).
Proof.
  split.
  - exists {| tool_name := "compress"; description := "compress an image";
              input_schema := "{}"; servlet := 1%nat |}.
    split; [vm_compute; reflexivity|].
    apply (proj1 (tool_found_is_installed (gateway (seconds 5) 301 [] 200)
                    "compress" st1 st1_wf st1_installs_ok)).
    vm_compute; reflexivity.
  - apply (proj2 (tool_found_is_installed (gateway (seconds 5) 301 [] 200)
                    "resize" st1 st1_wf st1_installs_ok)).
Defined.

(** ** call_tool *)

Lemma resolve_tool_name w n s :
  resolve_tool w (ToolName n) s =
    match list_installs w None s with
    | (Ok _, s1) =>
        match List.find (λ t, bool_decide (tool_name t = n))
                (installed_tools s1 (install_cache s1)) with
        | Some t => (inr t, s1)
        | None => (inl (ValueError ("Tool '" +:+ n +:+ "' not found")), s1)
        end
    | (Raise e, s1) => (inl (Propagated e), s1)
    end.
Proof.
  unfold resolve_tool. rewrite tool_unfold.
  by destruct (list_installs w None s) as [[refs|e] s1].
Qed.

(** X9: [call_tool] on a name that no installed servlet offers after the
    listing: it raises [ValueError("Tool '<name>' not found")], and the
    list request is all it has sent; nothing is instantiated and the
    runtime is not called. *)
Theorem call_tool_unknown_name w run n params wasi fns wasm s refs s1 :
  list_installs w None s = (Ok refs, s1) →
  (∀ t, t ∈ installed_tools s1 (install_cache s1) → tool_name t ≠ n) →
  call_tool w run (ToolName n) params wasi fns wasm s =
    (inl (ValueError ("Tool '" +:+ n +:+ "' not found")), s1) ∧
  new_events s s1 =
    [GetInstallations (config_profile s) (last_for s (config_profile s))].
Proof.
  intros E Hnone.
  unfold call_tool. rewrite resolve_tool_name, E.
  apply find_by_name_None in Hnone. rewrite Hnone.
  split; [done|].
  pose proof (list_installs_events w None s) as H.
  by rewrite E in H.
Qed.

Lemma call_tool_unknown_name_witness :
  call_tool (gateway (seconds 5) 301 [] 200) (λ _ _ _, Raise ExtismError)
    (ToolName "resize") None true None None st1 =
    (inl (ValueError ("Tool '" +:+ "resize" +:+ "' not found")),
     (list_installs (gateway (seconds 5) 301 [] 200) None st1).2) ∧
  new_events st1 (list_installs (gateway (seconds 5) 301 [] 200) None st1).2 =
    [GetInstallations (config_profile st1)
       (last_for st1 (config_profile st1))].
Proof.
  apply (call_tool_unknown_name (gateway (seconds 5) 301 [] 200)
           (λ _ _ _, Raise ExtismError) "resize" None true None None st1
           [1%nat]).
  - vm_compute; reflexivity.
  - intros t Ht. vm_compute in Ht.
    apply list_elem_of_In in Ht. simpl in Ht.
    destruct Ht as [<-|[]]. discriminate.
Defined.

Lemma In_drop_more {A} (l : list A) n k x :
  In x (drop (n + k) l) → In x (drop n l).
Proof.
  rewrite <- drop_drop. intros H.
  rewrite <- (take_drop k (drop n l)). apply in_or_app. by right.
Qed.

(** A successful [build] has constructed a runtime and, for a record
    without content, fetched the content first. *)
Lemma build_ok_events w r ok wasi oauth fns wasm s v p s' :
  servlets s !! r = Some v →
  build w r ok wasi oauth fns wasm s = (Ok p, s') →
  (content v = None →
   In (GetContent (content_addr v)) (new_events s s')) ∧
  ∃ m f, In (ExtPlugin m wasi f) (new_events s s').
Proof.
  intros Hv E. unfold new_events.
  exec_build.
  all: rewrite <- ?app_assoc, drop_app_length; simpl.
  all: split; [intros; try done; auto|eexists _, _; eauto].
Qed.

Lemma plugin_built_events w r cache wasi fns wasm s v p s' :
  servlets s !! r = Some v →
  plugin w r cache wasi fns wasm s = (Ok p, s') →
  ¬ fast_path w cache wasi fns wasm v s p →
  (content v = None →
   In (GetContent (content_addr v)) (new_events s s')) ∧
  ∃ m f, In (ExtPlugin m true f) (new_events s s').
Proof.
  intros Hv E Hslow. unfold fast_path in Hslow.
  exec_plugin.
  all: try (exfalso; apply Hslow; by rewrite ?wasi_or_True_true).
  all: match goal with
       | H : build _ _ _ _ _ _ _ ?s0 = _ |- _ =>
           eapply build_ok_events in H as [Hc (m & f & Hx)];
           [|simpl; eassumption];
           rewrite wasi_or_True_true in Hx;
           unfold new_events in *; simpl in *
       end.
  all: split; [intros Hnone; specialize (Hc Hnone)|exists m, f].
  all: try done.
  all: match goal with
       | H : In ?x (drop (length (?l ++ ?y)) ?l') |- In ?x _ =>
           rewrite length_app in H; by apply In_drop_more in H
       end.
Qed.

(** The servlet objects that a listing answered with an install list
    leaves under the listed names. *)
Lemma list_installs_refresh_records w profile s res data n :
  installations_reply w (profile_of s profile)
    (last_for s (profile_of s profile)) = Got res →
  is_error_status (status_code res) = false →
  status_code res ≠ 301 →
  body res = Some (Installs data) →
  n ∈ wire_name <$> data →
  ∃ r v iw,
    install_cache (list_installs w profile s).2 !! n = Some r ∧
    servlets (list_installs w profile s).2 !! r = Some v ∧
    (next_ref s ≤ r)%nat ∧
    iw ∈ data ∧ wire_name iw = n ∧
    name v = n ∧ content v = None ∧
    content_addr v = iw_contentAddress iw ∧
    has_oauth v = iw_has_client iw ∧
    permissions (settings v) = iw_permissions iw ∧
    tools_ok r v.
Proof.
  intros Hrep Herr H301 Hbody Hn.
  unfold list_installs, last_request, fix_profile, profile_of in *.
  destruct (list_installs_loop_records data
              (set_last_installations_request
                 <[default (config_profile s) profile := header_Date res]>
                 (requested s (default (config_profile s) profile))) n Hn)
    as (r & v & iw & H).
  exists r, v, iw.
  destruct profile as [p|]; unfold_monad; simpl in *.
  all: rewrite Hrep, Herr; simpl.
  all: rewrite bool_decide_eq_false_2 by done.
  all: rewrite Hbody; simpl.
  all: unfold requested, log, modify in H; simpl in H; exact H.
Qed.

Lemma new_events_after_listing w profile s s2 x :
  In x (new_events (list_installs w profile s).2 s2) →
  In x (new_events s s2).
Proof.
  unfold new_events. rewrite list_installs_log.
  unfold requested, log, modify. simpl.
  rewrite length_app. apply In_drop_more.
Qed.

(** X10: [call_tool] by name draws no benefit from either cache when its
    list request is answered with an install list: provided the install
    cache had no name outside that list, a call that returns a result has
    fetched the servlet's content again and has constructed a new
    runtime, whatever the plugin cache held before. *)
Theorem call_tool_rebuilds_after_listing
    w run n params wasi fns wasm s res data result s2 :
  installations_reply w (config_profile s) (last_for s (config_profile s))
    = Got res →
  is_error_status (status_code res) = false →
  status_code res ≠ 301 →
  body res = Some (Installs data) →
  (∀ k, is_Some (install_cache s !! k) → k ∈ wire_name <$> data) →
  call_tool w run (ToolName n) params wasi fns wasm s = (inr result, s2) →
  ∃ a m f,
    In (GetContent a) (new_events s s2) ∧
    In (ExtPlugin m true f) (new_events s s2).
Proof.
  intros Hrep Herr H301 Hbody Hdom Hcall.
  destruct (list_installs_refresh w None s res data Hrep Herr H301 Hbody)
    as (refs & s1 & E & _ & Hin & Hout & _).
  unfold call_tool in Hcall. rewrite resolve_tool_name, E in Hcall.
  destruct (List.find _ _) as [t|] eqn:Hf; [|done].
  apply find_by_name_Some in Hf as [Ht _].
  apply elem_of_installed_tools in Ht
    as (k & r & v & k' & _ & Hk & Hv & Hkt).
  assert (Hd : k ∈ wire_name <$> data).
  { destruct (decide (k ∈ wire_name <$> data)) as [|Hd]; [done|].
    destruct (Hout k Hd) as [_ Hic]. apply Hdom.
    rewrite <- Hic, Hk. by eexists. }
  destruct (list_installs_refresh_records w None s res data k
              Hrep Herr H301 Hbody Hd)
    as (r' & v' & iw & Hk' & Hv' & _ & _ & _ & Hname & Hc & _ & _ & _ & Htools).
  rewrite E in Hk', Hv'. simpl in *.
  rewrite Hk in Hk'. injection Hk' as <-.
  rewrite Hv in Hv'. injection Hv' as <-.
  destruct (Htools k' t Hkt) as [_ Hr].
  destruct (Hin k Hd) as [Hnone _].
  rewrite Hr in Hcall.
  destruct (plugin w r true (Some wasi) fns wasm s1) as [[p|e] s2'] eqn:E2;
    [|done].
  assert (s2' = s2) as ->.
  { destruct (run p (tool_name t) (default ∅ params)); congruence. }
  destruct (plugin_built_events _ _ _ _ _ _ _ _ _ _ Hv E2)
    as [Hcontent (m & f & Hx)].
  { intros (_ & Hcached & _). rewrite Hname in Hcached. congruence. }
  exists (content_addr v), m, f.
  pose proof (new_events_after_listing w None s s2) as Hlift.
  rewrite E in Hlift. simpl in Hlift.
  split; apply Hlift; [by apply Hcontent|done].
Qed.

Lemma call_tool_rebuilds_after_listing_witness :
  plugin_cache st2 !! "img" = Some img_plugin ∧
  ∃ a m f,
    In (GetContent a)
      (new_events st2
         (call_tool (gateway (seconds 20) 200 [img_wire] 200) echo
            (ToolName "compress") None true None None st2).2) ∧
    In (ExtPlugin m true f)
      (new_events st2
         (call_tool (gateway (seconds 20) 200 [img_wire] 200) echo
            (ToolName "compress") None true None None st2).2).
Proof.
  split; [vm_compute; reflexivity|].
  apply (call_tool_rebuilds_after_listing
           (gateway (seconds 20) 200 [img_wire] 200) echo "compress" None
           true None None st2
           {| status_code := 200; header_Date := Some "Tue, 03 Nov";
              body := Some (Installs [img_wire]) |} [img_wire]
           {| cr_content := [TextBlock "compress"]; cr_is_error := false |}).
  - reflexivity.
  - reflexivity.
  - vm_compute; discriminate.
  - reflexivity.
  - intros k Hk.
    destruct (decide (k = "img")) as [->|Hne].
    + apply list_elem_of_In. by left.
    + exfalso. revert Hk.
      replace (install_cache st2) with (<["img" := 1%nat]> (∅ : gmap string ref))
        by (vm_compute; reflexivity).
      rewrite lookup_insert_ne by done. rewrite lookup_empty.
      by intros [? ?].
  - vm_compute; reflexivity.
Defined.

(** X11: [call_tool] by name when the list request is answered 301 and the
    plugin cache holds a fresh instance of the tool's servlet: with no
    extras passed, the runtime is called on that cached instance; the
    call has sent the list request and, for a servlet with OAuth, the
    OAuth request, and nothing else: no content request, no new
    runtime. *)
Theorem call_tool_reuses_cached w run n params wasi s res t v c :
  installations_reply w (config_profile s) (last_for s (config_profile s))
    = Got res →
  status_code res = 301 →
  List.find (λ t, bool_decide (tool_name t = n))
    (installed_tools s (install_cache s)) = Some t →
  servlets s !! servlet t = Some v →
  oauth_available w (config_profile s) v →
  plugin_cache s !! name v = Some c →
  is_fresh w c = true →
  ∃ s2,
    call_tool w run (ToolName n) params wasi None None s =
      (match run c (tool_name t) (default ∅ params) with
       | Ok r => inr r
       | Raise e => inl (Propagated e)
       end, s2) ∧
    new_events s s2 =
      GetInstallations (config_profile s) (last_for s (config_profile s))
      :: (if has_oauth v then [GetOAuth (config_profile s) (name v)]
          else []) ∧
    plugin_cache s2 = plugin_cache s ∧
    install_cache s2 = install_cache s.
Proof.
  intros Hrep H301 Hf Hv Ho Hc Hfresh.
  pose proof (list_installs_unchanged w None s res Hrep H301) as E.
  set (s1 := requested s (profile_of s None)) in *.
  assert (Hok : cache_ok true (wasi_or_True (Some wasi)) None None = true)
    by by rewrite wasi_or_True_true.
  destruct (plugin_fast w (servlet t) true (Some wasi) None None s1 v c
              Hv Ho Hok Hc Hfresh)
    as (s2 & E2 & Hpc & _ & _ & Hev).
  exists s2.
  unfold call_tool. rewrite resolve_tool_name, E.
  change (installed_tools s1 (install_cache s1))
    with (installed_tools s (install_cache s)).
  rewrite Hf, E2.
  split_and!; try done.
  - by destruct (run c (tool_name t) (default ∅ params)).
  - destruct (plugin_store w (servlet t) true (Some wasi) None None s1 v
                (Ok c) s2 Hv E2) as (_ & evs & Hlog & _).
    unfold new_events in *. rewrite Hlog in Hev |- *.
    rewrite drop_app_length in Hev.
    change (io_log s1) with (io_log s ++
      [GetInstallations (config_profile s) (last_for s (config_profile s))]).
    rewrite <- app_assoc, drop_app_length. simpl.
    change (config_profile s1) with (config_profile s) in Hev.
    by rewrite Hev.
  - by destruct (plugin_effect w (servlet t) true (Some wasi) None None s1 v
                   (Ok c) s2 Hv E2) as (_ & -> & _).
Qed.

Lemma call_tool_reuses_cached_witness :
  ∃ s2,
    call_tool (gateway (seconds 20) 301 [] 200) echo (ToolName "compress")
      None true None None st2 =
      (match echo img_plugin "compress" (default ∅ None) with
       | Ok r => inr r
       | Raise e => inl (Propagated e)
       end, s2) ∧
    new_events st2 s2 =
      GetInstallations (config_profile st2)
        (last_for st2 (config_profile st2))
      :: (if has_oauth (set_content "\0asm" img_servlet)
          then [GetOAuth (config_profile st2)
                  (name (set_content "\0asm" img_servlet))]
          else []) ∧
    plugin_cache s2 = plugin_cache st2 ∧
    install_cache s2 = install_cache st2.
Proof.
  apply (call_tool_reuses_cached (gateway (seconds 20) 301 [] 200) echo
           "compress" None true st2
           {| status_code := 301; header_Date := Some "Tue, 03 Nov";
              body := Some (Installs []) |}
           {| tool_name := "compress"; description := "compress an image";
              input_schema := "{}"; servlet := 1%nat |}
           (set_content "\0asm" img_servlet) img_plugin).
  - reflexivity.
  - reflexivity.
  - vm_compute; reflexivity.
  - vm_compute; reflexivity.
  - apply gateway_oauth_available.
  - vm_compute; reflexivity.
  - vm_compute; reflexivity.
Defined.

(** ** An invariant of the client *)

Lemma clear_cache_invariant s :
  wf s →
  wf (clear_cache s).2 ∧ installs_ok (clear_cache s).2 ∧
  coherent (clear_cache s).2.
Proof.
  intros [H1 H2 H3 H4 H5 H6]. rewrite clear_cache_state. simpl.
  split_and!.
  - split; simpl; try done; try apply order_ok_empty.
    all: intros *; by rewrite lookup_empty.
  - intros n r. simpl. by rewrite lookup_empty.
  - intros n p. simpl. by rewrite lookup_empty.
Qed.

Lemma call_tool_invariant w run n params wasi fns wasm s :
  wf s ∧ installs_ok s ∧ coherent s →
  wf (call_tool w run (ToolName n) params wasi fns wasm s).2 ∧
  installs_ok (call_tool w run (ToolName n) params wasi fns wasm s).2 ∧
  coherent (call_tool w run (ToolName n) params wasi fns wasm s).2.
Proof.
  intros (Hwf & Hok & Hco).
  pose proof (list_installs_wf w None s Hwf) as Hwf1.
  pose proof (list_installs_installs_ok w None s Hwf Hok) as Hok1.
  pose proof (list_installs_coherent w None s Hco) as Hco1.
  unfold call_tool. rewrite resolve_tool_name.
  destruct (list_installs w None s) as [[refs|e] s1]; simpl in *; [|done].
  destruct (List.find _ _) as [t|] eqn:Hf; [|done].
  destruct (found_tool_owner s1 n t Hok1 Hf) as (_ & v & Hv & Hic & _).
  pose proof (plugin_wf w (servlet t) true (Some wasi) fns wasm s1 Hwf1).
  pose proof (plugin_installs_ok w (servlet t) true (Some wasi) fns wasm s1
                Hok1).
  pose proof (plugin_coherent w (servlet t) true (Some wasi) fns wasm s1 v
                Hv Hic Hco1).
  destruct (plugin w (servlet t) true (Some wasi) fns wasm s1)
    as [[p|e] s2]; simpl in *; [|done].
  by destruct (run p (tool_name t) (default ∅ params)).
Qed.

Lemma use_invariant u s :
  wf s ∧ installs_ok s ∧ coherent s →
  wf (use u s) ∧ installs_ok (use u s) ∧ coherent (use u s).
Proof.
  intros (Hwf & Hok & Hco).
  destruct u as [w profile|w run n params wasi fns wasm
                |reply sl nm upd cfg net fs profile|reply n profile|]; simpl.
  - split_and!; [by apply list_installs_wf|by apply list_installs_installs_ok
                 |by apply list_installs_coherent].
  - by apply call_tool_invariant.
  - destruct (install_outcome reply sl nm upd cfg net fs profile s)
      as [params ->].
    destruct (reply _ params) as [|res]; [done|].
    destruct (is_error_status (status_code res)); [done|].
    destruct (bool_decide (profile = None)); [|done].
    by apply clear_cache_invariant.
  - rewrite uninstall_outcome.
    destruct (reply _ n) as [|res]; [done|].
    destruct (is_error_status (status_code res)); [done|].
    destruct (bool_decide (profile = None)); [|done].
    by apply clear_cache_invariant.
  - by apply clear_cache_invariant.
Qed.

(** X12: However a new client is used through [list_installs], [call_tool] by
    name, [install], [uninstall] and [clear_cache], and whatever the
    gateway and the runtimes answer: every entry of the install cache
    holds a servlet object of that name whose tools point back to it, and
    every cached instance was built from the servlet object that the
    install cache holds under the same name. *)
Theorem client_caches_stay_coherent profile us :
  wf (uses us (init profile)) ∧
  installs_ok (uses us (init profile)) ∧
  coherent (uses us (init profile)).
Proof.
  assert (H : ∀ us s, wf s ∧ installs_ok s ∧ coherent s →
                      wf (uses us s) ∧ installs_ok (uses us s) ∧
                      coherent (uses us s)).
  { clear. induction us as [|u us IH]; intros s Hs; simpl; [done|].
    apply IH. by apply use_invariant. }
  apply H. split_and!.
  - apply init_wf.
  - apply init_installs_ok.
  - intros n p. simpl. by rewrite lookup_empty.
Qed.

(** ** plugin: further edge behaviour *)

(** X13: For a servlet without OAuth the fast path is silent: a cacheable
    call that finds a fresh instance returns it and leaves the whole
    state, event log included, as it was. *)
Theorem plugin_cache_hit_without_oauth w r cache wasi fns wasm s v c :
  servlets s !! r = Some v →
  has_oauth v = false →
  cache_ok cache (wasi_or_True wasi) fns wasm = true →
  plugin_cache s !! name v = Some c →
  is_fresh w c = true →
  plugin w r cache wasi fns wasm s = (Ok c, s).
Proof.
  intros Hv Ho Hok Hc Hf.
  unfold plugin, fetch_oauth. unfold_monad. simpl.
  by rewrite Hv, Ho, Hok, Hc, Hf.
Qed.

Lemma plugin_cache_hit_without_oauth_witness :
  ∃ v c,
    servlets st_pdf !! 0%nat = Some v ∧
    plugin_cache st_pdf !! name v = Some c ∧
    plugin (gateway_404 (seconds 20)) 0%nat true None None None st_pdf
      = (Ok c, st_pdf).
Proof.
  eexists _, _.
  split; [vm_compute; reflexivity|].
  split; [vm_compute; reflexivity|].
  apply plugin_cache_hit_without_oauth with
    (v := set_content "\0asm"
            {| binding_id := "b-pdf"; content_addr := "sha-pdf";
               name := "pdf"; slug := "acme/pdf";
               settings := {| permissions := Some img_permissions;
                              config := None |};
               tools := make_tools 0 [compress_tool];
               has_oauth := false; content := None |}).
  - vm_compute; reflexivity.
  - reflexivity.
  - reflexivity.
  - vm_compute; reflexivity.
  - vm_compute; reflexivity.
Defined.

(** [build] on a record without a permissions block. *)
Lemma build_missing_permissions w r ok wasi oauth fns wasm s v :
  servlets s !! r = Some v →
  permissions (settings v) = None →
  content_available w v →
  ∃ s',
    build w r ok wasi oauth fns wasm s = (Raise (KeyError "permissions"), s') ∧
    io_log s' =
      io_log s ++
      match content v with
      | Some _ => []
      | None => [GetContent (content_addr v)]
      end ∧
    plugin_cache s' = plugin_cache s.
Proof.
  intros Hv Hp Hc. unfold content_available in Hc.
  destruct (build w r ok wasi oauth fns wasm s) as [res s'] eqn:E.
  exec_build.
  all: try (destruct Hc as [? ?]; [done|congruence]).
  all: eexists; split; [reflexivity|]; simpl.
  all: by rewrite ?app_nil_r.
Qed.

(** X14: A record whose settings have no ["permissions"] key makes [plugin]
    raise [KeyError('permissions')], but not at once: the OAuth request
    (for a servlet with OAuth) and the content request (for a record
    without content) have been sent by then.  No runtime is
    constructed. *)
Theorem plugin_missing_permissions w r cache wasi fns wasm s v :
  servlets s !! r = Some v →
  permissions (settings v) = None →
  oauth_available w (config_profile s) v →
  content_available w v →
  (∀ c, plugin_cache s !! name v = Some c → is_fresh w c = false) →
  ∃ s',
    plugin w r cache wasi fns wasm s = (Raise (KeyError "permissions"), s') ∧
    new_events s s' =
      (if has_oauth v then [GetOAuth (config_profile s) (name v)] else []) ++
      match content v with
      | Some _ => []
      | None => [GetContent (content_addr v)]
      end.
Proof.
  intros Hv Hp Ho Hc Hexp.
  destruct (plugin w r cache wasi fns wasm s) as [res s'] eqn:E.
  unfold oauth_available in Ho. unfold new_events.
  exec_plugin.
  all: try (destruct Ho as (? & ? & ? & ? & ?); [done|congruence]).
  all: try match goal with
       | F : is_fresh _ _ = true |- _ =>
           rewrite Hexp in F by done; discriminate
       end.
  all: match goal with
       | H : build ?w ?r ?ok ?wa ?oa ?f ?m ?s0 = _ |- _ =>
           destruct (build_missing_permissions w r ok wa oa f m s0 v
                       ltac:(done) Hp Hc) as (s1 & E1 & Hlog & _);
           rewrite E1 in H; injection H as <- <-
       end.
  all: eexists; split; [reflexivity|].
  all: rewrite Hlog; simpl.
  all: rewrite <- ?app_assoc, drop_app_length.
  all: match goal with H : content _ = _ |- _ => by rewrite H end.
Qed.

Lemma plugin_missing_permissions_witness :
  ∃ s',
    plugin (gateway (seconds 10) 200 [] 200) 0%nat true None None None
      (list_installs (gateway 0 200 [pdf_wire] 200) None st0).2
      = (Raise (KeyError "permissions"), s') ∧
    new_events (list_installs (gateway 0 200 [pdf_wire] 200) None st0).2 s' =
      [] ++ [GetContent "sha-pdf"].
Proof.
  apply (plugin_missing_permissions (gateway (seconds 10) 200 [] 200) 0%nat
           true None None None
           (list_installs (gateway 0 200 [pdf_wire] 200) None st0).2
           {| binding_id := "b-pdf"; content_addr := "sha-pdf";
              name := "pdf"; slug := "acme/pdf";
              settings := {| permissions := None; config := None |};
              tools := make_tools 0 [compress_tool];
              has_oauth := false; content := None |}).
  - vm_compute; reflexivity.
  - reflexivity.
  - apply gateway_oauth_available.
  - apply gateway_content_available.
  - intros c Hc. vm_compute in Hc. discriminate Hc.
Defined.

(** The config a runtime is constructed with, after a successful
    [build]. *)
Lemma build_manifest_config w r ok wasi oauth fns wasm s v p s' :
  servlets s !! r = Some v →
  build w r ok wasi oauth fns wasm s = (Ok p, s') →
  (∀ info, oauth = Some info →
           rt_config (_plugin p) !! config_name info
             = Some (access_token info)) ∧
  (config (settings v) = None →
   rt_config (_plugin p) = injected oauth ∅ ∧
   (next_ref s ≤ manifest_config (rt_manifest (_plugin p)) < next_ref s')%nat
   ∧ ∀ l, (l < next_ref s)%nat → dicts s' !! l = dicts s !! l).
Proof.
  intros Hv E. unfold injected.
  exec_build.
  all: rewrite ?lookup_insert_eq in *; simplify_eq.
  all: split; [intros; simplify_eq; try apply lookup_insert_eq; done|].
  all: intros; simplify_eq; split_and!; try done; try lia.
  all: intros; rewrite ?lookup_insert_ne by lia; done.
Qed.

(** X15: The "OAuth injection" of [plugin]: every instance built for a
    servlet with OAuth is constructed with the fetched access token under
    the fetched config name, whatever the settings held under that name.
    When the settings have no ["config"] key, the token goes into a dict
    made for this one manifest: no dict that existed before is touched,
    and the record's settings stay without config. *)
Theorem plugin_injects_oauth_token w r cache wasi fns wasm s v p s' :
  servlets s !! r = Some v →
  has_oauth v = true →
  plugin w r cache wasi fns wasm s = (Ok p, s') →
  ¬ fast_path w cache wasi fns wasm v s p →
  ∃ res info,
    oauth_reply w (config_profile s) (name v) = Got res ∧
    body res = Some info ∧
    rt_config (_plugin p) !! config_name info = Some (access_token info) ∧
    (config (settings v) = None →
     rt_config (_plugin p) = <[config_name info := access_token info]> ∅ ∧
     (next_ref s ≤ manifest_config (rt_manifest (_plugin p)))%nat ∧
     (∀ l, (l < next_ref s)%nat → dicts s' !! l = dicts s !! l) ∧
     ∃ v', servlets s' !! r = Some v' ∧ config (settings v') = None).
Proof.
  intros Hv Ho E Hslow.
  destruct (plugin_record _ _ _ _ _ _ _ _ _ _ Hv E)
    as (v' & Hv' & _ & _ & Hset & _).
  unfold fast_path in Hslow.
  exec_plugin.
  all: try (exfalso; apply Hslow; by rewrite ?wasi_or_True_true).
  all: match goal with
       | H : build _ _ _ _ (Some ?o) _ _ ?s0 = _ |- _ =>
           eapply build_manifest_config in H as [Hinj Hnone];
           [|simpl; eassumption];
           eexists _, o; split; [reflexivity|]; split; [done|];
           split; [by apply Hinj|];
           intros Hcfg; destruct (Hnone Hcfg) as (? & ? & ?);
           split_and!; [done|simpl in *; lia|done|];
           exists v'; split; [done|by rewrite Hset]
       end.
Qed.

Lemma plugin_injects_oauth_token_witness :
  ∃ res info,
    oauth_reply (gateway (seconds 10) 200 [img_wire] 200)
      (config_profile st1) (name img_servlet) = Got res ∧
    body res = Some info ∧
    rt_config (_plugin img_plugin) !! config_name info
      = Some (access_token info) ∧
    (config (settings img_servlet) = None →
     rt_config (_plugin img_plugin)
       = <[config_name info := access_token info]> ∅ ∧
     (next_ref st1 ≤ manifest_config (rt_manifest (_plugin img_plugin)))%nat ∧
     (∀ l, (l < next_ref st1)%nat → dicts st2 !! l = dicts st1 !! l) ∧
     ∃ v', servlets st2 !! 1%nat = Some v' ∧ config (settings v') = None).
Proof.
  apply (plugin_injects_oauth_token (gateway (seconds 10) 200 [img_wire] 200)
           1%nat true None None None st1 img_servlet img_plugin st2).
  - vm_compute; reflexivity.
  - reflexivity.
  - vm_compute; reflexivity.
  - intros (_ & Hc & _). vm_compute in Hc. discriminate Hc.
Defined.

(** X16: The plugin cache is keyed by the servlet's name alone: once a call
    on one servlet object has cached the instance it built, a cacheable
    call on another servlet object of the same name, made within the
    lifetime of that instance, returns it, although it was built from
    the first object. *)
Theorem plugin_cache_keyed_by_name w1 w2 wasi1 wasi2 r1 r2 s v1 v2 p1 s1 :
  servlets s !! r1 = Some v1 →
  servlets s !! r2 = Some v2 →
  r1 ≠ r2 →
  name v2 = name v1 →
  plugin_cache s !! name v1 = None →
  plugin w1 r1 true wasi1 None None s = (Ok p1, s1) →
  oauth_available w2 (config_profile s) v2 →
  now w2 < _timestamp p1 + timedelta 4 30 →
  _install p1 = r1 ∧
  ∃ s2,
    plugin w2 r2 true wasi2 None None s1 = (Ok p1, s2) ∧
    _install p1 ≠ r2.
Proof.
  intros Hv1 Hv2 Hne Hname Hnone E1 Ho Hlt.
  destruct (plugin_effect _ _ _ _ _ _ _ _ _ _ Hv1 E1)
    as (Hprof & _ & _ & _ & Hcase).
  assert (Hok : ∀ wasi, cache_ok true (wasi_or_True wasi) None None = true).
  { intros wasi. by rewrite wasi_or_True_true. }
  destruct Hcase as [[(_ & ? & _) _]|(_ & _ & Hinst & _ & _ & Hpc)];
    [congruence|].
  rewrite Hok in Hpc. split; [done|].
  pose proof (plugin_keeps_records w1 r1 true wasi1 None None s r2 v2 Hv2)
    as (v2' & Hv2' & Hn2 & _ & _ & Ho2).
  rewrite E1 in Hv2'. simpl in Hv2'.
  destruct (plugin_fast w2 r2 true wasi2 None None s1 v2' p1)
    as (s2 & E2 & _); try done.
  - unfold oauth_available in *. by rewrite Hprof, Hn2, Ho2.
  - rewrite Hpc, Hn2, Hname. apply lookup_insert_eq.
  - by apply is_fresh_true.
  - exists s2. split; [done|congruence].
Qed.

Lemma plugin_cache_keyed_by_name_witness :
  _install img_plugin_again = 3%nat ∧
  ∃ s2,
    plugin (gateway (seconds 20) 200 [] 200) 1%nat true None None None
      (plugin (gateway (seconds 10) 200 [] 200) 3%nat true None None None
         st_twice).2 = (Ok img_plugin_again, s2) ∧
    _install img_plugin_again ≠ 1%nat.
Proof.
  apply (plugin_cache_keyed_by_name (gateway (seconds 10) 200 [] 200)
           (gateway (seconds 20) 200 [] 200) None None 3%nat 1%nat st_twice
           img_servlet_again img_servlet img_plugin_again).
  - vm_compute; reflexivity.
  - vm_compute; reflexivity.
  - discriminate.
  - reflexivity.
  - vm_compute; reflexivity.
  - vm_compute; reflexivity.
  - apply gateway_oauth_available.
  - vm_compute; reflexivity.
Defined.

(** ** Listings accumulate *)

(** X17: The install cache is one dict for all profiles, and a listing only
    adds to it: whatever was cached, and whatever a listing (of any
    profile) that was answered with an install list has put there, is
    still a key after the next listing, of whichever profile and however
    it is answered. *)
Theorem list_installs_accumulates w1 profile1 w2 profile2 s res data n :
  installations_reply w1 (profile_of s profile1)
    (last_for s (profile_of s profile1)) = Got res →
  is_error_status (status_code res) = false →
  status_code res ≠ 301 →
  body res = Some (Installs data) →
  n ∈ wire_name <$> data ∨ is_Some (install_cache s !! n) →
  is_Some
    (install_cache
       (list_installs w2 profile2 (list_installs w1 profile1 s).2).2 !! n).
Proof.
  intros Hrep Herr H301 Hbody Hn.
  apply list_installs_keeps_keys.
  destruct Hn as [Hn|Hn]; [|by apply list_installs_keeps_keys].
  destruct (list_installs_refresh _ _ _ _ _ Hrep Herr H301 Hbody)
    as (refs & s' & E & _ & Hin & _).
  rewrite E. simpl. destruct (Hin n Hn) as (_ & r & -> & _). by eexists.
Qed.

Lemma list_installs_accumulates_witness :
  is_Some
    (install_cache
       (list_installs (gateway (seconds 9) 200 [pdf_wire] 200)
          (Some "acme/other")
          (list_installs (gateway 0 200 [img_wire] 200) None st0).2).2
       !! "img").
Proof.
  apply (list_installs_accumulates (gateway 0 200 [img_wire] 200) None
           (gateway (seconds 9) 200 [pdf_wire] 200) (Some "acme/other") st0
           {| status_code := 200; header_Date := Some "Tue, 03 Nov";
              body := Some (Installs [img_wire]) |} [img_wire] "img").
  - reflexivity.
  - reflexivity.
  - vm_compute; discriminate.
  - reflexivity.
  - left. apply list_elem_of_In. by left.
Defined.

(** ** User *)

(** X18: [User.primary_email] is the first email of the list that is marked
    primary: every email before it is not; and it is [None] exactly when
    no email of the list is marked primary (in particular for a user
    without emails). *)
Theorem primary_email_is_first_primary u :
  match primary_email u with
  | Some e =>
      primary e = true ∧
      ∃ before after,
        emails u = before ++ e :: after ∧
        Forall (λ e', primary e' = false) before
  | None => Forall (λ e', primary e' = false) (emails u)
  end.
Proof.
  unfold primary_email. induction (emails u) as [|e l IH]; simpl.
  { constructor. }
  destruct (primary e) eqn:Hp.
  - split; [done|]. by exists [], l.
  - destruct (List.find primary l) as [e'|].
    + destruct IH as (Hp' & before & after & -> & Hb).
      split; [done|]. exists (e :: before), after. split; [done|].
      by constructor.
    + by constructor.
Qed.

(** X19: [User.verified_emails] keeps exactly the verified emails, in the
    order of the list, and every primary email that is verified is among
    them. *)
Theorem verified_emails_spec u :
  (∀ e, e ∈ verified_emails u ↔ e ∈ emails u ∧ verified e = true) ∧
  verified_emails u `sublist_of` emails u ∧
  (∀ e, primary_email u = Some e → verified e = true →
        e ∈ verified_emails u).
Proof.
  unfold verified_emails, primary_email. split_and!.
  - intros e. rewrite !list_elem_of_In, filter_In. tauto.
  - induction (emails u) as [|e l IH]; simpl; [constructor|].
    destruct (verified e); by constructor.
  - intros e Hf Hv. apply find_some in Hf as [Hin _].
    apply list_elem_of_In, filter_In. by split.
Qed.

(** ** Installs of the same name *)

Lemma list_installs_loop_last pre iw post : ∀ s,
  wire_name iw ∉ wire_name <$> post →
  ∃ r v,
    install_cache (mapM list_installs_item (pre ++ iw :: post) s).2
      !! wire_name iw = Some r ∧
    servlets (mapM list_installs_item (pre ++ iw :: post) s).2 !! r
      = Some v ∧
    content_addr v = iw_contentAddress iw ∧
    has_oauth v = iw_has_client iw ∧
    permissions (settings v) = iw_permissions iw.
Proof.
  induction pre as [|x pre IH]; intros s Hlast; simpl.
  - destruct (list_installs_item_effect iw s)
      as (r & s1 & E1 & Hr & Hi & _).
    destruct (list_installs_item_record iw s)
      as (r' & v & Hres & Hv & _ & _ & Haddr & Ho & Hperm & _).
    rewrite E1 in Hres, Hv. simpl in *. injection Hres as <-.
    destruct (list_installs_loop post s1)
      as (refs & s' & E & _ & _ & _ & Hout & _).
    destruct (list_installs_loop_store post s1 r) as [Hs _]; [lia|].
    rewrite E in Hs. simpl in Hs.
    unfold bind at 1 3. rewrite E1.
    unfold bind at 1 2. rewrite E. simpl.
    exists r, v. destruct (Hout _ Hlast) as [_ ->].
    by rewrite Hi, lookup_insert_eq, Hs.
  - destruct (list_installs_item_effect x s) as (r & s1 & E1 & _).
    destruct (IH s1 Hlast) as (r' & v & H).
    unfold bind at 1 3. rewrite E1.
    unfold bind at 1 2.
    destruct (mapM list_installs_item (pre ++ iw :: post) s1)
      as [[refs|e] s2]; simpl in *; by exists r', v.
Qed.

(** X20: When an install list names a servlet more than once, or has several
    installs without a name (they all get the empty name), the last of
    them is the one the install cache holds afterwards; all of them are
    yielded. *)
Theorem list_installs_last_wins w profile s res pre iw post :
  installations_reply w (profile_of s profile)
    (last_for s (profile_of s profile)) = Got res →
  is_error_status (status_code res) = false →
  status_code res ≠ 301 →
  body res = Some (Installs (pre ++ iw :: post)) →
  wire_name iw ∉ wire_name <$> post →
  ∃ refs s' r v,
    list_installs w profile s = (Ok refs, s') ∧
    length refs = length (pre ++ iw :: post) ∧
    install_cache s' !! wire_name iw = Some r ∧
    servlets s' !! r = Some v ∧
    content_addr v = iw_contentAddress iw ∧
    has_oauth v = iw_has_client iw ∧
    permissions (settings v) = iw_permissions iw.
Proof.
  intros Hrep Herr H301 Hbody Hlast.
  destruct (list_installs_refresh _ _ _ _ _ Hrep Herr H301 Hbody)
    as (refs & s' & E & Hlen & _).
  exists refs, s'.
  unfold list_installs, last_request, fix_profile, profile_of in *.
  destruct (list_installs_loop_last pre iw post
              (set_last_installations_request
                 <[default (config_profile s) profile := header_Date res]>
                 (requested s (default (config_profile s) profile))) Hlast)
    as (r & v & H).
  exists r, v. split; [done|]. split; [done|].
  revert E.
  destruct profile as [p|]; unfold_monad; simpl in *.
  all: rewrite Hrep, Herr; simpl.
  all: rewrite bool_decide_eq_false_2 by done.
  all: rewrite Hbody; simpl.
  all: unfold requested, log, modify in H; simpl in H.
  all: intros E; rewrite E in H; exact H.
Qed.

Lemma list_installs_last_wins_witness :
  ∃ refs s' r v,
    list_installs
      (gateway 0 200 [anonymous_wire "sha-1"; anonymous_wire "sha-2"] 200)
      None st0 = (Ok refs, s') ∧
    length refs = length ([anonymous_wire "sha-1"] ++
                          anonymous_wire "sha-2" :: []) ∧
    install_cache s' !! wire_name (anonymous_wire "sha-2") = Some r ∧
    servlets s' !! r = Some v ∧
    content_addr v = iw_contentAddress (anonymous_wire "sha-2") ∧
    has_oauth v = iw_has_client (anonymous_wire "sha-2") ∧
    permissions (settings v) = iw_permissions (anonymous_wire "sha-2").
Proof.
  apply (list_installs_last_wins
           (gateway 0 200 [anonymous_wire "sha-1"; anonymous_wire "sha-2"]
              200)
           None st0
           {| status_code := 200; header_Date := Some "Tue, 03 Nov";
              body := Some (Installs [anonymous_wire "sha-1"; anonymous_wire "sha-2"]) |}
           [anonymous_wire "sha-1"] (anonymous_wire "sha-2") []).
  - reflexivity.
  - reflexivity.
  - vm_compute; discriminate.
  - reflexivity.
  - apply not_elem_of_nil.
Defined.



End McpRun.
